(** * yaynay-agent: suggestion queue, proposal history, allocation, analysis gate

    A shallow embedding of the TypeScript sources

      - [src/lib/dao/suggestionsQueue.ts]
      - [src/lib/dao/proposalHistory.ts]
      - [src/lib/dao/calculateAllocation.ts]
      - [src/scripts/agent.ts]
      - [src/lib/agent/analyzeCreator.ts] (analyzeAndPropose, suggestBuys)
      - [src/server.ts]                   (the queue and analyze endpoints)
      - [src/scripts/executeProposals.ts] (the cooldown and the main loop)

    Conventions of the embedding.

      - The JSON file behind the queue is explicit state ([QueueFile]) that
        every operation receives and returns.
      - Clock readings ([Date.now()], [new Date().toISOString()]) and the
        random suffix of a fresh id are arguments of the operation that
        reads them.
      - A [bigint] is a [Z].  Where the source computes with a [number]
        and the rounding can show (a product handed to [BigInt] or
        [Math.floor], a quotient or a parsed decimal handed to [toFixed],
        a comparison with a value of any JSON type) the number is a
        [Float64.number] and the operations round as binary64 does.  Where
        a number is only stored, clamped or compared with a constant (the
        confidence of an analysis, the minutes of the cooldown) it is held
        as the rational it denotes, [NaN] being [None].
      - Strings are ASCII: [toLowerCase], [trim] and the [\s] class act on the
        ASCII range.
      - A thrown exception is the [Throw] constructor of [Result].
      - Optional fields ([?:], [| null], [| undefined]) are [option]s. *)

From Stdlib Require Import ZArith QArith Qround List String Ascii Bool Lia Permutation.
From Stdlib Require Import DecimalString DecimalZ.
Import ListNotations.

Local Open Scope string_scope.
Local Open Scope Z_scope.

(** ** JavaScript primitives used by the sources *)

Module JS.

(** Outcome of a call that may throw. *)
Inductive Result (A : Type) : Type :=
| Ok (a : A)
| Throw (message : string).
Arguments Ok {A} a.
Arguments Throw {A} message.

Definition is_upper (c : ascii) : bool :=
  let n := nat_of_ascii c in (Nat.leb 65 n && Nat.leb n 90)%bool.

Definition lower_char (c : ascii) : ascii :=
  if is_upper c then ascii_of_nat (nat_of_ascii c + 32) else c.

(** [String.prototype.toLowerCase] on the ASCII range (addresses are
    hexadecimal ASCII strings). *)
Fixpoint toLowerCase (s : string) : string :=
  match s with
  | EmptyString => EmptyString
  | String c r => String (lower_char c) (toLowerCase r)
  end.

(** [String.prototype.startsWith]. *)
Definition startsWith (s p : string) : bool := String.prefix p s.

(** [a.includes(b)]: [b] occurs somewhere in [a]. *)
Fixpoint includes (a b : string) : bool :=
  (String.prefix b a
   || match a with
      | EmptyString => false
      | String _ r => includes r b
      end)%bool.

(** Truthiness of a string: the empty string is falsy. *)
Definition truthy (s : string) : bool :=
  match s with EmptyString => false | _ => true end.

(** Truthiness of an optional string ([undefined] is falsy). *)
Definition truthy_opt (o : option string) : bool :=
  match o with Some s => truthy s | None => false end.

(** [a || b] on optional strings. *)
Definition or_else (a : option string) (b : option string) : option string :=
  if truthy_opt a then a else b.

(** [`${n}`] for an integral number. *)
Definition numberToString (n : Z) : string :=
  NilZero.string_of_int (Z.to_int n).

(** The one-character string holding a double quote. *)
Definition dquote : string := String (ascii_of_nat 34) EmptyString.

(** [Array.prototype.find]. *)
Definition find {A} (p : A -> bool) (l : list A) : option A := List.find p l.

(** The element [find] returns is an alias into the array: assigning to its
    fields changes the first element that satisfies [p]. *)
Fixpoint update_found {A} (p : A -> bool) (f : A -> A) (l : list A) : list A :=
  match l with
  | [] => []
  | x :: r => if p x then f x :: r else x :: update_found p f r
  end.

(** [Math.min] and [Math.max] on exact values. *)
Definition Math_min (a b : Q) : Q := if Qle_bool a b then a else b.
Definition Math_max (a b : Q) : Q := if Qle_bool a b then b else a.

Definition underscore : ascii := "_"%char.

(** No character of [s] is an underscore. *)
Fixpoint no_underscore (s : string) : Prop :=
  match s with
  | EmptyString => True
  | String c r => c <> underscore /\ no_underscore r
  end.

End JS.

Import JS.

(** ** Binary64 numbers *)

Module Float64.

(** A JavaScript [number].  [Finite v] carries the exact value [v] of a
    binary64 number; zero carries no sign.  Finite numbers are made by
    [round] (a decimal literal of the source [c] is [round c]) and by the
    operations below, which round as IEEE 754 does. *)
Inductive number :=
| NaN
| Infinity (negative : bool)
| Finite (value : Q).

(** The integer nearest to [a / b] for [0 <= a] and [0 < b]; of two equally
    near ones the even one. *)
Definition nearest_even (a b : Z) : Z :=
  let q := a / b in
  match 2 * (a mod b) ?= b with
  | Lt => q
  | Gt => q + 1
  | Eq => if Z.even q then q else q + 1
  end.

(** [n / d] divided by [2 ^ e], as a fraction. *)
Definition scaled (n d e : Z) : Z * Z :=
  if 0 <=? e then (n, d * 2 ^ e) else (n * 2 ^ (- e), d).

(** Exponent of the last mantissa bit for the magnitude [n / d]
    ([0 < n], [0 < d]): [floor (log2 (n / d)) - 52], and [-1074] in the
    subnormal range. *)
Definition exponent (n d : Z) : Z :=
  let k := Z.log2 n - Z.log2 d in
  let below := let '(a, b) := scaled n d k in a <? b in
  Z.max (-1074) ((if below then k - 1 else k) - 52).

Definition mantissa (n d : Z) : Z :=
  let '(a, b) := scaled n d (exponent n d) in nearest_even a b.

(** The number with magnitude [m * 2 ^ e]; magnitudes from [2 ^ 1024] on
    overflow. *)
Definition of_parts (negative : bool) (m e : Z) : number :=
  if 2 ^ 1024 <=? m * 2 ^ e then Infinity negative
  else
    let s := if negative then - m else m in
    Finite (Qred (if 0 <=? e then inject_Z (s * 2 ^ e)
                  else Qmake s (Z.to_pos (2 ^ (- e))))).

(** The number nearest to the magnitude [n / d] ([0 < n], [0 < d]), ties to
    even, with the sign given. *)
Definition round_magnitude (negative : bool) (n d : Z) : number :=
  of_parts negative (mantissa n d) (exponent n d).

(** The binary64 number nearest to a rational (round to nearest, ties to
    even). *)
Definition round (q : Q) : number :=
  match Qnum q with
  | 0 => Finite 0
  | Zpos n => round_magnitude false (Zpos n) (Zpos (Qden q))
  | Zneg n => round_magnitude true (Zpos n) (Zpos (Qden q))
  end.

(** A number received from outside is read as the binary64 number nearest
    to the value it carries. *)
Definition norm (x : number) : number :=
  match x with
  | Finite q => round q
  | _ => x
  end.

(** [Number(z)] of a [bigint]; an integer below [2 ^ 53] is itself. *)
Definition fromZ (z : Z) : number := round (inject_Z z).

Definition is_zero (q : Q) : bool := Qnum q =? 0.
Definition is_negative (q : Q) : bool := Qnum q <? 0.

(** [x * y]. *)
Definition mul (x y : number) : number :=
  match x, y with
  | NaN, _ | _, NaN => NaN
  | Infinity s, Infinity t => Infinity (xorb s t)
  | Infinity s, Finite b | Finite b, Infinity s =>
      if is_zero b then NaN else Infinity (xorb s (is_negative b))
  | Finite a, Finite b => round (a * b)
  end.

(** [x / y]; a zero divisor counts as [+0]. *)
Definition div (x y : number) : number :=
  match x, y with
  | NaN, _ | _, NaN => NaN
  | Infinity _, Infinity _ => NaN
  | Infinity s, Finite b => Infinity (xorb s (is_negative b))
  | Finite _, Infinity _ => Finite 0
  | Finite a, Finite b =>
      if is_zero b
      then if is_zero a then NaN else Infinity (is_negative a)
      else round (a / b)
  end.

(** [x - y]. *)
Definition sub (x y : number) : number :=
  match x, y with
  | NaN, _ | _, NaN => NaN
  | Infinity s, Infinity t => if Bool.eqb s t then NaN else Infinity s
  | Infinity s, Finite _ => Infinity s
  | Finite _, Infinity t => Infinity (negb t)
  | Finite a, Finite b => round (a - b)
  end.

(** [Math.floor]. *)
Definition floor (x : number) : number :=
  match x with
  | Finite a => Finite (inject_Z (Qfloor a))
  | _ => x
  end.

(** [x < y]; a comparison with [NaN] is false. *)
Definition ltb (x y : number) : bool :=
  match x, y with
  | NaN, _ | _, NaN => false
  | Infinity s, Infinity t => s && negb t
  | Infinity s, Finite _ => s
  | Finite _, Infinity t => negb t
  | Finite a, Finite b => negb (Qle_bool b a)
  end.

(** [Math.min(x, y)] and [Math.max(x, y)]. *)
Definition Math_min (x y : number) : number :=
  match x, y with
  | NaN, _ | _, NaN => NaN
  | _, _ => if ltb y x then y else x
  end.

Definition Math_max (x y : number) : number :=
  match x, y with
  | NaN, _ | _, NaN => NaN
  | _, _ => if ltb x y then y else x
  end.

(** [BigInt(x)] of a number: throws ([None]) unless [x] is an integer. *)
Definition BigInt (x : number) : option Z :=
  match x with
  | Finite a => if Qeq_bool a (inject_Z (Qfloor a)) then Some (Qfloor a) else None
  | _ => None
  end.

End Float64.


(** ** [src/lib/dao/suggestionsQueue.ts] *)

Module SuggestionsQueue.

Inductive Status := pending | processing | completed | failed.

Definition Status_eqb (a b : Status) : bool :=
  match a, b with
  | pending, pending | processing, processing
  | completed, completed | failed, failed => true
  | _, _ => false
  end.

Inductive Source := manual | agent.

Record QueuedSuggestion := {
  id : string;
  coinId : string;
  coinSymbol : option string;
  coinName : option string;
  creatorAddress : option string;
  creatorName : option string;
  pfpUrl : option string;
  currentPriceUsd : option Q;
  volume24hUsd : option Q;
  reason : string;
  confidenceScore : Q;
  suggestedAllocationUsd : option Q;
  source : Source;
  submittedBy : option string;
  addedAt : string;
  status : Status;
  processedAt : option string;
  proposalId : option string;
  txHash : option string;
  errorMessage : option string
}.

(** [Omit<QueuedSuggestion, 'id' | 'addedAt' | 'status'>]. *)
Record SuggestionInput := {
  in_coinId : string;
  in_coinSymbol : option string;
  in_coinName : option string;
  in_creatorAddress : option string;
  in_creatorName : option string;
  in_pfpUrl : option string;
  in_currentPriceUsd : option Q;
  in_volume24hUsd : option Q;
  in_reason : string;
  in_confidenceScore : Q;
  in_suggestedAllocationUsd : option Q;
  in_source : Source;
  in_submittedBy : option string;
  in_processedAt : option string;
  in_proposalId : option string;
  in_txHash : option string;
  in_errorMessage : option string
}.

Record SuggestionsQueue := {
  suggestions : list QueuedSuggestion;
  lastUpdated : string
}.

(** The persisted document [data/suggestions-queue.json]. *)
Inductive QueueFile :=
| FileMissing
| FileUnreadable
| FileContent (q : SuggestionsQueue).

(** [loadQueue]: a missing or unreadable file is an empty queue. *)
Definition loadQueue (now : string) (file : QueueFile) : SuggestionsQueue :=
  match file with
  | FileContent q => q
  | FileMissing | FileUnreadable => {| suggestions := []; lastUpdated := now |}
  end.

(** [saveQueue]: stamps [lastUpdated] and rewrites the whole document. *)
Definition saveQueue (now : string) (queue : SuggestionsQueue) : QueueFile :=
  FileContent {| suggestions := suggestions queue; lastUpdated := now |}.

(** The id template
    [`suggestion_${Date.now()}_${Math.random().toString(36).substring(7)}`];
    [dateNow] is the clock reading and [rnd] the random suffix. *)
Definition newId (dateNow : Z) (rnd : string) : string :=
  "suggestion_" ++ numberToString dateNow ++ "_" ++ rnd.

Definition newSuggestion (dateNow : Z) (rnd now : string)
    (suggestion : SuggestionInput) : QueuedSuggestion :=
  {| id := newId dateNow rnd;
     coinId := in_coinId suggestion;
     coinSymbol := in_coinSymbol suggestion;
     coinName := in_coinName suggestion;
     creatorAddress := in_creatorAddress suggestion;
     creatorName := in_creatorName suggestion;
     pfpUrl := in_pfpUrl suggestion;
     currentPriceUsd := in_currentPriceUsd suggestion;
     volume24hUsd := in_volume24hUsd suggestion;
     reason := in_reason suggestion;
     confidenceScore := in_confidenceScore suggestion;
     suggestedAllocationUsd := in_suggestedAllocationUsd suggestion;
     source := in_source suggestion;
     submittedBy := in_submittedBy suggestion;
     addedAt := now;
     status := pending;
     processedAt := in_processedAt suggestion;
     proposalId := in_proposalId suggestion;
     txHash := in_txHash suggestion;
     errorMessage := in_errorMessage suggestion |}.

(** [addSuggestionToQueue]: load, push, save; returns the new record. *)
Definition addSuggestionToQueue (dateNow : Z) (rnd now : string)
    (suggestion : SuggestionInput) (file : QueueFile)
  : QueuedSuggestion * QueueFile :=
  let queue := loadQueue now file in
  let s := newSuggestion dateNow rnd now suggestion in
  (s, saveQueue now {| suggestions := suggestions queue ++ [s];
                       lastUpdated := lastUpdated queue |}).

Definition is_pending (s : QueuedSuggestion) : bool :=
  Status_eqb (status s) pending.

Definition getPendingSuggestions (now : string) (file : QueueFile)
  : list QueuedSuggestion :=
  filter is_pending (suggestions (loadQueue now file)).

(** [getNextSuggestion]: [pending[0]] or [null]. *)
Definition getNextSuggestion (now : string) (file : QueueFile)
  : option QueuedSuggestion :=
  match getPendingSuggestions now file with
  | [] => None
  | s :: _ => Some s
  end.

Record Metadata := {
  m_proposalId : option string;
  m_txHash : option string;
  m_errorMessage : option string
}.

Definition has_id (i : string) (s : QueuedSuggestion) : bool :=
  String.eqb (id s) i.

Definition set_status (st : Status) (s : QueuedSuggestion) : QueuedSuggestion :=
  {| id := id s; coinId := coinId s; coinSymbol := coinSymbol s;
     coinName := coinName s; creatorAddress := creatorAddress s;
     creatorName := creatorName s; pfpUrl := pfpUrl s;
     currentPriceUsd := currentPriceUsd s; volume24hUsd := volume24hUsd s;
     reason := reason s; confidenceScore := confidenceScore s;
     suggestedAllocationUsd := suggestedAllocationUsd s;
     source := source s; submittedBy := submittedBy s; addedAt := addedAt s;
     status := st;
     processedAt := processedAt s; proposalId := proposalId s;
     txHash := txHash s; errorMessage := errorMessage s |}.

Definition set_processedAt (t : string) (s : QueuedSuggestion) : QueuedSuggestion :=
  {| id := id s; coinId := coinId s; coinSymbol := coinSymbol s;
     coinName := coinName s; creatorAddress := creatorAddress s;
     creatorName := creatorName s; pfpUrl := pfpUrl s;
     currentPriceUsd := currentPriceUsd s; volume24hUsd := volume24hUsd s;
     reason := reason s; confidenceScore := confidenceScore s;
     suggestedAllocationUsd := suggestedAllocationUsd s;
     source := source s; submittedBy := submittedBy s; addedAt := addedAt s;
     status := status s;
     processedAt := Some t; proposalId := proposalId s;
     txHash := txHash s; errorMessage := errorMessage s |}.

Definition set_proposalId (p : string) (s : QueuedSuggestion) : QueuedSuggestion :=
  {| id := id s; coinId := coinId s; coinSymbol := coinSymbol s;
     coinName := coinName s; creatorAddress := creatorAddress s;
     creatorName := creatorName s; pfpUrl := pfpUrl s;
     currentPriceUsd := currentPriceUsd s; volume24hUsd := volume24hUsd s;
     reason := reason s; confidenceScore := confidenceScore s;
     suggestedAllocationUsd := suggestedAllocationUsd s;
     source := source s; submittedBy := submittedBy s; addedAt := addedAt s;
     status := status s;
     processedAt := processedAt s; proposalId := Some p;
     txHash := txHash s; errorMessage := errorMessage s |}.

Definition set_txHash (h : string) (s : QueuedSuggestion) : QueuedSuggestion :=
  {| id := id s; coinId := coinId s; coinSymbol := coinSymbol s;
     coinName := coinName s; creatorAddress := creatorAddress s;
     creatorName := creatorName s; pfpUrl := pfpUrl s;
     currentPriceUsd := currentPriceUsd s; volume24hUsd := volume24hUsd s;
     reason := reason s; confidenceScore := confidenceScore s;
     suggestedAllocationUsd := suggestedAllocationUsd s;
     source := source s; submittedBy := submittedBy s; addedAt := addedAt s;
     status := status s;
     processedAt := processedAt s; proposalId := proposalId s;
     txHash := Some h; errorMessage := errorMessage s |}.

Definition set_errorMessage (m : string) (s : QueuedSuggestion) : QueuedSuggestion :=
  {| id := id s; coinId := coinId s; coinSymbol := coinSymbol s;
     coinName := coinName s; creatorAddress := creatorAddress s;
     creatorName := creatorName s; pfpUrl := pfpUrl s;
     currentPriceUsd := currentPriceUsd s; volume24hUsd := volume24hUsd s;
     reason := reason s; confidenceScore := confidenceScore s;
     suggestedAllocationUsd := suggestedAllocationUsd s;
     source := source s; submittedBy := submittedBy s; addedAt := addedAt s;
     status := status s;
     processedAt := processedAt s; proposalId := proposalId s;
     txHash := txHash s; errorMessage := Some m |}.

(** [if (metadata?.field) suggestion.field = metadata.field]. *)
Definition assign_if_truthy (field : option string)
    (set : string -> QueuedSuggestion -> QueuedSuggestion)
    (s : QueuedSuggestion) : QueuedSuggestion :=
  match field with
  | Some v => if truthy v then set v s else s
  | None => s
  end.

Definition meta_field (metadata : option Metadata)
    (proj : Metadata -> option string) : option string :=
  match metadata with Some m => proj m | None => None end.

(** The assignments [updateSuggestionStatus] makes to the found record, in
    source order. *)
Definition applyUpdate (now : string) (st : Status) (metadata : option Metadata)
    (s : QueuedSuggestion) : QueuedSuggestion :=
  let s1 := set_status st s in
  let s2 := match st with
            | completed | failed => set_processedAt now s1
            | _ => s1
            end in
  let s3 := assign_if_truthy (meta_field metadata m_proposalId) set_proposalId s2 in
  let s4 := assign_if_truthy (meta_field metadata m_txHash) set_txHash s3 in
  assign_if_truthy (meta_field metadata m_errorMessage) set_errorMessage s4.

(** [updateSuggestionStatus]: throws when [find] yields nothing (before any
    write), otherwise mutates the found record and saves. *)
Definition updateSuggestionStatus (now : string) (i : string) (st : Status)
    (metadata : option Metadata) (file : QueueFile) : Result unit * QueueFile :=
  let queue := loadQueue now file in
  match find (has_id i) (suggestions queue) with
  | None => (Throw ("Suggestion not found: " ++ i), file)
  | Some _ =>
      (Ok tt,
       saveQueue now
         {| suggestions := update_found (has_id i) (applyUpdate now st metadata)
                             (suggestions queue);
            lastUpdated := lastUpdated queue |})
  end.

Definition getAllSuggestions (now : string) (file : QueueFile)
  : list QueuedSuggestion :=
  suggestions (loadQueue now file).

(** [deleteSuggestion]: drops every record with the id; saves only when the
    length went down. *)
Definition deleteSuggestion (now : string) (i : string) (file : QueueFile)
  : bool * QueueFile :=
  let queue := loadQueue now file in
  let kept := filter (fun s => negb (has_id i s)) (suggestions queue) in
  if (List.length kept <? List.length (suggestions queue))%nat
  then (true, saveQueue now {| suggestions := kept;
                               lastUpdated := lastUpdated queue |})
  else (false, file).

(** [isCoinInQueue]: case-insensitive match among pending records. *)
Definition isCoinInQueue (now : string) (coinAddress : string)
    (file : QueueFile) : bool :=
  let addressLower := toLowerCase coinAddress in
  existsb (fun s => String.eqb (toLowerCase (coinId s)) addressLower)
          (getPendingSuggestions now file).

(** The object [getQueueStats] returns. *)
Record QueueStats := {
  stats_total : nat;
  stats_pending : nat;
  stats_processing : nat;
  stats_completed : nat;
  stats_failed : nat;
  stats_lastUpdated : string
}.

Definition has_status (st : Status) (s : QueuedSuggestion) : bool :=
  Status_eqb (status s) st.

Definition getQueueStats (now : string) (file : QueueFile) : QueueStats :=
  let queue := loadQueue now file in
  {| stats_total := List.length (suggestions queue);
     stats_pending := List.length (filter (has_status pending) (suggestions queue));
     stats_processing :=
       List.length (filter (has_status processing) (suggestions queue));
     stats_completed :=
       List.length (filter (has_status completed) (suggestions queue));
     stats_failed := List.length (filter (has_status failed) (suggestions queue));
     stats_lastUpdated := lastUpdated queue |}.

(** What [cleanupOldSuggestions] needs of [Date]: [parse s] is
    [new Date(s).getTime()] ([None] for an invalid date) and
    [minusDays t d] is the time of a [Date] at [t] after
    [setDate(getDate() - d)]. *)
Record DateLib := {
  parse : string -> option Z;
  minusDays : Z -> Q -> Z
}.

(** The filter callback of [cleanupOldSuggestions]. *)
Definition keepOnCleanup (dates : DateLib) (cutoffDate : Z)
    (s : QueuedSuggestion) : bool :=
  match status s with
  | pending | processing => true
  | completed | failed =>
      if truthy_opt (processedAt s) then
        match processedAt s with
        | Some p =>
            match parse dates p with
            | Some processedDate => cutoffDate <? processedDate
            | None => false
            end
        | None => true
        end
      else true
  end.

(** [cleanupOldSuggestions]: [clock] is the reading of [new Date()]; the file
    is written only when something was removed. *)
Definition cleanupOldSuggestions (dates : DateLib) (clock : Z) (now : string)
    (daysOld : Q) (file : QueueFile) : nat * QueueFile :=
  let queue := loadQueue now file in
  let cutoffDate := minusDays dates clock daysOld in
  let originalLength := List.length (suggestions queue) in
  let kept := filter (keepOnCleanup dates cutoffDate) (suggestions queue) in
  let removed := (originalLength - List.length kept)%nat in
  if (0 <? removed)%nat
  then (removed, saveQueue now {| suggestions := kept;
                                  lastUpdated := lastUpdated queue |})
  else (removed, file).

End SuggestionsQueue.

(** ** Numbers and regular expressions of the sources *)

Module JSText.

Definition is_space (c : ascii) : bool :=
  let n := nat_of_ascii c in
  ((Nat.leb 9 n && Nat.leb n 13) || Nat.eqb n 32)%bool.

Definition is_hex (c : ascii) : bool :=
  let n := nat_of_ascii c in
  ((Nat.leb 48 n && Nat.leb n 57)
   || (Nat.leb 65 n && Nat.leb n 70)
   || (Nat.leb 97 n && Nat.leb n 102))%bool.

Definition is_newline (c : ascii) : bool := Nat.eqb (nat_of_ascii c) 10.

Definition is_digit (c : ascii) : bool :=
  let n := nat_of_ascii c in (Nat.leb 48 n && Nat.leb n 57)%bool.

(** Longest prefix of digits: its value read in base ten from the
    accumulator [acc], the number of digits, and the rest. *)
Fixpoint read_digits (acc : Z) (s : string) : Z * nat * string :=
  match s with
  | String c r =>
      if is_digit c
      then let '(v, k, rest) :=
             read_digits (acc * 10 + Z.of_nat (nat_of_ascii c - 48)) r in
           (v, S k, rest)
      else (acc, O, s)
  | EmptyString => (acc, O, EmptyString)
  end.

(** Strip a literal prefix; [ci] is the regex flag [i]. *)
Fixpoint strip_literal (ci : bool) (lit s : string) : option string :=
  match lit, s with
  | EmptyString, _ => Some s
  | String a lit', String b s' =>
      if (if ci then Ascii.eqb (lower_char a) (lower_char b) else Ascii.eqb a b)
      then strip_literal ci lit' s' else None
  | String _ _, EmptyString => None
  end.

(** [\s*] in front of something that cannot start with white space. *)
Fixpoint skip_spaces (s : string) : string :=
  match s with
  | String c r => if is_space c then skip_spaces r else s
  | EmptyString => EmptyString
  end.

(** Exactly [n] characters of [[a-fA-F0-9]]. *)
Fixpoint take_hex (n : nat) (s : string) : option string :=
  match n with
  | O => Some EmptyString
  | S n' =>
      match s with
      | String c r =>
          if is_hex c
          then match take_hex n' r with
               | Some h => Some (String c h)
               | None => None
               end
          else None
      | EmptyString => None
      end
  end.

(** [label\s*(0x[a-fA-F0-9]{40})] anchored at the head of [s]; returns the
    capture group. *)
Definition address_here (ci : bool) (label s : string) : option string :=
  match strip_literal ci label s with
  | Some r =>
      match skip_spaces r with
      | String z (String x r') =>
          if (Ascii.eqb z "0"
              && (if ci then Ascii.eqb (lower_char x) "x" else Ascii.eqb x "x"))%bool
          then match take_hex 40 r' with
               | Some h => Some (String z (String x h))
               | None => None
               end
          else None
      | _ => None
      end
  | None => None
  end.

(** Leftmost match of an anchored matcher, as [String.prototype.match] with
    a non-global pattern. *)
Fixpoint search {A} (m : string -> option A) (s : string) : option A :=
  match m s with
  | Some a => Some a
  | None =>
      match s with
      | String _ r => search m r
      | EmptyString => None
      end
  end.

(** Longest prefix without a line feed: [[^\n]*]. *)
Fixpoint line_prefix (s : string) : string :=
  match s with
  | String c r => if is_newline c then EmptyString else String c (line_prefix r)
  | EmptyString => EmptyString
  end.

(** [[^\n]+]: fails on an empty run. *)
Definition line_here (s : string) : option string :=
  match line_prefix s with
  | EmptyString => None
  | l => Some l
  end.

(** [\s*([^\n]+)] with the greedy star backtracking one character at a
    time. *)
Fixpoint spaces_then_line (s : string) : option string :=
  match s with
  | String c r =>
      if is_space c
      then match spaces_then_line r with
           | Some l => Some l
           | None => line_here s
           end
      else line_here s
  | EmptyString => None
  end.

Definition field_here (label s : string) : option string :=
  match strip_literal false label s with
  | Some r => spaces_then_line r
  | None => None
  end.

Fixpoint trim_end (s : string) : string :=
  match s with
  | String c r =>
      match trim_end r with
      | EmptyString => if is_space c then EmptyString else String c EmptyString
      | t => String c t
      end
  | EmptyString => EmptyString
  end.

(** [String.prototype.trim]. *)
Definition trim (s : string) : string := trim_end (skip_spaces s).

Fixpoint zeros (n : nat) : string :=
  match n with O => EmptyString | S k => String "0" (zeros k) end.

(** Left-pad a digit string with zeros to width [n]. *)
Definition pad_zeros (n : nat) (s : string) : string :=
  zeros (n - String.length s) ++ s.

(** [Number.prototype.toFixed(digits)] for magnitudes below [1e21]: the
    integer [n] nearest to [x * 10^digits] (the larger on a tie), where [x]
    is the exact value of the binary64 number, printed with the decimal
    point [digits] places from the right; a negative [x] prints as ["-"]
    followed by [(-x).toFixed(digits)]. *)
Definition print_scaled (digits : nat) (n : Z) : string :=
  let scale := 10 ^ Z.of_nat digits in
  match digits with
  | O => numberToString n
  | _ => numberToString (n / scale) ++ "."
         ++ pad_zeros digits (numberToString (n mod scale))
  end.

Definition toFixed_abs (digits : nat) (x : Q) : string :=
  print_scaled digits (Qfloor (x * inject_Z (10 ^ Z.of_nat digits) + (1 # 2))).

Definition toFixed (digits : nat) (x : Float64.number) : string :=
  match Float64.norm x with
  | Float64.NaN => "NaN"
  | Float64.Infinity false => "Infinity"
  | Float64.Infinity true => "-Infinity"
  | Float64.Finite v =>
      if Qle_bool 0 v then toFixed_abs digits v
      else "-" ++ toFixed_abs digits (- v)
  end.

End JSText.

Import JSText.

(** ** Values parsed from JSON and their conversion to a number *)

Module JSValue.

Import Float64.

(** What [JSON.parse] delivers.  A number is held as the decimal of the
    text; it denotes the binary64 number nearest to it. *)
#[local] Unset Elimination Schemes.
Inductive Json :=
| JNull
| JBool (b : bool)
| JNumber (literal : Q)
| JString (s : string)
| JArray (items : list Json)
| JObject (fields : list (string * Json)).
#[local] Set Elimination Schemes.

Definition digit_value (c : ascii) : option Z :=
  let n := nat_of_ascii c in
  if (Nat.leb 48 n && Nat.leb n 57)%bool then Some (Z.of_nat (n - 48))
  else if (Nat.leb 97 n && Nat.leb n 122)%bool then Some (Z.of_nat (n - 87))
  else if (Nat.leb 65 n && Nat.leb n 90)%bool then Some (Z.of_nat (n - 55))
  else None.

(** A string of digits of the radix, read to its end. *)
Fixpoint radix_digits (radix acc : Z) (s : string) : option Z :=
  match s with
  | EmptyString => Some acc
  | String c r =>
      match digit_value c with
      | Some v => if v <? radix then radix_digits radix (acc * radix + v) r
                  else None
      | None => None
      end
  end.

(** [0x], [0o] and [0b] literals. *)
Definition radix_literal (s : string) : option Z :=
  match s with
  | String z (String p (String c r)) =>
      if Ascii.eqb z "0" then
        match lower_char p with
        | "x"%char => radix_digits 16 0 (String c r)
        | "o"%char => radix_digits 8 0 (String c r)
        | "b"%char => radix_digits 2 0 (String c r)
        | _ => None
        end
      else None
  | _ => None
  end.

(** The exponent part at the end of a decimal literal: nothing, or [e] or
    [E], an optional sign and digits. *)
Definition exponent_part (s : string) : option Z :=
  match s with
  | EmptyString => Some 0
  | String c r =>
      if Ascii.eqb (lower_char c) "e" then
        let '(negative, digits) :=
          match r with
          | String sign r' =>
              if Ascii.eqb sign "-" then (true, r')
              else if Ascii.eqb sign "+" then (false, r')
              else (false, r)
          | EmptyString => (false, r)
          end in
        match read_digits 0 digits with
        | (_, O, _) => None
        | (v, S _, EmptyString) => Some (if negative then - v else v)
        | (_, S _, String _ _) => None
        end
      else None
  end.

Definition pow10 (e : Z) : Q :=
  if 0 <=? e then inject_Z (10 ^ e) else Qmake 1 (Z.to_pos (10 ^ (- e))).

(** An unsigned decimal literal read to the end of the string:
    [digits], [digits.], [digits.digits] or [.digits], and an exponent. *)
Definition unsigned_decimal (s : string) : option Q :=
  let '(ip, ik, rest) := read_digits 0 s in
  let '(fp, fk, rest') :=
    match rest with
    | String c r => if Ascii.eqb c "." then read_digits 0 r else (0, O, rest)
    | EmptyString => (0, O, rest)
    end in
  match ik, fk with
  | O, O => None
  | _, _ =>
      match exponent_part rest' with
      | Some e =>
          Some ((inject_Z ip + inject_Z fp / inject_Z (10 ^ Z.of_nat fk))
                * pow10 e)%Q
      | None => None
      end
  end.

Definition unsigned_literal (negative : bool) (s : string) : number :=
  if String.eqb s "Infinity" then Infinity negative
  else match unsigned_decimal s with
       | Some q => round (if negative then - q else q)
       | None => NaN
       end.

(** [Number(s)] of a string: white space is trimmed, the empty string is 0,
    and what is no numeric literal is [NaN]. *)
Definition stringToNumber (s : string) : number :=
  match trim s with
  | EmptyString => Finite 0
  | String c r as t =>
      match radix_literal t with
      | Some z => fromZ z
      | None =>
          if Ascii.eqb c "-" then unsigned_literal true r
          else if Ascii.eqb c "+" then unsigned_literal false r
          else unsigned_literal false t
      end
  end.

(** [Number(v)], the conversion a comparison with a number applies.  An
    array converts through its string, the join of its items with commas:
    the empty array as the empty string, an array of one item as that item's
    string. *)
Fixpoint toNumber (v : Json) : number :=
  match v with
  | JNull => Finite 0
  | JBool b => Finite (if b then 1 else 0)
  | JNumber literal => round literal
  | JString s => stringToNumber s
  | JObject _ => NaN
  | JArray [] => Finite 0
  | JArray [item] =>
      match item with
      | JNull => Finite 0
      | JBool _ | JObject _ => NaN
      | JNumber _ | JString _ | JArray _ => toNumber item
      end
  | JArray (_ :: _ :: _) => NaN
  end.

(** Truthiness: [null], [false], zero and the empty string are falsy. *)
Definition truthy_value (v : Json) : bool :=
  match v with
  | JNull => false
  | JBool b => b
  | JNumber literal =>
      match round literal with
      | Finite x => negb (is_zero x)
      | Infinity _ => true
      | NaN => false
      end
  | JString s => truthy s
  | JArray _ | JObject _ => true
  end.

(** The same for a property that may be missing ([undefined] is [NaN]). *)
Definition propertyToNumber (v : option Json) : number :=
  match v with
  | Some j => toNumber j
  | None => NaN
  end.

End JSValue.

(** ** [src/lib/dao/proposalHistory.ts] *)

Module ProposalHistory.

Record ProposalHistoryEntry := {
  coinAddress : string;
  coinSymbol : option string;
  coinName : option string;
  proposalId : string;
  (** The ISO timestamp, held as the epoch milliseconds it denotes
      ([new Date(iso).getTime()]). *)
  submittedAt : Z;
  txHash : option string;
  blockNumber : Z
}.

(** A proposal of the subgraph answer.  [timeCreated] is held as
    [parseInt(proposal.timeCreated)] ([None] is [NaN]) and
    [snapshotBlockNumber] as [BigInt(proposal.snapshotBlockNumber)] ([None]:
    the conversion throws). *)
Record SubgraphProposal := {
  sp_proposalId : string;
  sp_proposalNumber : Z;
  sp_description : option string;
  sp_title : string;
  sp_timeCreated : option Z;
  sp_transactionHash : string;
  sp_snapshotBlockNumber : option Z;
  sp_governorAddress : string
}.

Definition DUPLICATE_PREVENTION_WINDOW_MS : Z := 24 * 60 * 60 * 1000.

Definition extractCoinAddressFromDescription (description : option string)
  : option string :=
  match description with
  | None => None
  | Some d =>
      if truthy d then
        match search (address_here false "Address:") d with
        | Some a => Some a
        | None =>
            match search (address_here false "Coin ID:") d with
            | Some a => Some a
            | None => search (address_here true "coin:") d
            end
        end
      else None
  end.

(** [match && match[1] && match[1] !== 'N/A' ? match[1].trim() : null]. *)
Definition labelled_field (label : string) (description : option string)
  : option string :=
  match description with
  | None => None
  | Some d =>
      if truthy d then
        match search (field_here label) d with
        | Some m => if String.eqb m "N/A" then None else Some (trim m)
        | None => None
        end
      else None
  end.

Definition extractCoinSymbolFromDescription := labelled_field "Symbol:".
Definition extractCoinNameFromDescription := labelled_field "Name:".

(** What [fetch] and [response.json()] deliver. *)
Inductive Response :=
| FetchRejects (message : string)
| NotOk (status : Z) (statusText : string)
| JsonRejects (message : string)
| Payload (errors : bool) (proposals : option (list SubgraphProposal)).

(** The external proposal index as the request meets it.  [Answer] is any
    JSON body: [errors] says whether its [errors] field is truthy, [data]
    holds [data.proposals] when present, whatever the query asked for.
    [GraphErrors] and [NoData] are the bodies without proposals.  [Index ps]
    is an index that holds the proposals [ps] of the DAO, newest first, and
    honours the query. *)
Inductive Subgraph :=
| Unreachable (message : string)
| HttpFailure (status : Z) (statusText : string)
| Malformed (message : string)
| GraphErrors
| NoData
| Index (proposals : list SubgraphProposal)
| Answer (errors : bool) (data : option (list SubgraphProposal)).

(** What the request
    [proposals(where: {dao}, first: $first, orderBy: timeCreated,
    orderDirection: desc)] receives; [Index] answers with its [first]
    newest proposals. *)
Definition fetchProposals (sg : Subgraph) (first : nat) : Response :=
  match sg with
  | Unreachable m => FetchRejects m
  | HttpFailure st tx => NotOk st tx
  | Malformed m => JsonRejects m
  | GraphErrors => Payload true None
  | NoData => Payload false None
  | Index ps => Payload false (Some (firstn first ps))
  | Answer errors data => Payload errors data
  end.

(** Range in which [new Date(t).toISOString()] does not throw. *)
Definition valid_time (t : Z) : bool :=
  (-8640000000000000 <=? t) && (t <=? 8640000000000000).

(** The [for ... of allProposals] loop; [None] when an iteration throws. *)
Fixpoint scanProposals (cutoffTime : Z) (allProposals : list SubgraphProposal)
  : option (list ProposalHistoryEntry) :=
  match allProposals with
  | [] => Some []
  | proposal :: rest =>
      let timeCreated := option_map (fun s => s * 1000) (sp_timeCreated proposal) in
      if match timeCreated with Some t => t <? cutoffTime | None => false end
      then Some []
      else
        match extractCoinAddressFromDescription (sp_description proposal) with
        | None => scanProposals cutoffTime rest
        | Some coin =>
            match timeCreated with
            | Some t =>
                if valid_time t then
                  match sp_snapshotBlockNumber proposal with
                  | Some bn =>
                      match scanProposals cutoffTime rest with
                      | Some more =>
                          Some ({| coinAddress := coin;
                                   coinSymbol :=
                                     extractCoinSymbolFromDescription
                                       (sp_description proposal);
                                   coinName :=
                                     extractCoinNameFromDescription
                                       (sp_description proposal);
                                   proposalId := sp_proposalId proposal;
                                   submittedAt := t;
                                   txHash := Some (sp_transactionHash proposal);
                                   blockNumber := bn |} :: more)
                      | None => None
                      end
                  | None => None
                  end
                else None
            | None => None
            end
        end
  end.

(** [getRecentProposals]: asks for [first: 100]; every failure inside the
    [try] yields the empty list. *)
Definition getRecentProposals (sg : Subgraph) (now : Z) (windowMs : Z)
  : list ProposalHistoryEntry :=
  match fetchProposals sg 100 with
  | FetchRejects _ | NotOk _ _ | JsonRejects _ => []
  | Payload true _ => []
  | Payload false data =>
      let allProposals := match data with Some ps => ps | None => [] end in
      let cutoffTime := now - windowMs in
      match scanProposals cutoffTime allProposals with
      | Some recentProposals => recentProposals
      | None => []
      end
  end.

Definition same_coin (coinAddressLower : string) (p : ProposalHistoryEntry) : bool :=
  String.eqb (toLowerCase (coinAddress p)) coinAddressLower.

Definition wasRecentlyProposed (sg : Subgraph) (now : Z) (coin : string)
    (windowMs : Z) : option ProposalHistoryEntry :=
  let proposals := getRecentProposals sg now windowMs in
  find (same_coin (toLowerCase coin)) proposals.

Record Excluded := {
  ex_coinAddress : string;
  ex_reason : string;
  ex_proposalId : string;
  ex_hoursAgo : Float64.number
}.

(** [(now - submittedAt) / (60 * 60 * 1000)] on two epoch milliseconds. *)
Definition hoursSince (now submitted : Z) : Float64.number :=
  Float64.div (Float64.sub (Float64.fromZ now) (Float64.fromZ submitted))
              (Float64.Finite (inject_Z (60 * 60 * 1000))).

(** The [for ... of coinAddresses] loop of [filterRecentlyProposedCoins]. *)
Fixpoint partitionCoins (proposals : list ProposalHistoryEntry) (now : Z)
    (coinAddresses : list string) : list string * list Excluded :=
  match coinAddresses with
  | [] => ([], [])
  | coin :: rest =>
      let '(allowed, excluded) := partitionCoins proposals now rest in
      match find (same_coin (toLowerCase coin)) proposals with
      | Some proposal =>
          let hoursAgo := hoursSince now (submittedAt proposal) in
          (allowed,
           {| ex_coinAddress := coin;
              ex_reason := "Already proposed " ++ toFixed 1 hoursAgo ++ "h ago";
              ex_proposalId := proposalId proposal;
              ex_hoursAgo := hoursAgo |} :: excluded)
      | None => (coin :: allowed, excluded)
      end
  end.

(** [filterRecentlyProposedCoins]: one history fetch (clock [fetchNow]),
    then the partition (clock [now]). *)
Definition filterRecentlyProposedCoins (sg : Subgraph) (fetchNow now : Z)
    (coinAddresses : list string) (windowMs : Z)
  : list string * list Excluded :=
  partitionCoins (getRecentProposals sg fetchNow windowMs) now coinAddresses.

(** The failures of the history query that [getRecentProposals] catches:
    [fetch] rejects, the response is not ok, the body is no JSON, or the
    payload carries [errors], with or without data. *)
Definition queryFails (sg : Subgraph) : bool :=
  match sg with
  | Unreachable _ | HttpFailure _ _ | Malformed _ | GraphErrors => true
  | NoData | Index _ => false
  | Answer errors _ => errors
  end.

(** Whether the history holds a proposal for the coin (compared in lower
    case). *)
Definition matched (proposals : list ProposalHistoryEntry) (coin : string) : bool :=
  match find (same_coin (toLowerCase coin)) proposals with
  | Some _ => true
  | None => false
  end.

Fixpoint all_hex (s : string) : bool :=
  match s with
  | EmptyString => true
  | String c r => is_hex c && all_hex r
  end.

(** The shape [0x] (or [0X]) followed by 40 hexadecimal digits. *)
Definition is_address (a : string) : bool :=
  match a with
  | String z (String x h) =>
      Ascii.eqb z "0" && Ascii.eqb (lower_char x) "x"
      && Nat.eqb (String.length h) 40 && all_hex h
  | _ => false
  end.

(** The shape with a lower-case [x], as the first two patterns want it. *)
Definition is_plain_address (a : string) : bool :=
  match a with
  | String z (String x h) =>
      Ascii.eqb z "0" && Ascii.eqb x "x"
      && Nat.eqb (String.length h) 40 && all_hex h
  | _ => false
  end.

(** The scan does not stop at [p]: its creation time is not before the
    cutoff ([NaN] compares false). *)
Definition fresh (cutoffTime : Z) (p : SubgraphProposal) : bool :=
  match sp_timeCreated p with
  | Some t => negb (t * 1000 <? cutoffTime)
  | None => true
  end.

(** The scan throws at [p]: its description names a coin, and its creation
    time is no valid date or its block number does not convert. *)
Definition unreadable (p : SubgraphProposal) : bool :=
  match extractCoinAddressFromDescription (sp_description p) with
  | Some _ =>
      match sp_timeCreated p with
      | Some t =>
          negb (valid_time (t * 1000))
          || match sp_snapshotBlockNumber p with Some _ => false | None => true end
      | None => true
      end
  | None => false
  end.

End ProposalHistory.

(** ** [src/lib/dao/calculateAllocation.ts] *)

Module CalculateAllocation.

Import Float64.

Definition is_digit_or_dot (c : ascii) : bool :=
  (is_digit c || Ascii.eqb c ".")%bool.

(** The decimal a string of digits and dots starts with: the value of the
    longest prefix of the shape [digits], [digits.digits], [digits.] or
    [.digits]; [None] when there is none. *)
Definition readDecimal (s : string) : option Q :=
  let '(ip, ik, rest) := read_digits 0 s in
  let whole := match ik with O => None | _ => Some (inject_Z ip) end in
  match rest with
  | String c r =>
      if Ascii.eqb c "."
      then let '(fp, fk, _) := read_digits 0 r in
           match ik, fk with
           | O, O => None
           | _, _ =>
               Some (inject_Z ip + inject_Z fp / inject_Z (10 ^ Z.of_nat fk))%Q
           end
      else whole
  | EmptyString => whole
  end.

(** [parseFloat] on a string of digits and dots: the binary64 number nearest
    to the decimal it starts with, [NaN] when it starts with none. *)
Definition parseFloat (s : string) : number :=
  match readDecimal s with
  | Some q => round q
  | None => NaN
  end.

(** Longest prefix in [[\d.]]. *)
Fixpoint amount_run (s : string) : string * string :=
  match s with
  | String c r =>
      if is_digit_or_dot c
      then let '(run, rest) := amount_run r in (String c run, rest)
      else (EmptyString, s)
  | EmptyString => (EmptyString, EmptyString)
  end.

(** [/Amount:\s*([\d.]+)\s*ETH/] anchored at the head of [s]. *)
Definition amount_here (s : string) : option string :=
  match strip_literal false "Amount:" s with
  | Some r =>
      let '(run, rest) := amount_run (skip_spaces r) in
      match run with
      | EmptyString => None
      | _ => match strip_literal false "ETH" (skip_spaces rest) with
             | Some _ => Some run
             | None => None
             end
      end
  | None => None
  end.

(** A proposal of the subgraph answer, with what the governor's
    [state(proposalId)] read delivers for it. *)
Record Proposal := {
  proposalId : string;
  description : option string;
  state : Result Z
}.

Inductive Fetched :=
| FetchRejects
| NotOk
| JsonRejects
| Data (proposals : option (list Proposal)).

(** Active states: 0 (Pending), 1 (Active), 4 (Succeeded), 5 (Queued). *)
Definition is_active (st : Z) : bool :=
  (st =? 0) || (st =? 1) || (st =? 4) || (st =? 5).

(** The literal [1e18]. *)
Definition ether : number := Finite (inject_Z (10 ^ 18)).

(** One iteration of the loop: the wei amount the proposal adds.  A state
    read that throws, and a [BigInt] that throws ([ethAmount] is [NaN] or
    the product overflows), are caught and the proposal is skipped. *)
Definition proposalValue (proposal : Proposal) : Z :=
  match state proposal with
  | Throw _ => 0
  | Ok st =>
      if is_active st then
        match description proposal with
        | Some d =>
            match search amount_here d with
            | Some m =>
                let ethAmount := parseFloat m in
                match BigInt (floor (mul ethAmount ether)) with
                | Some weiAmount => weiAmount
                | None => 0
                end
            | None => 0
            end
        | None => 0
        end
      else 0
  end.

Definition getTotalActiveProposalValue (fetched : Fetched) : Z :=
  match fetched with
  | FetchRejects | NotOk | JsonRejects => 0
  | Data proposals =>
      fold_left (fun totalValue proposal => totalValue + proposalValue proposal)
                (match proposals with Some ps => ps | None => [] end) 0
  end.

(** The surroundings of one call: the environment variable, the balance
    read and the subgraph answer. *)
Record World := {
  DAO_TREASURY_ADDRESS : option string;
  getTreasuryBalance : Result Z;
  proposalsFetch : Fetched
}.

Definition DEFAULT_ALLOCATION : string := "0.01".

(** The literals [0.0001] and [0.1]. *)
Definition minAllocation : number := round (1 # 10000).
Definition maxAllocation : number := round (1 # 10).

(** The values of the two bounds. *)
Definition lowest : Q := 7378697629483821 # 73786976294838206464.
Definition highest : Q := 3602879701896397 # 36028797018963968.

(** [calculateProposalAllocation]; a step of the [try] block that throws
    (the balance read, [BigInt] of a product that is no integer) ends in the
    default amount. *)
Definition calculateProposalAllocation (w : World) (allocationPercent : number)
  : string :=
  if truthy_opt (DAO_TREASURY_ADDRESS w) then
    match getTreasuryBalance w with
    | Throw _ => DEFAULT_ALLOCATION
    | Ok treasuryBalance =>
        let activeProposalValue := getTotalActiveProposalValue (proposalsFetch w) in
        let availableFunds := treasuryBalance - activeProposalValue in
        match BigInt (mul (norm allocationPercent) (Finite 100)) with
        | None => DEFAULT_ALLOCATION
        | Some pct =>
            let allocationWei := Z.quot (availableFunds * pct) 10000 in
            let allocationEth := div (fromZ allocationWei) ether in
            let finalAllocation :=
              Math_max minAllocation (Math_min maxAllocation allocationEth) in
            toFixed 4 finalAllocation
        end
    end
  else DEFAULT_ALLOCATION.

(** Whether the amount printed for [n] ten-thousandths reads as a decimal
    between 0.0001 and 0.1. *)
Definition reads_within_bounds (n : Z) : bool :=
  match readDecimal (print_scaled 4 n) with
  | Some q => Qle_bool (1 # 10000) q && Qle_bool q (1 # 10)
  | None => false
  end.

(** An active proposal whose description is the amount line
    [Amount: <amount> ETH]. *)
Definition commitment (st : Z) (amount : string) : Proposal :=
  {| proposalId := "0x01";
     description := Some ("Amount: " ++ amount ++ " ETH");
     state := Ok st |}.

(** Whether an amount, written into an amount line, is counted as a value
    between [10 ^ 14] and [10 ^ 17] wei. *)
Definition counts_back (amount : string) : bool :=
  (10 ^ 14 <=? proposalValue (commitment 1 amount))
  && (proposalValue (commitment 1 amount) <=? 10 ^ 17).

End CalculateAllocation.

(** ** [src/scripts/agent.ts]: [processQueuedSuggestion] *)

Module Agent.

Import SuggestionsQueue.

Record SubmissionResult := {
  sr_txHash : string;
  sr_proposalId : option string
}.

(** The external steps of one run: the allocation surroundings and the
    outcomes of [createBuyCoinProposal] and [submitProposalToGovernor]. *)
Record Run := {
  allocationWorld : CalculateAllocation.World;
  createBuyCoinProposal : string -> Result string;
  submitProposalToGovernor : string -> Result SubmissionResult
}.

(** The metadata of the [catch] block: [{ errorMessage: err.message }]. *)
Definition with_message (message : string) : option Metadata :=
  Some {| m_proposalId := None; m_txHash := None;
          m_errorMessage := Some message |}.

(** The [try] block up to the submission; [Ok] when every step passed. *)
Definition trySubmit (r : Run) (now : string) (suggestion : QueuedSuggestion)
    (file : QueueFile) : Result unit * QueueFile :=
  match updateSuggestionStatus now (id suggestion) processing None file with
  | (Throw m, file1) => (Throw m, file1)
  | (Ok _, file1) =>
      let ethAmount :=
        CalculateAllocation.calculateProposalAllocation (allocationWorld r)
          (Float64.Finite 1) in
      match createBuyCoinProposal r ethAmount with
      | Throw m => (Throw m, file1)
      | Ok proposal =>
          match submitProposalToGovernor r proposal with
          | Throw m => (Throw m, file1)
          | Ok _ => (Ok tt, file1)
          end
      end
  end.

(** [processQueuedSuggestion]: on success the record is deleted; on any
    exception it is marked [failed] with the message and the exception is
    thrown again.  [now] is the clock of the first queue write, [later] of
    the second. *)
Definition processQueuedSuggestion (r : Run) (now later : string)
    (suggestion : QueuedSuggestion) (file : QueueFile)
  : Result unit * QueueFile :=
  match trySubmit r now suggestion file with
  | (Ok _, file1) =>
      (Ok tt, snd (deleteSuggestion later (id suggestion) file1))
  | (Throw message, file1) =>
      match updateSuggestionStatus later (id suggestion) failed
              (with_message message) file1 with
      | (Throw m', file2) => (Throw m', file2)
      | (Ok _, file2) => (Throw message, file2)
      end
  end.

End Agent.

(** ** [src/lib/agent/analyzeCreator.ts]: [analyzeAndPropose] *)

Module AnalyzeCreator.

Record Profile := {
  address : string;
  displayName : string;
  pfpUrl : option string
}.

Record CoinInfo := {
  ci_coinId : string;
  ci_address : string;
  ci_creatorAddress : string;
  ci_symbol : option string;
  ci_name : option string;
  ci_currentPriceUsd : option Q;
  ci_volume24hUsd : option Q
}.

Record DaoCoinHolding := {
  h_coinId : string;
  h_balanceUsd : option Q
}.

(** The object [buildAnalysisContext] serialises for the model. *)
Record AnalysisContext := {
  cx_username : string;
  cx_coinAddress : string;
  cx_symbol : option string;
  cx_name : option string;
  cx_currentPriceUsd : option Q;
  cx_volume24hUsd : option Q;
  cx_alreadyHeld : bool;
  cx_currentHoldingUsd : option Q
}.

(** What the chat completion delivers to [getAIAnalysis]. *)
Inductive AIReply :=
| AIRejects (message : string)
| AINoText
| AIBadJson (message : string)
| AIWrongShape
| AIJson (reason : string) (confidenceScore : Q)
         (suggestedAllocationUsd : option Q).

Record AIAnalysisResponse := {
  ai_reason : string;
  ai_confidenceScore : Q;
  ai_suggestedAllocationUsd : option Q
}.

Record CoinAnalysis := {
  username : string;
  creatorAddress : string;
  coinId : string;
  symbol : option string;
  name : option string;
  creatorName : option string;
  ca_pfpUrl : option string;
  currentPriceUsd : option Q;
  volume24hUsd : option Q;
  alreadyHeld : bool;
  reason : string;
  confidenceScore : Q;
  suggestedAllocationUsd : option Q
}.

(** [boolean | 'pending']. *)
Inductive Submitted := SubmittedFalse | SubmittedTrue | SubmittedPending.

Record CoinAnalysisWithProposal := {
  analysis : CoinAnalysis;
  proposalSubmitted : Submitted;
  recentProposal : option ProposalHistory.ProposalHistoryEntry
}.

Record Options := {
  confidenceThreshold : option Q;
  ethAmount : option string;
  slippagePercent : option Q
}.

(** External capabilities a run may call. *)
Inductive Call :=
| ZoraProfile (identifier : string)
| ZoraCoin (identifier : string)
| HistoryQuery (coin : string)
| DaoHoldings (dao : string)
| AIScoring (context : AnalysisContext).

(** The surroundings of a run.  Each capability is a function of the number
    of calls made before it, so that a repeated call may be answered
    differently. *)
Record World := {
  DAO_TREASURY_ADDRESS : option string;
  OPENAI_API_KEY : option string;
  ZORA_API_KEY : option string;
  zoraProfile : nat -> string -> Result Profile;
  zoraCoin : nat -> string -> Result CoinInfo;
  subgraph : nat -> ProposalHistory.Subgraph;
  dateNow : nat -> Z;
  isoNow : nat -> string;
  random36 : nat -> string;
  daoHoldings : nat -> string -> Result (list DaoCoinHolding);
  chatCompletion : nat -> AnalysisContext -> AIReply
}.

(** State threaded through a run: the calls made so far, oldest first, and
    the queue file. *)
Record St := {
  trace : list Call;
  queue : SuggestionsQueue.QueueFile
}.

Definition M (A : Type) : Type := St -> Result A * St.

Definition ret {A} (a : A) : M A := fun st => (Ok a, st).

Definition throw {A} (message : string) : M A := fun st => (Throw message, st).

Definition bind {A B} (m : M A) (k : A -> M B) : M B :=
  fun st =>
    match m st with
    | (Ok a, st') => k a st'
    | (Throw e, st') => (Throw e, st')
    end.

(** [try { m } catch (error) { h(error.message) }]. *)
Definition try_catch {A} (m : M A) (h : string -> M A) : M A :=
  fun st =>
    match m st with
    | (Ok a, st') => (Ok a, st')
    | (Throw e, st') => h e st'
    end.

(** Record an external call; yields the number of calls made before it. *)
Definition call (c : Call) : M nat :=
  fun st => (Ok (List.length (trace st)),
             {| trace := trace st ++ [c]; queue := queue st |}).

Definition lift {A} (r : Result A) : M A := fun st => (r, st).

Definition ticks : M nat := fun st => (Ok (List.length (trace st)), st).

Definition readQueue : M SuggestionsQueue.QueueFile :=
  fun st => (Ok (queue st), st).

Definition writeQueue (file : SuggestionsQueue.QueueFile) : M unit :=
  fun st => (Ok tt, {| trace := trace st; queue := file |}).

Declare Scope run_scope.
Delimit Scope run_scope with run.
Notation "x <- m ;; k" := (bind m (fun x => k))
  (at level 100, m at next level, right associativity) : run_scope.
Notation "m ;;; k" := (bind m (fun _ => k))
  (at level 100, right associativity) : run_scope.
Local Open Scope run_scope.

Definition validateEnvironment (w : World) : M (string * string) :=
  match DAO_TREASURY_ADDRESS w with
  | Some daoAddress =>
      if truthy daoAddress then
        match OPENAI_API_KEY w with
        | Some openaiKey =>
            if truthy openaiKey then ret (daoAddress, openaiKey)
            else throw "OPENAI_API_KEY is not configured. Please add it to your .env.local file."
        | None => throw "OPENAI_API_KEY is not configured. Please add it to your .env.local file."
        end
      else throw "DAO_TREASURY_ADDRESS is not configured. Please add it to your .env.local file."
  | None => throw "DAO_TREASURY_ADDRESS is not configured. Please add it to your .env.local file."
  end.

Definition initializeZoraSDK (w : World) : M unit :=
  if truthy_opt (ZORA_API_KEY w) then ret tt
  else throw "ZORA_API_KEY is not configured. Please add it to your .env.local file.".

(** [resolveCreatorProfile]: an address is used as it is; anything else is
    looked up through the coin SDK. *)
Definition resolveCreatorProfile (w : World) (user : string) : M Profile :=
  if startsWith user "0x"
  then ret {| address := user; displayName := user; pfpUrl := None |}
  else n <- call (ZoraProfile user) ;; lift (zoraProfile w n user).

Definition getCoinInfo (w : World) (identifier : string) : M CoinInfo :=
  n <- call (ZoraCoin identifier) ;; lift (zoraCoin w n identifier).

(** [wasRecentlyProposed] with its default window. *)
Definition wasRecentlyProposed (w : World) (coin : string)
  : M (option ProposalHistory.ProposalHistoryEntry) :=
  n <- call (HistoryQuery coin) ;;
  ret (ProposalHistory.wasRecentlyProposed (subgraph w n) (dateNow w n) coin
         ProposalHistory.DUPLICATE_PREVENTION_WINDOW_MS).

Definition holds (coin : string) (h : DaoCoinHolding) : bool :=
  (String.eqb (toLowerCase (h_coinId h)) (toLowerCase coin)
   || includes (toLowerCase (h_coinId h)) (toLowerCase coin))%bool.

Definition checkDaoHoldings (w : World) (daoAddress coin : string)
  : M (bool * option DaoCoinHolding) :=
  n <- call (DaoHoldings daoAddress) ;;
  holdings <- lift (daoHoldings w n daoAddress) ;;
  match find (holds coin) holdings with
  | Some holding => ret (true, Some holding)
  | None => ret (false, None)
  end.

Definition clamp01 (x : Q) : Q := Math_max 0 (Math_min 1 x).

(** [getAIAnalysis]: the one place that invokes the scoring capability. *)
Definition getAIAnalysis (w : World) (context : AnalysisContext)
  : M AIAnalysisResponse :=
  n <- call (AIScoring context) ;;
  match chatCompletion w n context with
  | AIRejects m => throw m
  | AINoText => throw "No response from OpenAI"
  | AIBadJson m => throw m
  | AIWrongShape =>
      throw "Invalid response format from OpenAI. Expected reason (string) and confidenceScore (number)."
  | AIJson r c a =>
      ret {| ai_reason := r; ai_confidenceScore := clamp01 c;
             ai_suggestedAllocationUsd := a |}
  end.

Definition analyzeCreatorCoinByUsername (w : World) (user : string)
  : M CoinAnalysis :=
  if negb (truthy user) || String.eqb (trim user) EmptyString
  then throw "Username is required"
  else
    env <- validateEnvironment w ;;
    initializeZoraSDK w ;;;
    try_catch
      (profile <- resolveCreatorProfile w user ;;
       coin <- getCoinInfo w (if startsWith user "0x" then user else address profile) ;;
       held <- checkDaoHoldings w (fst env) (ci_address coin) ;;
       aiAnalysis <-
         getAIAnalysis w
           {| cx_username := user;
              cx_coinAddress := ci_address coin;
              cx_symbol := ci_symbol coin;
              cx_name := ci_name coin;
              cx_currentPriceUsd := ci_currentPriceUsd coin;
              cx_volume24hUsd := ci_volume24hUsd coin;
              cx_alreadyHeld := fst held;
              cx_currentHoldingUsd :=
                match snd held with
                | Some h => h_balanceUsd h
                | None => None
                end |} ;;
       ret {| username := user;
              creatorAddress := address profile;
              coinId := ci_address coin;
              symbol := ci_symbol coin;
              name := ci_name coin;
              creatorName := Some (displayName profile);
              ca_pfpUrl := pfpUrl profile;
              currentPriceUsd := ci_currentPriceUsd coin;
              volume24hUsd := ci_volume24hUsd coin;
              alreadyHeld := fst held;
              reason := ai_reason aiAnalysis;
              confidenceScore := ai_confidenceScore aiAnalysis;
              suggestedAllocationUsd := ai_suggestedAllocationUsd aiAnalysis |})
      (fun message =>
         throw ("Failed to analyze creator coin for " ++ dquote ++ user ++ dquote
            ++ ": " ++ message)).

(** Step 1 of [analyzeAndPropose]: resolve the input to a coin, no scoring
    yet. *)
Definition resolveCoin (w : World) (user : string) : M (Profile * CoinInfo) :=
  validateEnvironment w ;;;
  initializeZoraSDK w ;;;
  profile <- resolveCreatorProfile w user ;;
  coin <- getCoinInfo w (if startsWith user "0x" then user else address profile) ;;
  ret (profile, coin).

(** The result returned when the coin was proposed recently. *)
Definition duplicateResult (user : string) (profile : Profile) (coin : CoinInfo)
    (recent : ProposalHistory.ProposalHistoryEntry) (now : Z)
  : CoinAnalysisWithProposal :=
  let hoursAgo :=
    toFixed 1 (ProposalHistory.hoursSince now (ProposalHistory.submittedAt recent)) in
  {| analysis :=
       {| username := user;
          creatorAddress := address profile;
          coinId := ci_address coin;
          symbol := or_else (ProposalHistory.coinSymbol recent) (ci_symbol coin);
          name := or_else (ProposalHistory.coinName recent) (ci_name coin);
          creatorName := Some (displayName profile);
          ca_pfpUrl := pfpUrl profile;
          currentPriceUsd := ci_currentPriceUsd coin;
          volume24hUsd := ci_volume24hUsd coin;
          alreadyHeld := false;
          reason := "Proposal already submitted " ++ hoursAgo
                    ++ "h ago. Duplicate prevention active.";
          confidenceScore := 0;
          suggestedAllocationUsd := None |};
     proposalSubmitted := SubmittedFalse;
     recentProposal := Some recent |}.

Definition with_reason (r : string) (a : CoinAnalysis) : CoinAnalysis :=
  {| username := username a; creatorAddress := creatorAddress a;
     coinId := coinId a; symbol := symbol a; name := name a;
     creatorName := creatorName a; ca_pfpUrl := ca_pfpUrl a;
     currentPriceUsd := currentPriceUsd a; volume24hUsd := volume24hUsd a;
     alreadyHeld := alreadyHeld a; reason := r;
     confidenceScore := confidenceScore a;
     suggestedAllocationUsd := suggestedAllocationUsd a |}.

(** Steps 3 to 6: score, compare with the threshold, check the queue, enqueue. *)
Definition scoreAndQueue (w : World) (user : string) (options : Options)
    (profile : Profile) : M CoinAnalysisWithProposal :=
  let threshold := match confidenceThreshold options with
                   | Some t => t
                   | None => 2 # 10
                   end in
  a <- analyzeCreatorCoinByUsername w user ;;
  if negb (Qle_bool threshold (confidenceScore a))
  then ret {| analysis := a; proposalSubmitted := SubmittedFalse;
              recentProposal := None |}
  else
    n <- ticks ;;
    file <- readQueue ;;
    if SuggestionsQueue.isCoinInQueue (isoNow w n) (coinId a) file
    then ret {| analysis :=
                  with_reason
                    "Suggestion not accepted: This coin is already in the queue awaiting processing."
                    a;
                proposalSubmitted := SubmittedFalse;
                recentProposal := None |}
    else
      writeQueue
        (snd (SuggestionsQueue.addSuggestionToQueue (dateNow w n) (random36 w n)
                (isoNow w n)
                {| SuggestionsQueue.in_coinId := coinId a;
                   SuggestionsQueue.in_coinSymbol := symbol a;
                   SuggestionsQueue.in_coinName := name a;
                   SuggestionsQueue.in_creatorAddress := Some (creatorAddress a);
                   SuggestionsQueue.in_creatorName := Some (displayName profile);
                   SuggestionsQueue.in_pfpUrl := pfpUrl profile;
                   SuggestionsQueue.in_currentPriceUsd := currentPriceUsd a;
                   SuggestionsQueue.in_volume24hUsd := volume24hUsd a;
                   SuggestionsQueue.in_reason := reason a;
                   SuggestionsQueue.in_confidenceScore := confidenceScore a;
                   SuggestionsQueue.in_suggestedAllocationUsd :=
                     suggestedAllocationUsd a;
                   SuggestionsQueue.in_source := SuggestionsQueue.manual;
                   SuggestionsQueue.in_submittedBy := Some user;
                   SuggestionsQueue.in_processedAt := None;
                   SuggestionsQueue.in_proposalId := None;
                   SuggestionsQueue.in_txHash := None;
                   SuggestionsQueue.in_errorMessage := None |}
                file)) ;;;
      ret {| analysis := a; proposalSubmitted := SubmittedPending;
             recentProposal := None |}.

(** [analyzeAndPropose]. *)
Definition analyzeAndPropose (w : World) (user : string) (options : Options)
  : M CoinAnalysisWithProposal :=
  pc <- resolveCoin w user ;;
  recent <- wasRecentlyProposed w (ci_address (snd pc)) ;;
  match recent with
  | Some entry =>
      n <- ticks ;;
      ret (duplicateResult user (fst pc) (snd pc) entry (dateNow w n))
  | None => scoreAndQueue w user options (fst pc)
  end.

(** A call other than the scoring capability. *)
Definition silent (c : Call) : Prop :=
  match c with AIScoring _ => False | _ => True end.

(** Running [m] only adds calls at the end of the trace, and the added calls
    satisfy [P]. *)
Definition appends {A} (P : list Call -> Prop) (m : M A) : Prop :=
  forall st, exists new, trace (snd (m st)) = (trace st ++ new)%list /\ P new.

(** Properties of added calls that the empty trace has and that survive
    concatenation. *)
Definition closed (P : list Call -> Prop) : Prop :=
  P [] /\ forall a b, P a -> P b -> P (a ++ b)%list.

(** Running [m] leaves the queue file as it was. *)
Definition keeps_queue {A} (m : M A) : Prop :=
  forall st, queue (snd (m st)) = queue st.

(** Every value [m] returns satisfies [P]. *)
Definition returns {A} (P : A -> Prop) (m : M A) : Prop :=
  forall st a st', m st = (Ok a, st') -> P a.

(** A confidence between 0 and 1. *)
Definition unit_interval (c : Q) : Prop := (0 <= c)%Q /\ (c <= 1)%Q.

(** The threshold [analyzeAndPropose] works with. *)
Definition thresholdOf (options : Options) : Q :=
  match confidenceThreshold options with
  | Some t => t
  | None => 2 # 10
  end.

End AnalyzeCreator.

(** ** [suggestBuys] (second half of [src/lib/agent/analyzeCreator.ts]) *)

Module SuggestBuys.

(** A node of an explore answer. *)
Record ExploreNode := {
  n_address : option string;
  n_symbol : option string;
  n_name : option string;
  n_creatorAddress : option string;
  n_volume24h : option string;
  n_marketCap : option string;
  n_totalSupply : option string
}.

Record ZoraCoin := {
  address : string;
  symbol : option string;
  name : option string;
  creator : option string;
  currentPrice : option string;
  volume24h : option string;
  marketCap : option string;
  totalSupply : option string
}.

Record SuggestedCoin := {
  sc_coinId : string;
  sc_symbol : option string;
  sc_name : option string;
  sc_creatorAddress : option string;
  sc_currentPriceUsd : option Q;
  sc_volume24hUsd : option Q
}.

(** The object parsed from the model's answer, which [getAIRecommendation]
    returns unchecked: [confidenceScore] and [suggestedAllocationUsd] are
    whatever JSON values the answer carries there, [None] when it carries
    none. *)
Record OpenAIRecommendation := {
  r_coinId : string;
  r_reason : string;
  r_confidenceScore : option JSValue.Json;
  r_suggestedAllocationUsd : option JSValue.Json
}.

Record BuySuggestion := {
  coin : SuggestedCoin;
  reason : string;
  confidenceScore : option JSValue.Json;
  suggestedAllocationUsd : option JSValue.Json
}.

(** The surroundings of one [suggestBuys] call.  [parseFloat] is the
    JavaScript function of that name ([None] is [NaN]). *)
Record World := {
  OPENAI_API_KEY : option string;
  ZORA_API_KEY : option string;
  DAO_TREASURY_ADDRESS : option string;
  getMostValuableCreatorCoins : Result (list ExploreNode);
  getCoinsTopVolume24h : Result (list ExploreNode);
  getCoinsNew : Result (list ExploreNode);
  getCoinsLastTraded : Result (list ExploreNode);
  getDaoCoinHoldings : string -> Result (list AnalyzeCreator.DaoCoinHolding);
  subgraph : ProposalHistory.Subgraph;
  dateNow : Z;
  getAIRecommendation : list ZoraCoin -> Result OpenAIRecommendation;
  parseFloat : string -> option Q
}.

(** [x || undefined] on an optional string. *)
Definition or_undefined (o : option string) : option string :=
  if truthy_opt o then o else None.

Definition validateEnvironment (w : World) : Result string :=
  if negb (truthy_opt (OPENAI_API_KEY w))
  then Throw "OPENAI_API_KEY is not configured. Please add it to your .env.local file."
  else if negb (truthy_opt (ZORA_API_KEY w))
  then Throw "ZORA_API_KEY is not configured. Please add it to your .env.local file."
  else
    match DAO_TREASURY_ADDRESS w with
    | Some daoAddress =>
        if truthy daoAddress then Ok daoAddress
        else Throw "DAO_TREASURY_ADDRESS is not configured. Please add it to your .env.local file."
    | None =>
        Throw "DAO_TREASURY_ADDRESS is not configured. Please add it to your .env.local file."
    end.

(** The coins one endpoint contributes: the nodes with an address; a failing
    endpoint contributes nothing. *)
Fixpoint coinsOf (nodes : list ExploreNode) : list ZoraCoin :=
  match nodes with
  | [] => []
  | node :: rest =>
      match n_address node with
      | Some a =>
          if truthy a
          then {| address := a;
                  symbol := or_undefined (n_symbol node);
                  name := or_undefined (n_name node);
                  creator := or_undefined (n_creatorAddress node);
                  currentPrice := None;
                  volume24h := or_undefined (n_volume24h node);
                  marketCap := or_undefined (n_marketCap node);
                  totalSupply := or_undefined (n_totalSupply node) |}
               :: coinsOf rest
          else coinsOf rest
      | None => coinsOf rest
      end
  end.

Definition endpointCoins (answer : Result (list ExploreNode)) : list ZoraCoin :=
  match answer with
  | Ok nodes => coinsOf nodes
  | Throw _ => []
  end.

(** Step 3: the four endpoints in source order. *)
Definition allCoins (w : World) : list ZoraCoin :=
  (endpointCoins (getMostValuableCreatorCoins w)
   ++ endpointCoins (getCoinsTopVolume24h w)
   ++ endpointCoins (getCoinsNew w)
   ++ endpointCoins (getCoinsLastTraded w))%list.

Definition member (a : string) (set : list string) : bool :=
  existsb (String.eqb a) set.

(** Step 4: keep the first coin of each lower-cased address; [seen] is the
    [Set] of addresses met so far. *)
Fixpoint dedupe (seen : list string) (coins : list ZoraCoin) : list ZoraCoin :=
  match coins with
  | [] => []
  | c :: rest =>
      let addressLower := toLowerCase (address c) in
      if member addressLower seen then dedupe seen rest
      else c :: dedupe (addressLower :: seen) rest
  end.

Definition uniqueCoins (w : World) : list ZoraCoin := dedupe [] (allCoins w).

Definition heldCoinIds (holdings : list AnalyzeCreator.DaoCoinHolding)
  : list string :=
  map (fun h => toLowerCase (AnalyzeCreator.h_coinId h)) holdings.

(** Step 5: neither the coin nor its creator is among the holdings. *)
Definition notHeld (held : list string) (c : ZoraCoin) : bool :=
  negb (member (toLowerCase (address c)) held)
  && match creator c with
     | Some cr => negb (member (toLowerCase cr) held)
     | None => true
     end.

Definition recentlyProposedAddresses (w : World) : list string :=
  map (fun p => toLowerCase (ProposalHistory.coinAddress p))
      (ProposalHistory.getRecentProposals (subgraph w) (dateNow w)
         ProposalHistory.DUPLICATE_PREVENTION_WINDOW_MS).

(** Step 6. *)
Definition notProposed (w : World) (c : ZoraCoin) : bool :=
  negb (member (toLowerCase (address c)) (recentlyProposedAddresses w)).

Definition nonHeldCoins (w : World) (holdings : list AnalyzeCreator.DaoCoinHolding)
  : list ZoraCoin :=
  filter (notHeld (heldCoinIds holdings)) (uniqueCoins w).

Definition filteredCoins (w : World)
    (holdings : list AnalyzeCreator.DaoCoinHolding) : list ZoraCoin :=
  filter (notProposed w) (nonHeldCoins w holdings).

(** Step 7: [filteredCoins.slice(0, 20)]. *)
Definition coinsForAI (w : World) (holdings : list AnalyzeCreator.DaoCoinHolding)
  : list ZoraCoin :=
  firstn 20 (filteredCoins w holdings).

Definition mapToSuggestedCoin (w : World) (c : ZoraCoin) : SuggestedCoin :=
  {| sc_coinId := address c;
     sc_symbol := or_undefined (symbol c);
     sc_name := or_undefined (name c);
     sc_creatorAddress := or_undefined (creator c);
     sc_currentPriceUsd :=
       match currentPrice c with
       | Some p => if truthy p then parseFloat w p else None
       | None => None
       end;
     sc_volume24hUsd :=
       match volume24h c with
       | Some v => if truthy v then parseFloat w v else None
       | None => None
       end |}.

(** [x || null]: a falsy value becomes [null]. *)
Definition or_null (o : option JSValue.Json) : option JSValue.Json :=
  match o with
  | Some v => if JSValue.truthy_value v then Some v else Some JSValue.JNull
  | None => Some JSValue.JNull
  end.

Definition same_address (a : string) (c : ZoraCoin) : bool :=
  String.eqb (toLowerCase (address c)) (toLowerCase a).

(** [suggestBuys]: [Ok None] is the [null] result. *)
Definition suggestBuys (w : World) : Result (option BuySuggestion) :=
  match validateEnvironment w with
  | Throw m => Throw m
  | Ok daoAddress =>
      match allCoins w with
      | [] => Ok None
      | _ :: _ =>
          match getDaoCoinHoldings w daoAddress with
          | Throw m => Throw m
          | Ok holdings =>
              match nonHeldCoins w holdings with
              | [] => Ok None
              | _ :: _ =>
                  match filteredCoins w holdings with
                  | [] => Ok None
                  | _ :: _ =>
                      match getAIRecommendation w (coinsForAI w holdings) with
                      | Throw m => Throw m
                      | Ok aiResponse =>
                          match find (same_address (r_coinId aiResponse))
                                  (coinsForAI w holdings) with
                          | None => Ok None
                          | Some originalCoin =>
                              Ok (Some
                                    {| coin := mapToSuggestedCoin w originalCoin;
                                       reason := r_reason aiResponse;
                                       confidenceScore :=
                                         r_confidenceScore aiResponse;
                                       suggestedAllocationUsd :=
                                         or_null
                                           (r_suggestedAllocationUsd aiResponse) |})
                          end
                      end
                  end
              end
          end
      end
  end.

End SuggestBuys.

(** ** [src/scripts/agent.ts]: the run orchestrator *)

Module Orchestrator.

Import SuggestionsQueue.

(** The literal [0.7]. *)
Definition CONFIDENCE_THRESHOLD : Float64.number := Float64.round (7 # 10).
Definition COOLDOWN_MINUTES : Q := 12.

(** The document [data/last-agent-run.json].  [RunStamp t] holds
    [new Date(data.timestamp).getTime()] ([None] for an invalid date). *)
Inductive LastRunFile :=
| NoRunFile
| BadRunFile
| RunStamp (timestamp : option Z).

(** [checkCooldown]: [true] when the last run is less than twelve minutes
    old; a missing or unreadable file, or an invalid date, is no cooldown. *)
Definition checkCooldown (now : Z) (file : LastRunFile) : bool :=
  match file with
  | RunStamp (Some lastRun) =>
      let minutesSinceLastRun :=
        (inject_Z (now - lastRun) / inject_Z (1000 * 60))%Q in
      negb (Qle_bool COOLDOWN_MINUTES minutesSinceLastRun)
  | RunStamp None | NoRunFile | BadRunFile => false
  end.

(** [recordRunTime]: a failing write is logged and ignored. *)
Definition recordRunTime (writable : bool) (now : Z) (file : LastRunFile)
  : LastRunFile :=
  if writable then RunStamp (Some now) else file.

(** Calls that leave the process on the discovery path. *)
Inductive Sent :=
| Built (ethAmount : string) (coinAddress : string)
| Submitted (proposal : string).

(** [suggestion.confidenceScore < CONFIDENCE_THRESHOLD]: the score is
    converted to a number first, so [null], [false] and the empty string
    count as 0; a missing score is [NaN] and compares false. *)
Definition belowThreshold (score : option JSValue.Json) : bool :=
  Float64.ltb (JSValue.propertyToNumber score) CONFIDENCE_THRESHOLD.

(** [performAutonomousAnalysis]: the outcome and the calls made, oldest
    first. *)
Definition performAutonomousAnalysis (r : Agent.Run) (d : SuggestBuys.World)
  : Result unit * list Sent :=
  match SuggestBuys.suggestBuys d with
  | Throw m => (Throw m, [])
  | Ok None => (Ok tt, [])
  | Ok (Some suggestion) =>
      if belowThreshold (SuggestBuys.confidenceScore suggestion)
      then (Ok tt, [])
      else
        let ethAmount :=
          CalculateAllocation.calculateProposalAllocation
            (Agent.allocationWorld r) (Float64.Finite 1) in
        let built :=
          Built ethAmount
            (SuggestBuys.sc_coinId (SuggestBuys.coin suggestion)) in
        match Agent.createBuyCoinProposal r ethAmount with
        | Throw m => (Throw m, [built])
        | Ok proposal =>
            match Agent.submitProposalToGovernor r proposal with
            | Throw m => (Throw m, [built; Submitted proposal])
            | Ok _ => (Ok tt, [built; Submitted proposal])
            end
        end
  end.

(** What one run leaves behind. *)
Record Outcome := {
  result : Result unit;
  queueFile : QueueFile;
  runFile : LastRunFile
}.

(** [runAgentOnce]: [now] is the clock in milliseconds, [iso] and [later] the
    timestamps of the queue writes. *)
Definition runAgentOnce (r : Agent.Run) (d : SuggestBuys.World)
    (writable : bool) (now : Z) (iso later : string)
    (queue : QueueFile) (marker : LastRunFile) : Outcome :=
  if checkCooldown now marker
  then {| result := Ok tt; queueFile := queue; runFile := marker |}
  else
    let marker' := recordRunTime writable now marker in
    match getNextSuggestion iso queue with
    | Some queuedSuggestion =>
        let '(res, queue') :=
          Agent.processQueuedSuggestion r iso later queuedSuggestion queue in
        {| result := res; queueFile := queue'; runFile := marker' |}
    | None =>
        {| result := fst (performAutonomousAnalysis r d);
           queueFile := queue;
           runFile := marker' |}
    end.

End Orchestrator.

(** ** The API server ([src/server.ts]) *)

Module Server.

Import JS.

(** The string a status is stored as. *)
Definition statusName (st : SuggestionsQueue.Status) : string :=
  match st with
  | SuggestionsQueue.pending => "pending"
  | SuggestionsQueue.processing => "processing"
  | SuggestionsQueue.completed => "completed"
  | SuggestionsQueue.failed => "failed"
  end.

(** The field of the statistics that counts a status. *)
Definition statOf (st : SuggestionsQueue.Status)
    (stats : SuggestionsQueue.QueueStats) : nat :=
  match st with
  | SuggestionsQueue.pending => SuggestionsQueue.stats_pending stats
  | SuggestionsQueue.processing => SuggestionsQueue.stats_processing stats
  | SuggestionsQueue.completed => SuggestionsQueue.stats_completed stats
  | SuggestionsQueue.failed => SuggestionsQueue.stats_failed stats
  end.

(** Body of the answer of [GET /api/queue]. *)
Record QueueResponse := {
  q_stats : SuggestionsQueue.QueueStats;
  q_suggestions : list SuggestionsQueue.QueuedSuggestion;
  q_count : nat
}.

(** [GET /api/queue?status=...].  The queue file is loaded once for the
    statistics and once for the list; [statsNow] and [listNow] are the clock
    readings of the two loads. *)
Definition getQueue (statsNow listNow : string) (statusFilter : option string)
    (file : SuggestionsQueue.QueueFile) : QueueResponse :=
  let stats := SuggestionsQueue.getQueueStats statsNow file in
  let suggestions :=
    match statusFilter with
    | Some f =>
        if String.eqb f "pending"
        then SuggestionsQueue.getPendingSuggestions listNow file
        else if truthy f
        then filter (fun s => String.eqb (statusName (SuggestionsQueue.status s)) f)
                    (SuggestionsQueue.getAllSuggestions listNow file)
        else SuggestionsQueue.getAllSuggestions listNow file
    | None => SuggestionsQueue.getAllSuggestions listNow file
    end in
  {| q_stats := stats;
     q_suggestions := suggestions;
     q_count := List.length suggestions |}.




End Server.

(** ** The proposal executor ([src/scripts/executeProposals.ts]) *)

Module Executor.

Import JS.

Definition COOLDOWN_MS : Z := 12 * 60 * 1000.

Record ProposalData := {
  proposalId : string;
  proposalNumber : Z;
  description : string;
  targets : list string;
  values : list Z;
  calldatas : list string;
  descriptionHash : string
}.

(** [./data/last-executor-run.json]: missing, not a JSON object, or an
    object with [lastRun] held as the number it converts to in
    [Date.now() - lastRun]: [Some t] for the integer [t] (the number
    [updateCooldown] writes, and also a numeric string or [null], which
    convert), [None] when the conversion gives [NaN] (a missing field, a
    string that is no number).  A [lastRun] with a fraction is not
    represented. *)
Inductive CooldownFile :=
| NoCooldownFile
| BadCooldownFile
| LastRun (lastRun : option Z).

(** [checkCooldown]: [true] when the executor may run. *)
Definition checkCooldown (now : Z) (file : CooldownFile) : bool :=
  match file with
  | LastRun (Some lastRun) =>
      let timeSinceLastRun := now - lastRun in
      if timeSinceLastRun <? COOLDOWN_MS then false else true
  | LastRun None => true
  | NoCooldownFile | BadCooldownFile => true
  end.


(** The chain as the executor meets it: the governor's answer to [state] and
    the outcome of [executeProposal], per proposal. *)
Record World := {
  getProposalState : ProposalData -> Result Z;
  executeProposal : ProposalData -> Result unit
}.



(** What a run of the executor leaves. *)
Record Outcome := {
  exitCode : Z;
  attempts : list ProposalData;
  cooldownFile : CooldownFile
}.




End Executor.

(** ** Concrete scenarios *)

Module Scenarios.

Import SuggestionsQueue.

Definition jesse : SuggestionInput :=
  {| in_coinId := "0x50f88fe97f72cd3e75b9eb4f747f59bceba80d59";
     in_coinSymbol := Some "jessepollak";
     in_coinName := Some "jessepollak";
     in_creatorAddress := None;
     in_creatorName := None;
     in_pfpUrl := None;
     in_currentPriceUsd := None;
     in_volume24hUsd := None;
     in_reason := "Real creator with steady volume";
     in_confidenceScore := 1 # 2;
     in_suggestedAllocationUsd := None;
     in_source := manual;
     in_submittedBy := Some "alice";
     in_processedAt := None;
     in_proposalId := None;
     in_txHash := None;
     in_errorMessage := None |}.

(** A store holding one pending suggestion. *)
Definition one_pending : QueueFile :=
  snd (addSuggestionToQueue 1700000000000 "k3x9qz" "2023-11-14T22:13:20.000Z"
         jesse FileMissing).

Definition id_jesse : string := "suggestion_1700000000000_k3x9qz".

Definition failure : option Metadata :=
  Some {| m_proposalId := None; m_txHash := None;
          m_errorMessage := Some "execution reverted" |}.

(** The same suggestion failing, being retried, and failing again. *)
Definition failed_once : QueueFile :=
  snd (updateSuggestionStatus "2023-11-14T22:30:00.000Z" id_jesse failed failure
         one_pending).

Definition retried : QueueFile :=
  snd (updateSuggestionStatus "2023-11-15T09:00:00.000Z" id_jesse processing None
         failed_once).

Definition failed_twice : QueueFile :=
  snd (updateSuggestionStatus "2023-11-15T09:00:05.000Z" id_jesse failed failure
         retried).

(** One enqueue request: the readings the call takes and its argument. *)
Record Enqueue := {
  e_dateNow : Z;
  e_random : string;
  e_iso : string;
  e_input : SuggestionInput
}.

Definition reading (e : Enqueue) : Z * string := (e_dateNow e, e_random e).

(** A sequence of [addSuggestionToQueue] calls; returns the records handed
    back, in call order, and the final file. *)
Fixpoint enqueueAll (reqs : list Enqueue) (file : QueueFile)
  : list QueuedSuggestion * QueueFile :=
  match reqs with
  | [] => ([], file)
  | e :: rest =>
      let '(s, file1) :=
        addSuggestionToQueue (e_dateNow e) (e_random e) (e_iso e) (e_input e) file in
      let '(ss, file2) := enqueueAll rest file1 in
      (s :: ss, file2)
  end.

(** Two requests served within one millisecond that draw the same suffix. *)
Definition same_tick : list Enqueue :=
  [ {| e_dateNow := 1700000000000; e_random := "k3x9qz";
       e_iso := "2023-11-14T22:13:20.000Z"; e_input := jesse |};
    {| e_dateNow := 1700000000000; e_random := "k3x9qz";
       e_iso := "2023-11-14T22:13:20.000Z"; e_input := jesse |} ].

Definition two_ticks : list Enqueue :=
  [ {| e_dateNow := 1700000000000; e_random := "k3x9qz";
       e_iso := "2023-11-14T22:13:20.000Z"; e_input := jesse |};
    {| e_dateNow := 1700000000001; e_random := "k3x9qz";
       e_iso := "2023-11-14T22:13:20.001Z"; e_input := jesse |} ].

(** A proposal created at second [t] whose description names no coin. *)
Definition quiet (t : Z) : ProposalHistory.SubgraphProposal :=
  {| ProposalHistory.sp_proposalId := "0xq";
     ProposalHistory.sp_proposalNumber := 7;
     ProposalHistory.sp_description := Some "Fund the community call";
     ProposalHistory.sp_title := "Community call";
     ProposalHistory.sp_timeCreated := Some t;
     ProposalHistory.sp_transactionHash := "0xaa";
     ProposalHistory.sp_snapshotBlockNumber := Some 1000;
     ProposalHistory.sp_governorAddress := "0xgov" |}.

(** A proposal created at second [t] to buy the coin of [jesse]. *)
Definition buy_jesse (t : Z) : ProposalHistory.SubgraphProposal :=
  {| ProposalHistory.sp_proposalId := "0xbuy";
     ProposalHistory.sp_proposalNumber := 3;
     ProposalHistory.sp_description :=
       Some "Buy jessepollak. Address: 0x50f88fe97f72cd3e75b9eb4f747f59bceba80d59 Amount: 0.01 ETH";
     ProposalHistory.sp_title := "Buy jessepollak";
     ProposalHistory.sp_timeCreated := Some t;
     ProposalHistory.sp_transactionHash := "0xbb";
     ProposalHistory.sp_snapshotBlockNumber := Some 900;
     ProposalHistory.sp_governorAddress := "0xgov" |}.

Definition coin_jesse : string := "0x50F88FE97F72CD3E75B9EB4F747F59BCEBA80D59".

(** Clock of the history scenarios, in milliseconds. *)
Definition noon : Z := 1700000000000.

(** One hundred proposals of the last hour, then a purchase made two hours
    ago. *)
Definition busy_day : list ProposalHistory.SubgraphProposal :=
  repeat (quiet 1699999000) 100.

Definition two_hours_ago : list ProposalHistory.SubgraphProposal :=
  [buy_jesse 1699992800].

(** A treasury of 0.5 ETH against one active proposal worth 1 ETH. *)
Definition overdrawn : CalculateAllocation.World :=
  {| CalculateAllocation.DAO_TREASURY_ADDRESS :=
       Some "0x72ad986ebac0246d2b3c565ab2a1ce3a14ce6f88";
     CalculateAllocation.getTreasuryBalance := Ok 500000000000000000;
     CalculateAllocation.proposalsFetch :=
       CalculateAllocation.Data
         (Some [ {| CalculateAllocation.proposalId := "0xbuy";
                    CalculateAllocation.description :=
                      Some "Buy jessepollak. Amount: 1 ETH";
                    CalculateAllocation.state := Ok 1 |} ]) |}.

(** The scenario of the specification: 10 ETH, 9.5 ETH committed. *)
Definition ten_eth : CalculateAllocation.World :=
  {| CalculateAllocation.DAO_TREASURY_ADDRESS :=
       Some "0x72ad986ebac0246d2b3c565ab2a1ce3a14ce6f88";
     CalculateAllocation.getTreasuryBalance := Ok 10000000000000000000;
     CalculateAllocation.proposalsFetch :=
       CalculateAllocation.Data
         (Some [ {| CalculateAllocation.proposalId := "0xbuy";
                    CalculateAllocation.description :=
                      Some "Buy jessepollak. Amount: 9.5 ETH";
                    CalculateAllocation.state := Ok 1 |} ]) |}.

Definition coin_info_jesse : AnalyzeCreator.CoinInfo :=
  {| AnalyzeCreator.ci_coinId := "0x50f88fe97f72cd3e75b9eb4f747f59bceba80d59";
     AnalyzeCreator.ci_address := "0x50f88fe97f72cd3e75b9eb4f747f59bceba80d59";
     AnalyzeCreator.ci_creatorAddress := coin_jesse;
     AnalyzeCreator.ci_symbol := Some "jessepollak";
     AnalyzeCreator.ci_name := Some "jessepollak";
     AnalyzeCreator.ci_currentPriceUsd := Some (1 # 100);
     AnalyzeCreator.ci_volume24hUsd := Some (2500 # 1) |}.

(** A run in which the coin was bought two hours ago and the model, if it
    were asked, would answer with confidence 0.9. *)
Definition dup_world : AnalyzeCreator.World :=
  {| AnalyzeCreator.DAO_TREASURY_ADDRESS :=
       Some "0x72ad986ebac0246d2b3c565ab2a1ce3a14ce6f88";
     AnalyzeCreator.OPENAI_API_KEY := Some "sk-test";
     AnalyzeCreator.ZORA_API_KEY := Some "zora-test";
     AnalyzeCreator.zoraProfile := fun _ _ => Throw "not found";
     AnalyzeCreator.zoraCoin := fun _ _ => Ok coin_info_jesse;
     AnalyzeCreator.subgraph := fun _ => ProposalHistory.Index two_hours_ago;
     AnalyzeCreator.dateNow := fun _ => noon;
     AnalyzeCreator.isoNow := fun _ => "2023-11-14T22:13:20.000Z";
     AnalyzeCreator.random36 := fun _ => "k3x9qz";
     AnalyzeCreator.daoHoldings := fun _ _ => Ok [];
     AnalyzeCreator.chatCompletion :=
       fun _ _ => AnalyzeCreator.AIJson "Strong creator" (9 # 10) None |}.

Definition no_options : AnalyzeCreator.Options :=
  {| AnalyzeCreator.confidenceThreshold := None;
     AnalyzeCreator.ethAmount := None;
     AnalyzeCreator.slippagePercent := None |}.

Definition fresh_run : AnalyzeCreator.St :=
  {| AnalyzeCreator.trace := []; AnalyzeCreator.queue := one_pending |}.

End Scenarios.

(** ** Further scenarios *)

Module Examples.

Import Scenarios.

Definition day : Z := ProposalHistory.DUPLICATE_PREVENTION_WINDOW_MS.

(** A proposal from 2020, far outside any window used here. *)
Definition stale : ProposalHistory.SubgraphProposal := quiet 1600000000.

(** A purchase proposed a quarter of an hour before [noon]. *)
Definition recent_buy : ProposalHistory.SubgraphProposal := buy_jesse 1699999100.

(** The same purchase, but the index delivers no block number for it. *)
Definition broken : ProposalHistory.SubgraphProposal :=
  {| ProposalHistory.sp_proposalId := "0xbad";
     ProposalHistory.sp_proposalNumber := 9;
     ProposalHistory.sp_description :=
       Some "Buy jessepollak. Address: 0x50f88fe97f72cd3e75b9eb4f747f59bceba80d59";
     ProposalHistory.sp_title := "Buy jessepollak";
     ProposalHistory.sp_timeCreated := Some 1699999200;
     ProposalHistory.sp_transactionHash := "0xcc";
     ProposalHistory.sp_snapshotBlockNumber := None;
     ProposalHistory.sp_governorAddress := "0xgov" |}.

(** A purchase created at second [t] whose description opens with the
    address line. *)
Definition labelled_buy (t : Z) : ProposalHistory.SubgraphProposal :=
  {| ProposalHistory.sp_proposalId := "0xbuy";
     ProposalHistory.sp_proposalNumber := 3;
     ProposalHistory.sp_description :=
       Some "Address: 0x50f88fe97f72cd3e75b9eb4f747f59bceba80d59 Amount: 0.01 ETH";
     ProposalHistory.sp_title := "Buy jessepollak";
     ProposalHistory.sp_timeCreated := Some t;
     ProposalHistory.sp_transactionHash := "0xbb";
     ProposalHistory.sp_snapshotBlockNumber := Some 900;
     ProposalHistory.sp_governorAddress := "0xgov" |}.

(** A treasury of 20 ETH with nothing committed. *)
Definition rich : CalculateAllocation.World :=
  {| CalculateAllocation.DAO_TREASURY_ADDRESS :=
       Some "0x72ad986ebac0246d2b3c565ab2a1ce3a14ce6f88";
     CalculateAllocation.getTreasuryBalance := Ok 20000000000000000000;
     CalculateAllocation.proposalsFetch := CalculateAllocation.Data (Some []) |}.

Definition node (a : string) (creator : option string) : SuggestBuys.ExploreNode :=
  {| SuggestBuys.n_address := Some a;
     SuggestBuys.n_symbol := Some "coin";
     SuggestBuys.n_name := None;
     SuggestBuys.n_creatorAddress := creator;
     SuggestBuys.n_volume24h := Some "1200.5";
     SuggestBuys.n_marketCap := None;
     SuggestBuys.n_totalSupply := None |}.

Definition coin_other : string := "0x1111111111111111111111111111111111111111".

(** A market of two coins, one listed twice; the DAO holds the coin of
    [jesse]; nothing was proposed lately; the model picks the other coin and
    its answer carries [score] as confidence. *)
Definition answering (score : option JSValue.Json) : SuggestBuys.World :=
  {| SuggestBuys.OPENAI_API_KEY := Some "sk-test";
     SuggestBuys.ZORA_API_KEY := Some "zora-test";
     SuggestBuys.DAO_TREASURY_ADDRESS :=
       Some "0x72ad986ebac0246d2b3c565ab2a1ce3a14ce6f88";
     SuggestBuys.getMostValuableCreatorCoins :=
       Ok [node coin_jesse None; node coin_other None];
     SuggestBuys.getCoinsTopVolume24h := Throw "timeout";
     SuggestBuys.getCoinsNew := Ok [node coin_other None];
     SuggestBuys.getCoinsLastTraded := Ok [];
     SuggestBuys.getDaoCoinHoldings :=
       fun _ => Ok [ {| AnalyzeCreator.h_coinId :=
                          "0x50f88fe97f72cd3e75b9eb4f747f59bceba80d59";
                        AnalyzeCreator.h_balanceUsd := Some (10 # 1) |} ];
     SuggestBuys.subgraph := ProposalHistory.NoData;
     SuggestBuys.dateNow := noon;
     SuggestBuys.getAIRecommendation :=
       fun _ => Ok {| SuggestBuys.r_coinId := coin_other;
                      SuggestBuys.r_reason := "Steady volume";
                      SuggestBuys.r_confidenceScore := score;
                      SuggestBuys.r_suggestedAllocationUsd := None |};
     SuggestBuys.parseFloat := CalculateAllocation.readDecimal |}.

(** The same market with a number, or nothing, as confidence. *)
Definition market (score : option Q) : SuggestBuys.World :=
  answering (option_map JSValue.JNumber score).

(** External steps that all succeed. *)
Definition smooth : Agent.Run :=
  {| Agent.allocationWorld := ten_eth;
     Agent.createBuyCoinProposal := fun eth => Ok ("Buy for " ++ eth ++ " ETH");
     Agent.submitProposalToGovernor :=
       fun _ => Ok {| Agent.sr_txHash := "0xfeed"; Agent.sr_proposalId := None |} |}.

(** A run in which nothing was proposed lately and the model answers with a
    confidence of 1.7. *)
Definition keen_world : AnalyzeCreator.World :=
  {| AnalyzeCreator.DAO_TREASURY_ADDRESS :=
       Some "0x72ad986ebac0246d2b3c565ab2a1ce3a14ce6f88";
     AnalyzeCreator.OPENAI_API_KEY := Some "sk-test";
     AnalyzeCreator.ZORA_API_KEY := Some "zora-test";
     AnalyzeCreator.zoraProfile := fun _ _ => Throw "not found";
     AnalyzeCreator.zoraCoin := fun _ _ => Ok coin_info_jesse;
     AnalyzeCreator.subgraph := fun _ => ProposalHistory.NoData;
     AnalyzeCreator.dateNow := fun _ => noon;
     AnalyzeCreator.isoNow := fun _ => "2023-11-14T22:13:20.000Z";
     AnalyzeCreator.random36 := fun _ => "k3x9qz";
     AnalyzeCreator.daoHoldings := fun _ _ => Ok [];
     AnalyzeCreator.chatCompletion :=
       fun _ _ => AnalyzeCreator.AIJson "Strong creator" (17 # 10) None |}.

Definition empty_run : AnalyzeCreator.St :=
  {| AnalyzeCreator.trace := [];
     AnalyzeCreator.queue := SuggestionsQueue.FileMissing |}.

End Examples.

(** * Properties *)

(** ** Rounding to binary64 *)

Section NumberFacts.

Import Float64.

Lemma nearest_even_spec a b :
  0 <= a -> 0 < b ->
  0 <= nearest_even a b
  /\ 2 * a - b <= 2 * nearest_even a b * b <= 2 * a + b.
Proof.
  intros Ha Hb. unfold nearest_even.
  pose proof (Z.div_mod a b ltac:(lia)) as Hdm.
  pose proof (Z.mod_pos_bound a b Hb) as Hm.
  assert (Hq : 0 <= a / b) by (apply Z.div_pos; lia).
  set (q := a / b) in *. set (r := a mod b) in *.
  assert (E1 : 2 * q * b = 2 * a - 2 * r) by lia.
  assert (E2 : 2 * (q + 1) * b = 2 * a - 2 * r + 2 * b) by lia.
  destruct (Z.compare_spec (2 * r) b) as [E|E|E].
  - destruct (Z.even q); lia.
  - lia.
  - lia.
Qed.

Lemma exponent_range n d : -1074 <= exponent n d.
Proof. unfold exponent. apply Z.le_max_l. Qed.

Lemma exponent_small n d :
  0 < n < d -> exponent n d <= -52.
Proof.
  intros H. unfold exponent.
  assert (Hk : Z.log2 n - Z.log2 d <= 0).
  { pose proof (Z.log2_le_mono n d ltac:(lia)). lia. }
  destruct (let '(a, b) := scaled n d (Z.log2 n - Z.log2 d) in a <? b); lia.
Qed.

(** Below one, a magnitude and its rounding differ by at most [2 ^ -53]. *)
Lemma round_magnitude_small negative N D :
  0 < N < D ->
  exists m E,
    round_magnitude negative N D
    = Finite (Qred (Qmake (if negative then - m else m) (Z.to_pos E)))
    /\ 0 <= m /\ 4503599627370496 <= E
    /\ 2 * N * E - D <= 2 * m * D <= 2 * N * E + D.
Proof.
  intros H.
  pose proof (exponent_small N D H) as He.
  pose proof (exponent_range N D) as He'.
  unfold round_magnitude, mantissa, of_parts, scaled.
  set (e := exponent N D) in *.
  replace (0 <=? e) with false by (symmetry; apply Z.leb_gt; lia).
  rewrite (Z.pow_neg_r 2 e) by lia. rewrite Z.mul_0_r.
  change (2 ^ 1024 <=? 0) with false. cbv iota.
  set (E := 2 ^ (- e)).
  assert (HE : 2 ^ 52 <= E).
  { unfold E. apply Z.pow_le_mono_r; lia. }
  destruct (nearest_even_spec (N * E) D ltac:(lia) ltac:(lia)) as [Hm0 [Hlo Hhi]].
  exists (nearest_even (N * E) D), E. split; [reflexivity|].
  change (2 ^ 52) with 4503599627370496 in HE. repeat split; lia.
Qed.

Lemma round_small q :
  (0 < q)%Q -> (q < 1)%Q ->
  exists v,
    round q = Finite v
    /\ (q - (1 # 9007199254740992) <= v)%Q
    /\ (v <= q + (1 # 9007199254740992))%Q.
Proof.
  destruct q as [n d]. unfold Qlt. simpl. intros Hn Hd.
  destruct n as [|n|n]; try lia.
  unfold round. simpl Qnum. simpl Qden.
  destruct (round_magnitude_small false (Z.pos n) (Z.pos d) ltac:(lia))
    as [m [E [-> [Hm [HE [Hlo Hhi]]]]]].
  eexists. split; [reflexivity|].
  rewrite Qred_correct. unfold Qle, Qminus, Qplus, Qopp. cbn [Qnum Qden].
  rewrite !Pos2Z.inj_mul, Z2Pos.id by lia.
  split; nia.
Qed.


Lemma scaled_positive N D e :
  0 < N -> 0 < D -> 0 < fst (scaled N D e) /\ 0 < snd (scaled N D e).
Proof.
  intros HN HD. unfold scaled. destruct (Z.leb_spec 0 e); simpl.
  - split; [lia|]. apply Z.mul_pos_pos; [lia|]. apply Z.pow_pos_nonneg; lia.
  - split; [|lia]. apply Z.mul_pos_pos; [lia|]. apply Z.pow_pos_nonneg; lia.
Qed.

Lemma mantissa_nonneg N D : 0 < N -> 0 < D -> 0 <= mantissa N D.
Proof.
  intros HN HD. unfold mantissa.
  destruct (scaled_positive N D (exponent N D) HN HD) as [Ha Hb].
  destruct (scaled N D (exponent N D)) as [a b]. simpl in Ha, Hb.
  apply nearest_even_spec; lia.
Qed.

(** Rounding keeps the sign. *)
Lemma round_magnitude_sign negative N D :
  0 < N -> 0 < D ->
  round_magnitude negative N D = Infinity negative
  \/ exists v,
      round_magnitude negative N D = Finite v
      /\ if negative then (v <= 0)%Q else (0 <= v)%Q.
Proof.
  intros HN HD. unfold round_magnitude, of_parts.
  pose proof (mantissa_nonneg N D HN HD) as Hm.
  set (m := mantissa N D) in *. set (e := exponent N D).
  destruct (2 ^ 1024 <=? m * 2 ^ e); [now left|right].
  eexists. split; [reflexivity|].
  assert (Hp : 0 <= 2 ^ e) by (apply Z.pow_nonneg; lia).
  destruct negative; rewrite Qred_correct;
    destruct (0 <=? e); unfold Qle; cbn [Qnum Qden inject_Z]; nia.
Qed.

Lemma round_nonneg q :
  (0 <= q)%Q ->
  round q = Infinity false \/ exists v, round q = Finite v /\ (0 <= v)%Q.
Proof.
  destruct q as [n d]. unfold Qle. simpl. intros Hn.
  destruct n as [|n|n]; try lia.
  - right. exists 0%Q. split; [reflexivity|]. unfold Qle; simpl; lia.
  - unfold round. simpl Qnum. simpl Qden.
    apply (round_magnitude_sign false); lia.
Qed.

Lemma round_nonpos q :
  (q <= 0)%Q ->
  round q = Infinity true \/ exists v, round q = Finite v /\ (v <= 0)%Q.
Proof.
  destruct q as [n d]. unfold Qle. simpl. intros Hn.
  destruct n as [|n|n]; try lia.
  - right. exists 0%Q. split; [reflexivity|]. unfold Qle; simpl; lia.
  - unfold round. simpl Qnum. simpl Qden.
    apply (round_magnitude_sign true); lia.
Qed.

Lemma exponent_large N D :
  0 < D <= N ->
  exists fl, 0 <= fl /\ exponent N D = fl - 52 /\ D * 2 ^ fl <= N.
Proof.
  intros H.
  assert (Hk : 0 <= Z.log2 N - Z.log2 D).
  { pose proof (Z.log2_le_mono D N ltac:(lia)). lia. }
  pose proof (Z.log2_spec N ltac:(lia)) as HlN.
  pose proof (Z.log2_spec D ltac:(lia)) as HlD.
  pose proof (Z.log2_nonneg D) as HD0.
  unfold exponent, scaled.
  set (k := Z.log2 N - Z.log2 D) in *.
  replace (0 <=? k) with true by (symmetry; apply Z.leb_le; lia).
  destruct (Z.ltb_spec N (D * 2 ^ k)) as [Hb|Hb].
  - assert (k <> 0) by (intros E; rewrite E in Hb; simpl in Hb; lia).
    exists (k - 1). split; [lia|]. split; [lia|].
    apply Z.le_trans with (2 ^ Z.log2 N); [|lia].
    replace (Z.log2 N) with (Z.succ (Z.log2 D) + (k - 1)) by (unfold k; lia).
    rewrite Z.pow_add_r by lia.
    apply Z.mul_le_mono_nonneg_r; [apply Z.pow_nonneg; lia|lia].
  - exists k. split; [lia|]. split; [lia|exact Hb].
Qed.

(** From one on, rounding loses at most the fraction [2 ^ -53] of the
    magnitude. *)
Lemma round_magnitude_large N D :
  0 < D <= N ->
  round_magnitude false N D = Infinity false
  \/ exists a b,
      round_magnitude false N D = Finite (Qred (Qmake a (Z.to_pos b)))
      /\ 0 < b
      /\ N * b * 9007199254740991 <= a * D * 9007199254740992.
Proof.
  intros H.
  destruct (exponent_large N D H) as [fl [Hfl0 [He Hfl]]].
  unfold round_magnitude, mantissa, of_parts.
  rewrite He. set (e := fl - 52). unfold scaled.
  destruct (Z.leb_spec 0 e) as [Hpos|Hneg].
  - (* integers with more than 52 bits *)
    assert (Hp : 0 < 2 ^ e) by (apply Z.pow_pos_nonneg; lia).
    destruct (nearest_even_spec N (D * 2 ^ e) ltac:(lia) ltac:(nia))
      as [Hm0 [Hlo _]].
    set (m := nearest_even N (D * 2 ^ e)) in *.
    destruct (2 ^ 1024 <=? m * 2 ^ e); [now left|right].
    exists (m * 2 ^ e), 1. split; [reflexivity|]. split; [lia|].
    assert (E52 : 2 ^ fl = 2 ^ e * 4503599627370496).
    { replace fl with (e + 52) by (unfold e; lia).
      rewrite Z.pow_add_r by lia. reflexivity. }
    rewrite E52 in Hfl. nia.
  - rewrite (Z.pow_neg_r 2 e) by lia. rewrite Z.mul_0_r.
    change (2 ^ 1024 <=? 0) with false. cbv iota. right.
    set (E := 2 ^ (- e)).
    assert (HE : 0 < E) by (apply Z.pow_pos_nonneg; lia).
    destruct (nearest_even_spec (N * E) D ltac:(nia) ltac:(lia))
      as [Hm0 [Hlo _]].
    set (m := nearest_even (N * E) D) in *.
    exists m, E. split; [reflexivity|]. split; [exact HE|].
    assert (E52 : 2 ^ fl * E = 4503599627370496).
    { unfold E, e. rewrite <- Z.pow_add_r by lia.
      replace (fl + - (fl - 52)) with 52 by lia. reflexivity. }
    nia.
Qed.

Lemma round_large q :
  (1 <= q)%Q ->
  round q = Infinity false
  \/ exists v,
      round q = Finite v
      /\ (q * (9007199254740991 # 9007199254740992) <= v)%Q.
Proof.
  destruct q as [n d]. intros Hn. unfold Qle in Hn. simpl in Hn.
  destruct n as [|n|n]; try lia.
  unfold round. simpl Qnum. simpl Qden.
  destruct (round_magnitude_large (Z.pos n) (Z.pos d) ltac:(lia))
    as [->|[a [b [-> [Hb H]]]]]; [now left|right].
  eexists. split; [reflexivity|].
  rewrite Qred_correct. unfold Qle, Qmult. cbn [Qnum Qden].
  rewrite !Pos2Z.inj_mul, Z2Pos.id by lia. nia.
Qed.



End NumberFacts.

(** ** The suggestion store *)

Section QueueFacts.

Import SuggestionsQueue.

Lemma find_update_found {A} (p : A -> bool) (f : A -> A) (l : list A) :
  (forall x, p (f x) = p x) ->
  find p (update_found p f l) = option_map f (find p l).
Proof.
  intros Hp. unfold find. induction l as [|x r IH]; simpl; [reflexivity|].
  destruct (p x) eqn:E; simpl.
  - now rewrite Hp, E.
  - now rewrite E.
Qed.

Lemma has_id_true i s : has_id i s = true <-> id s = i.
Proof. unfold has_id. apply String.eqb_eq. Qed.

Ltac split_update :=
  unfold applyUpdate, assign_if_truthy, meta_field;
  repeat match goal with
         | |- context [match ?x with _ => _ end] => destruct x
         end; simpl; try reflexivity.

Lemma applyUpdate_id now st md s : id (applyUpdate now st md s) = id s.
Proof. split_update. Qed.

Lemma applyUpdate_status now st md s : status (applyUpdate now st md s) = st.
Proof. split_update. Qed.

Lemma applyUpdate_processedAt now st md s :
  processedAt (applyUpdate now st md s)
  = match st with
    | completed | failed => Some now
    | pending | processing => processedAt s
    end.
Proof. split_update. Qed.

Lemma applyUpdate_errorMessage now st md s :
  errorMessage (applyUpdate now st md s)
  = if truthy_opt (meta_field md m_errorMessage)
    then meta_field md m_errorMessage
    else errorMessage s.
Proof.
  unfold truthy_opt. destruct md as [[a b [c|]]|], st; simpl;
    unfold applyUpdate, assign_if_truthy; simpl;
    try destruct (truthy c); try reflexivity;
    destruct a as [a|], b as [b|]; simpl;
    try destruct (truthy a); try destruct (truthy b); reflexivity.
Qed.

Lemma applyUpdate_has_id now st md i s :
  has_id i (applyUpdate now st md s) = has_id i s.
Proof. unfold has_id. now rewrite applyUpdate_id. Qed.

(** What a successful [updateSuggestionStatus] leaves under the id. *)
Lemma updateSuggestionStatus_found now now' i st md file s :
  find (has_id i) (getAllSuggestions now file) = Some s ->
  updateSuggestionStatus now i st md file
  = (Ok tt,
     saveQueue now
       {| suggestions := update_found (has_id i) (applyUpdate now st md)
                           (suggestions (loadQueue now file));
          lastUpdated := lastUpdated (loadQueue now file) |})
  /\ find (has_id i)
       (getAllSuggestions now' (snd (updateSuggestionStatus now i st md file)))
     = Some (applyUpdate now st md s).
Proof.
  unfold getAllSuggestions, updateSuggestionStatus. intros H.
  rewrite H. split; [reflexivity|]. simpl.
  rewrite find_update_found by (intro; apply applyUpdate_has_id).
  now rewrite H.
Qed.

Lemma updateSuggestionStatus_missing now i st md file :
  find (has_id i) (getAllSuggestions now file) = None ->
  updateSuggestionStatus now i st md file
  = (Throw ("Suggestion not found: " ++ i), file).
Proof.
  unfold getAllSuggestions, updateSuggestionStatus. intros H. now rewrite H.
Qed.

(** C7: [updateSuggestionStatus] throws the not-found error exactly when no
    record of the store carries the id, and then returns the file untouched;
    when a record carries the id it succeeds, whatever the target status. *)
Theorem updateSuggestionStatus_not_found_exactly :
  forall now i st md file,
    ((exists s, In s (getAllSuggestions now file) /\ id s = i)
     <-> fst (updateSuggestionStatus now i st md file) = Ok tt)
    /\ ((~ exists s, In s (getAllSuggestions now file) /\ id s = i)
        <-> updateSuggestionStatus now i st md file
            = (Throw ("Suggestion not found: " ++ i), file)).
Proof.
  intros now i st md file.
  destruct (find (has_id i) (getAllSuggestions now file)) as [s|] eqn:E.
  - destruct (updateSuggestionStatus_found now now i st md file s E) as [Hu _].
    assert (Hex : exists s, In s (getAllSuggestions now file) /\ id s = i).
    { apply find_some in E. exists s. split; [tauto|]. now apply has_id_true. }
    rewrite Hu. simpl. split; split; intros; try tauto; try discriminate.
  - rewrite (updateSuggestionStatus_missing _ _ _ _ _ E). simpl.
    assert (Hno : ~ exists s, In s (getAllSuggestions now file) /\ id s = i).
    { intros [s [Hin Hid]]. apply (find_none _ _ E) in Hin.
      apply has_id_true in Hid. congruence. }
    split; split; intros; try tauto; try discriminate.
Qed.

End QueueFacts.

Section QueueLifecycle.

Import SuggestionsQueue.
Import Scenarios.

Lemma filter_full_length {A} (p : A -> bool) (l : list A) :
  (List.length l <= List.length (filter p l))%nat ->
  forall x, In x l -> p x = true.
Proof.
  induction l as [|a r IH]; simpl; [tauto|].
  pose proof (filter_length_le p r) as Hle.
  destruct (p a) eqn:E; simpl; intros Hlen x [<-|Hin]; auto; try lia.
  apply IH; [lia|assumption].
Qed.

(** [deleteSuggestion] leaves no record with the id. *)
Lemma deleteSuggestion_removes now now' i file s :
  In s (getAllSuggestions now' (snd (deleteSuggestion now i file))) -> id s <> i.
Proof.
  unfold deleteSuggestion, getAllSuggestions.
  set (l := suggestions (loadQueue now file)).
  destruct (Nat.ltb_spec
              (List.length (filter (fun s => negb (has_id i s)) l))
              (List.length l)) as [Hlt|Hge]; simpl; intros Hin Hid.
  - apply filter_In in Hin. destruct Hin as [_ Hn].
    apply has_id_true in Hid. rewrite Hid in Hn. discriminate.
  - assert (Hl : In s l).
    { subst l. destruct file; simpl in *; tauto. }
    apply (filter_full_length _ _ Hge) in Hl.
    apply has_id_true in Hid. rewrite Hid in Hl. discriminate.
Qed.

(** The file [trySubmit] leaves behind when the id is present: the record
    marked [processing]. *)
Lemma trySubmit_file r now sug file s :
  find (has_id (id sug)) (getAllSuggestions now file) = Some s ->
  snd (Agent.trySubmit r now sug file)
  = snd (updateSuggestionStatus now (id sug) processing None file).
Proof.
  intros H. unfold Agent.trySubmit.
  destruct (updateSuggestionStatus_found now now (id sug) processing None file s H)
    as [Hu _].
  rewrite Hu. simpl.
  destruct (Agent.createBuyCoinProposal r _); [|reflexivity].
  destruct (Agent.submitProposalToGovernor r _); reflexivity.
Qed.

(** A present suggestion marked [failed] with a non-empty message stays in
    the store and carries the message. *)
Lemma kept_failed now now' i m file s :
  find (has_id i) (getAllSuggestions now file) = Some s ->
  truthy m = true ->
  exists s',
    find (has_id i)
      (getAllSuggestions now'
         (snd (updateSuggestionStatus now i failed (Agent.with_message m) file)))
    = Some s'
    /\ status s' = failed /\ errorMessage s' = Some m.
Proof.
  intros H Hm.
  destruct (updateSuggestionStatus_found now now' i failed (Agent.with_message m)
              file s H) as [_ Hf].
  eexists. split; [exact Hf|]. split; [apply applyUpdate_status|].
  rewrite applyUpdate_errorMessage. simpl. now rewrite Hm.
Qed.

(** C1 (as the code has it): marking a present suggestion [completed] keeps
    its record in the store, now with status [completed]; marking it [failed]
    with a non-empty message keeps the record with that message.  Removal on
    success is the orchestrator's own step: when every step of
    [processQueuedSuggestion] passes, no record with the id is left, and when
    a step throws a non-empty message the record stays, [failed], with that
    message. *)
Theorem completed_is_kept_success_is_deleted :
  forall now now' i md file s,
    find (has_id i) (getAllSuggestions now file) = Some s ->
    (exists s',
        find (has_id i)
          (getAllSuggestions now'
             (snd (updateSuggestionStatus now i completed md file))) = Some s'
        /\ status s' = completed)
    /\ (forall m, truthy m = true ->
        exists s',
          find (has_id i)
            (getAllSuggestions now'
               (snd (updateSuggestionStatus now i failed
                       (Agent.with_message m) file))) = Some s'
          /\ status s' = failed /\ errorMessage s' = Some m)
    /\ (forall r later sug,
        id sug = i ->
        fst (Agent.trySubmit r now sug file) = Ok tt ->
        fst (Agent.processQueuedSuggestion r now later sug file) = Ok tt
        /\ forall s',
            In s' (getAllSuggestions now'
                     (snd (Agent.processQueuedSuggestion r now later sug file))) ->
            id s' <> i)
    /\ (forall r later sug m,
        id sug = i ->
        fst (Agent.trySubmit r now sug file) = Throw m ->
        truthy m = true ->
        fst (Agent.processQueuedSuggestion r now later sug file) = Throw m
        /\ exists s',
            find (has_id i)
              (getAllSuggestions now'
                 (snd (Agent.processQueuedSuggestion r now later sug file)))
            = Some s'
            /\ status s' = failed /\ errorMessage s' = Some m).
Proof.
  intros now now' i md file s H. split; [|split; [|split]].
  - destruct (updateSuggestionStatus_found now now' i completed md file s H)
      as [_ Hf].
    eexists. split; [exact Hf|]. apply applyUpdate_status.
  - intros m Hm. apply (kept_failed now now' i m file s H Hm).
  - intros r later sug Hid Hok. unfold Agent.processQueuedSuggestion.
    destruct (Agent.trySubmit r now sug file) as [[u|m] f1]; simpl in *;
      [|discriminate].
    split; [reflexivity|]. intros s' Hin. subst i.
    now apply deleteSuggestion_removes in Hin.
  - intros r later sug m Hid Hthrow Hm. subst i.
    unfold Agent.processQueuedSuggestion.
    pose proof (trySubmit_file r now sug file s H) as Hfile.
    destruct (Agent.trySubmit r now sug file) as [[u|m'] f1]; simpl in *;
      [discriminate|].
    injection Hthrow as ->. subst f1.
    destruct (updateSuggestionStatus_found now later (id sug) processing None
                file s H) as [_ Hf].
    destruct (updateSuggestionStatus_found later now' (id sug) failed
                (Agent.with_message m) _ _ Hf) as [Hu _].
    fold (Agent.with_message m). rewrite Hu. split; [reflexivity|].
    pose proof (kept_failed later now' (id sug) m _ _ Hf Hm) as Hk.
    fold (Agent.with_message m) in Hk. now rewrite Hu in Hk.
Qed.

End QueueLifecycle.

Section QueueExamples.

Import SuggestionsQueue.
Import Scenarios.

(** C1, witness: the one-record store of [Scenarios]. *)
Lemma completed_is_kept_success_is_deleted_witness :
  find (has_id id_jesse) (getAllSuggestions "" one_pending)
  = Some (newSuggestion 1700000000000 "k3x9qz" "2023-11-14T22:13:20.000Z" jesse)
  /\ exists s',
      find (has_id id_jesse)
        (getAllSuggestions ""
           (snd (updateSuggestionStatus "" id_jesse completed None one_pending)))
      = Some s'
      /\ status s' = completed.
Proof.
  split; [reflexivity|].
  exact (proj1 (completed_is_kept_success_is_deleted "" "" id_jesse None
                  one_pending _ eq_refl)).
Defined.

(** C1, counterexample: after [updateSuggestionStatus(id, 'completed')] on a
    store holding the id, the record is still listed by [getAllSuggestions]. *)
Lemma completed_record_still_listed :
  In id_jesse (map id (getAllSuggestions "" one_pending))
  /\ fst (updateSuggestionStatus "2023-11-14T22:30:00.000Z" id_jesse completed
            None one_pending) = Ok tt
  /\ In id_jesse
       (map id
          (getAllSuggestions ""
             (snd (updateSuggestionStatus "2023-11-14T22:30:00.000Z" id_jesse
                     completed None one_pending)))).
Proof. vm_compute. tauto. Qed.

(** C3 (as the code has it): every [updateSuggestionStatus] to [completed] or
    [failed] on a present id sets [processedAt] to the clock reading of that
    call, whatever was stored before; an update to [pending] or [processing]
    leaves [processedAt] as it was. *)
Theorem processedAt_follows_latest_terminal_update :
  forall now now' i st md file s,
    find (has_id i) (getAllSuggestions now file) = Some s ->
    exists s',
      find (has_id i)
        (getAllSuggestions now' (snd (updateSuggestionStatus now i st md file)))
      = Some s'
      /\ processedAt s'
         = match st with
           | completed | failed => Some now
           | pending | processing => processedAt s
           end.
Proof.
  intros now now' i st md file s H.
  destruct (updateSuggestionStatus_found now now' i st md file s H) as [_ Hf].
  eexists. split; [exact Hf|]. apply applyUpdate_processedAt.
Qed.

(** C3, witness: the second failure of [Scenarios]. *)
Lemma processedAt_follows_latest_terminal_update_witness :
  (exists s, find (has_id id_jesse) (getAllSuggestions "" retried) = Some s)
  /\ exists s',
      find (has_id id_jesse) (getAllSuggestions "" failed_twice) = Some s'
      /\ processedAt s' = Some "2023-11-15T09:00:05.000Z".
Proof.
  split; [eexists; reflexivity|].
  exact (processedAt_follows_latest_terminal_update
           "2023-11-15T09:00:05.000Z" "" id_jesse failed failure retried _ eq_refl).
Defined.

(** C3, counterexample: a suggestion that failed, was retried and failed
    again carries the time of the second failure; the first stamp is gone. *)
Lemma processedAt_is_restamped :
  map processedAt (getAllSuggestions "" failed_once)
  = [Some "2023-11-14T22:30:00.000Z"]
  /\ map processedAt (getAllSuggestions "" failed_twice)
     = [Some "2023-11-15T09:00:05.000Z"]
  /\ map processedAt (getAllSuggestions "" failed_twice)
     <> map processedAt (getAllSuggestions "" failed_once).
Proof. vm_compute. repeat split. discriminate. Qed.

End QueueExamples.

Section QueueIdentity.

Import SuggestionsQueue.
Import Scenarios.

Lemma string_of_uint_no_underscore u :
  no_underscore (NilEmpty.string_of_uint u).
Proof. induction u; simpl; auto; split; auto; discriminate. Qed.

Lemma numberToString_no_underscore n : no_underscore (numberToString n).
Proof.
  unfold numberToString, NilZero.string_of_int, NilZero.string_of_uint.
  destruct (Z.to_int n) as [u|u]; destruct u; simpl; repeat split;
    try discriminate; apply string_of_uint_no_underscore.
Qed.

(** A text without underscore, an underscore, and a rest: the first
    underscore tells where the text ends. *)
Lemma split_at_underscore d1 d2 r1 r2 :
  no_underscore d1 -> no_underscore d2 ->
  d1 ++ String underscore r1 = d2 ++ String underscore r2 ->
  d1 = d2 /\ r1 = r2.
Proof.
  revert d2. induction d1 as [|c d1 IH]; intros [|c' d2]; simpl;
    intros H1 H2 E.
  - injection E as ->. split; reflexivity.
  - injection E as Ec _. destruct H2 as [H2 _]. congruence.
  - injection E as Ec _. destruct H1 as [H1 _]. congruence.
  - injection E as Ec E. destruct H1 as [_ H1], H2 as [_ H2].
    destruct (IH _ H1 H2 E) as [Ed Er]. split; congruence.
Qed.

Lemma numberToString_inj a b : numberToString a = numberToString b -> a = b.
Proof.
  unfold numberToString. intros H. apply DecimalZ.to_int_inj.
  assert (Hp : forall z, NilZero.int_of_string (NilZero.string_of_int (Z.to_int z))
                         = Some (Z.to_int z)).
  { intro z. apply NilZero.isi; destruct z; simpl; try discriminate;
      intros [= E]; now apply DecimalPos.Unsigned.to_uint_nonnil in E. }
  pose proof (Hp a) as Ha. pose proof (Hp b) as Hb. rewrite H in Ha. congruence.
Qed.

(** The id template is injective in the pair (clock reading, suffix). *)
Lemma newId_inj d1 r1 d2 r2 :
  newId d1 r1 = newId d2 r2 -> d1 = d2 /\ r1 = r2.
Proof.
  unfold newId. simpl. intros E. injection E as E.
  apply split_at_underscore in E; try apply numberToString_no_underscore.
  destruct E as [E ->]. split; [now apply numberToString_inj|reflexivity].
Qed.

Lemma enqueueAll_returns reqs file :
  map id (fst (enqueueAll reqs file))
  = map (fun p => newId (fst p) (snd p)) (map reading reqs).
Proof.
  revert file. induction reqs as [|e rest IH]; intros file; simpl; [reflexivity|].
  specialize (IH (saveQueue (e_iso e)
    {| suggestions := suggestions (loadQueue (e_iso e) file)
                        ++ [newSuggestion (e_dateNow e) (e_random e) (e_iso e)
                              (e_input e)];
       lastUpdated := lastUpdated (loadQueue (e_iso e) file) |})).
  unfold addSuggestionToQueue.
  destruct (enqueueAll rest _) as [ss f2]. simpl in *. now rewrite IH.
Qed.

(** Enqueueing appends: the store lists the old records, then the new ones in
    call order. *)
Lemma enqueueAll_appends reqs now file :
  getAllSuggestions now (snd (enqueueAll reqs file))
  = (getAllSuggestions now file ++ fst (enqueueAll reqs file))%list.
Proof.
  revert file. induction reqs as [|e rest IH]; intros file; simpl.
  - now rewrite app_nil_r.
  - specialize (IH (saveQueue (e_iso e)
      {| suggestions := suggestions (loadQueue (e_iso e) file)
                          ++ [newSuggestion (e_dateNow e) (e_random e) (e_iso e)
                                (e_input e)];
         lastUpdated := lastUpdated (loadQueue (e_iso e) file) |})).
    unfold addSuggestionToQueue.
    destruct (enqueueAll rest _) as [ss f2]. simpl in *. rewrite IH.
    unfold getAllSuggestions. simpl. rewrite <- app_assoc. simpl.
    now destruct file.
Qed.

(** [getNextSuggestion] is the first pending record in list order. *)
Lemma getNextSuggestion_first_pending now file :
  match getNextSuggestion now file with
  | Some s =>
      exists before after,
        getAllSuggestions now file = (before ++ s :: after)%list
        /\ status s = pending
        /\ Forall (fun x => status x <> pending) before
  | None => Forall (fun x => status x <> pending) (getAllSuggestions now file)
  end.
Proof.
  unfold getNextSuggestion, getPendingSuggestions, getAllSuggestions.
  induction (suggestions (loadQueue now file)) as [|x l IH]; simpl.
  - constructor.
  - unfold is_pending at 1. destruct (status x) eqn:E; simpl.
    + exists [], l. repeat split; auto.
    + destruct (filter is_pending l) as [|s ?].
      * constructor; [congruence|exact IH].
      * destruct IH as [b [a [-> [Hs Hb]]]]. exists (x :: b), a.
        repeat split; auto. constructor; [congruence|exact Hb].
    + destruct (filter is_pending l) as [|s ?].
      * constructor; [congruence|exact IH].
      * destruct IH as [b [a [-> [Hs Hb]]]]. exists (x :: b), a.
        repeat split; auto. constructor; [congruence|exact Hb].
    + destruct (filter is_pending l) as [|s ?].
      * constructor; [congruence|exact IH].
      * destruct IH as [b [a [-> [Hs Hb]]]]. exists (x :: b), a.
        repeat split; auto. constructor; [congruence|exact Hb].
Qed.

(** What the id template does achieve: the ids handed out by a sequence of
    enqueues are pairwise distinct whenever the (clock reading, random
    suffix) pairs of the calls are pairwise distinct; the store lists the
    records in call order; and [getNextSuggestion] returns the first pending
    record of that order, or nothing exactly when no record is pending. *)
Theorem enqueue_ids_distinct_for_distinct_readings :
  forall reqs now file,
    NoDup (map reading reqs) ->
    NoDup (map id (fst (enqueueAll reqs file)))
    /\ getAllSuggestions now (snd (enqueueAll reqs file))
       = (getAllSuggestions now file ++ fst (enqueueAll reqs file))%list
    /\ forall f,
        match getNextSuggestion now f with
        | Some s =>
            exists before after,
              getAllSuggestions now f = (before ++ s :: after)%list
              /\ status s = pending
              /\ Forall (fun x => status x <> pending) before
        | None => Forall (fun x => status x <> pending) (getAllSuggestions now f)
        end.
Proof.
  intros reqs now file Hnd. split; [|split].
  - rewrite enqueueAll_returns.
    apply Finite.Injective_map_NoDup; [|exact Hnd].
    intros [d1 r1] [d2 r2] E. simpl in E. apply newId_inj in E.
    destruct E as [-> ->]. reflexivity.
  - apply enqueueAll_appends.
  - intro f. apply getNextSuggestion_first_pending.
Qed.

(** For instance, two enqueues one millisecond apart. *)
Lemma enqueue_ids_distinct_for_distinct_readings_witness :
  NoDup (map reading two_ticks)
  /\ NoDup (map id (fst (enqueueAll two_ticks FileMissing)))
  /\ option_map id (getNextSuggestion "" (snd (enqueueAll two_ticks FileMissing)))
     = Some id_jesse.
Proof.
  assert (Hnd : NoDup (map reading two_ticks)).
  { repeat constructor; simpl; intuition discriminate. }
  split; [exact Hnd|]. split; [|reflexivity].
  exact (proj1 (enqueue_ids_distinct_for_distinct_readings two_ticks ""
                  FileMissing Hnd)).
Defined.

(** C8: the id is documented as a unique identifier, but nothing checks
    it against the store: two enqueues that read the same millisecond and
    draw the same suffix are handed the same id, and the store then lists
    two records under one id. *)
Lemma enqueue_same_reading_same_id :
  map id (fst (enqueueAll same_tick FileMissing)) = [id_jesse; id_jesse]
  /\ ~ NoDup (map id (fst (enqueueAll same_tick FileMissing))).
Proof.
  split; [reflexivity|].
  intros H. inversion H as [|x l Hin _]. apply Hin. now left.
Qed.

End QueueIdentity.

(** ** The proposal history *)

Section HistoryFacts.

Import ProposalHistory.
Import Scenarios.

Lemma partitionCoins_allowed proposals now coins :
  fst (partitionCoins proposals now coins)
  = filter (fun c => negb (matched proposals c)) coins.
Proof.
  induction coins as [|c rest IH]; simpl; [reflexivity|].
  unfold matched at 1.
  destruct (partitionCoins proposals now rest) as [al ex]. simpl in IH.
  destruct (find _ proposals); simpl; congruence.
Qed.

Lemma partitionCoins_excluded proposals now coins :
  map ex_coinAddress (snd (partitionCoins proposals now coins))
  = filter (matched proposals) coins.
Proof.
  induction coins as [|c rest IH]; simpl; [reflexivity|].
  unfold matched at 1.
  destruct (partitionCoins proposals now rest) as [al ex]. simpl in IH.
  destruct (find _ proposals); simpl; congruence.
Qed.




Lemma partitionCoins_no_history now coins :
  partitionCoins [] now coins = (coins, []).
Proof.
  induction coins as [|c rest IH]; simpl; [reflexivity|]. now rewrite IH.
Qed.

(** C5: when the history query fails (the fetch rejects, the response is not
    ok, the body cannot be read, or the payload carries [errors]),
    [getRecentProposals] returns the empty list and
    [filterRecentlyProposedCoins] allows the whole input and excludes
    nothing. *)
Theorem failed_query_allows_everything :
  forall sg fetchNow now coins windowMs,
    queryFails sg = true ->
    getRecentProposals sg fetchNow windowMs = []
    /\ filterRecentlyProposedCoins sg fetchNow now coins windowMs = (coins, []).
Proof.
  intros sg fetchNow now coins windowMs H.
  assert (E : getRecentProposals sg fetchNow windowMs = []).
  { destruct sg; simpl in H; try discriminate; try reflexivity.
    subst. reflexivity. }
  split; [exact E|]. unfold filterRecentlyProposedCoins. rewrite E.
  apply partitionCoins_no_history.
Qed.

(** C5, witness: a body that carries [errors] together with the purchase
    of two hours ago.  Without the errors the purchase is found; with them
    the history is empty and the coin is allowed. *)
Lemma failed_query_allows_everything_witness :
  queryFails (Answer true (Some two_hours_ago)) = true
  /\ option_map proposalId
       (wasRecentlyProposed (Answer false (Some two_hours_ago)) noon coin_jesse
          DUPLICATE_PREVENTION_WINDOW_MS) = Some "0xbuy"
  /\ filterRecentlyProposedCoins (Answer true (Some two_hours_ago))
       noon noon [coin_jesse; "0xabc"] DUPLICATE_PREVENTION_WINDOW_MS
     = ([coin_jesse; "0xabc"], []).
Proof.
  split; [reflexivity|]. split; [vm_compute; reflexivity|].
  exact (proj2 (failed_query_allows_everything
                  (Answer true (Some two_hours_ago)) noon noon
                  [coin_jesse; "0xabc"] DUPLICATE_PREVENTION_WINDOW_MS eq_refl)).
Defined.

(** Every entry the scan produces is built from a proposal it was given. *)
Lemma scanProposals_sources cutoffTime ps entries :
  scanProposals cutoffTime ps = Some entries ->
  Forall (fun e =>
            exists p,
              In p ps
              /\ proposalId e = sp_proposalId p
              /\ sp_timeCreated p = Some (submittedAt e / 1000))
         entries.
Proof.
  revert entries. induction ps as [|p rest IH]; simpl; intros entries H.
  - injection H as <-. constructor.
  - destruct (sp_timeCreated p) as [t|] eqn:Et; simpl in H.
    + destruct (t * 1000 <? cutoffTime); [injection H as <-; constructor|].
      destruct (extractCoinAddressFromDescription (sp_description p)).
      * destruct (valid_time (t * 1000)); [|discriminate].
        destruct (sp_snapshotBlockNumber p); [|discriminate].
        destruct (scanProposals cutoffTime rest) as [more|]; [|discriminate].
        injection H as <-. constructor.
        -- exists p. simpl. repeat split; auto.
           now rewrite Z.div_mul by lia.
        -- eapply Forall_impl; [|apply IH; reflexivity].
           intros e [q [Hin Hq]]. exists q. auto.
      * eapply Forall_impl; [|apply IH; exact H].
        intros e [q [Hin Hq]]. exists q. auto.
    + destruct (extractCoinAddressFromDescription (sp_description p));
        [discriminate|].
      eapply Forall_impl; [|apply IH; exact H].
      intros e [q [Hin Hq]]. exists q. auto.
Qed.

Lemma getRecentProposals_sources ps now windowMs :
  Forall (fun e =>
            exists p,
              In p (firstn 100 ps)
              /\ proposalId e = sp_proposalId p
              /\ sp_timeCreated p = Some (submittedAt e / 1000))
         (getRecentProposals (Index ps) now windowMs).
Proof.
  unfold getRecentProposals, fetchProposals.
  destruct (scanProposals (now - windowMs) (firstn 100 ps)) as [entries|] eqn:E.
  - now apply scanProposals_sources in E.
  - constructor.
Qed.

Lemma first_hundred_only (newest older : list SubgraphProposal) :
  (100 <= List.length newest)%nat ->
  firstn 100 (newest ++ older) = firstn 100 newest.
Proof.
  intros H. rewrite firstn_app.
  replace (100 - List.length newest)%nat with 0%nat by lia.
  simpl. apply app_nil_r.
Qed.

(** C10: [getRecentProposals] asks the index for its 100 newest proposals
    only.  Whatever lies behind them has no effect on its result, nor on
    [wasRecentlyProposed] or [filterRecentlyProposedCoins], whatever the
    window; every entry of the result stems from one of the 100 newest. *)
Theorem history_sees_only_first_hundred :
  forall newest older fetchNow now coin coins windowMs,
    (100 <= List.length newest)%nat ->
    getRecentProposals (Index (newest ++ older)) fetchNow windowMs
    = getRecentProposals (Index newest) fetchNow windowMs
    /\ wasRecentlyProposed (Index (newest ++ older)) fetchNow coin windowMs
       = wasRecentlyProposed (Index newest) fetchNow coin windowMs
    /\ filterRecentlyProposedCoins (Index (newest ++ older)) fetchNow now coins
         windowMs
       = filterRecentlyProposedCoins (Index newest) fetchNow now coins windowMs
    /\ Forall (fun e =>
                 exists p,
                   In p (firstn 100 newest)
                   /\ proposalId e = sp_proposalId p
                   /\ sp_timeCreated p = Some (submittedAt e / 1000))
              (getRecentProposals (Index (newest ++ older)) fetchNow windowMs).
Proof.
  intros newest older fetchNow now coin coins windowMs H.
  assert (E : getRecentProposals (Index (newest ++ older)) fetchNow windowMs
              = getRecentProposals (Index newest) fetchNow windowMs).
  { unfold getRecentProposals, fetchProposals.
    now rewrite (first_hundred_only newest older H). }
  unfold wasRecentlyProposed, filterRecentlyProposedCoins.
  rewrite E. repeat split. apply getRecentProposals_sources.
Qed.

(** C10, witness: a purchase made two hours ago, inside the 24 hour window,
    goes unnoticed once 100 newer proposals exist; without them it is
    found. *)
Lemma history_sees_only_first_hundred_witness :
  (100 <= List.length busy_day)%nat
  /\ wasRecentlyProposed (Index (busy_day ++ two_hours_ago)) noon coin_jesse
       DUPLICATE_PREVENTION_WINDOW_MS = None
  /\ option_map proposalId
       (wasRecentlyProposed (Index two_hours_ago) noon coin_jesse
          DUPLICATE_PREVENTION_WINDOW_MS) = Some "0xbuy".
Proof.
  assert (H : (100 <= List.length busy_day)%nat) by (vm_compute; lia).
  split; [exact H|]. split; [|vm_compute; reflexivity].
  rewrite (proj1 (proj2 (history_sees_only_first_hundred busy_day two_hours_ago
                           noon noon coin_jesse [] DUPLICATE_PREVENTION_WINDOW_MS
                           H))).
  vm_compute. reflexivity.
Defined.

End HistoryFacts.

(** ** The allocation calculator *)

Section AllocationFacts.

Import Float64.
Import CalculateAllocation.
Import Scenarios.

Lemma Qle_bool_false a b : Qle_bool a b = false -> (b <= a)%Q.
Proof.
  intros H. destruct (Qlt_le_dec b a) as [Hlt|Hle].
  - now apply Qlt_le_weak.
  - apply Qle_bool_iff in Hle. congruence.
Qed.

Lemma round_not_NaN q : round q <> NaN.
Proof.
  unfold round, round_magnitude, of_parts.
  destruct (Qnum q); try discriminate;
    destruct (2 ^ 1024 <=? _); discriminate.
Qed.

Lemma minAllocation_value : minAllocation = Finite lowest.
Proof. vm_compute. reflexivity. Qed.

Lemma maxAllocation_value : maxAllocation = Finite highest.
Proof. vm_compute. reflexivity. Qed.

(** [Number(allocationWei) / 1e18] is a number. *)
Lemma allocationEth_cases wei :
  (exists s, div (fromZ wei) ether = Infinity s)
  \/ exists a, div (fromZ wei) ether = Finite a.
Proof.
  unfold fromZ. pose proof (round_not_NaN (inject_Z wei)) as Hn.
  destruct (round (inject_Z wei)) as [|s|a]; [congruence| |].
  - left. eexists. reflexivity.
  - unfold div, ether. change (is_zero (inject_Z (10 ^ 18))) with false. cbv iota.
    pose proof (round_not_NaN (a / inject_Z (10 ^ 18))) as Hn'.
    destruct (round _) as [|s|b]; [congruence| |].
    + left. now exists s.
    + right. now exists b.
Qed.

(** The clamp of the source stays within the bounds, whatever number it is
    given, and does not go below a lower bound of that number. *)
Lemma clamp_within_bounds x :
  x <> NaN ->
  exists v,
    Math_max minAllocation (Math_min maxAllocation x) = Finite v
    /\ (lowest <= v)%Q /\ (v <= highest)%Q
    /\ forall lo,
        (lo <= highest)%Q ->
        match x with
        | Finite a => (lo <= a)%Q
        | Infinity s => s = false
        | NaN => False
        end ->
        (lo <= v)%Q.
Proof.
  intros Hx. rewrite minAllocation_value, maxAllocation_value.
  assert (Hlh : (lowest <= highest)%Q) by (unfold Qle; simpl; lia).
  destruct x as [|s|a]; [congruence| |].
  - destruct s.
    + exists lowest. split; [reflexivity|]. split; [apply Qle_refl|].
      split; [exact Hlh|]. intros lo _ H. discriminate.
    + exists highest. split; [reflexivity|]. split; [exact Hlh|].
      split; [apply Qle_refl|]. intros lo H _. exact H.
  - unfold Math_min, ltb.
    destruct (Qle_bool highest a) eqn:Ea; cbn [negb].
    + exists highest. split; [reflexivity|]. split; [exact Hlh|].
      split; [apply Qle_refl|]. intros lo H _. exact H.
    + apply Qle_bool_false in Ea. unfold Math_max, ltb.
      destruct (Qle_bool a lowest) eqn:El; cbn [negb].
      * exists lowest. split; [reflexivity|]. split; [apply Qle_refl|].
        split; [exact Hlh|]. intros lo _ H.
        apply Qle_bool_iff in El. eapply Qle_trans; eassumption.
      * apply Qle_bool_false in El. exists a. split; [reflexivity|].
        split; [exact El|]. split; [exact Ea|]. intros lo _ H. exact H.
Qed.

(** Printing a number between [lo] and [hi] with four decimals gives the
    ten-thousandths between those of [lo] and [hi], up to the rounding of
    the number itself. *)
Lemma toFixed_four lo hi v :
  (1 # 10000 <= lo)%Q -> (hi <= 1 # 2)%Q -> (lo <= v)%Q -> (v <= hi)%Q ->
  exists n,
    toFixed 4 (Finite v) = print_scaled 4 n
    /\ Qfloor ((lo - (1 # 9007199254740992)) * inject_Z 10000 + (1 # 2)) <= n
    /\ n <= Qfloor ((hi + (1 # 9007199254740992)) * inject_Z 10000 + (1 # 2)).
Proof.
  intros Hlo Hhi Hv1 Hv2.
  assert (H0 : (0 < v)%Q).
  { eapply Qlt_le_trans; [|exact Hv1]. eapply Qlt_le_trans; [|exact Hlo].
    reflexivity. }
  assert (H1 : (v < 1)%Q).
  { eapply Qle_lt_trans; [exact Hv2|]. eapply Qle_lt_trans; [exact Hhi|].
    reflexivity. }
  destruct (round_small v H0 H1) as [v' [Hr [Hl Hh]]].
  unfold toFixed, norm. rewrite Hr.
  assert (Hp : Qle_bool 0 v' = true).
  { apply Qle_bool_iff. eapply Qle_trans; [|exact Hl].
    apply Qle_trans with (lo - (1 # 9007199254740992))%Q.
    - apply Qle_trans with ((1 # 10000) - (1 # 9007199254740992))%Q;
        [unfold Qle; simpl; lia|].
      apply Qplus_le_l. exact Hlo.
    - apply Qplus_le_l. exact Hv1. }
  rewrite Hp. unfold toFixed_abs. eexists. split; [reflexivity|].
  change (10 ^ Z.of_nat 4) with 10000. split.
  - apply Qfloor_resp_le. apply Qplus_le_l.
    apply Qmult_le_compat_r; [|discriminate].
    eapply Qle_trans; [|exact Hl]. apply Qplus_le_l. exact Hv1.
  - apply Qfloor_resp_le. apply Qplus_le_l.
    apply Qmult_le_compat_r; [|discriminate].
    eapply Qle_trans; [exact Hh|]. apply Qplus_le_l. exact Hv2.
Qed.

(** What the clamp delivers prints as 1 to 1000 ten-thousandths. *)
Lemma clamped_print x :
  x <> NaN ->
  exists n,
    1 <= n <= 1000
    /\ toFixed 4 (Math_max minAllocation (Math_min maxAllocation x))
       = print_scaled 4 n.
Proof.
  intros Hx. destruct (clamp_within_bounds x Hx) as [v [-> [Hlo [Hhi _]]]].
  destruct (toFixed_four lowest highest v) as [n [-> [H1 H2]]];
    try assumption; try (unfold Qle; simpl; lia).
  exists n. split; [|reflexivity]. split.
  - eapply Z.le_trans; [|exact H1]. vm_compute. discriminate.
  - eapply Z.le_trans; [exact H2|]. vm_compute. discriminate.
Qed.

(** The paths of [calculateProposalAllocation]: the default amount when the
    treasury address is missing, the balance read throws or [BigInt] throws,
    and otherwise a four-decimal print of 1 to 1000 ten-thousandths. *)
Lemma allocation_paths w allocationPercent :
  (calculateProposalAllocation w allocationPercent = DEFAULT_ALLOCATION
   /\ (truthy_opt (DAO_TREASURY_ADDRESS w) = false
       \/ (exists m, getTreasuryBalance w = Throw m)
       \/ BigInt (mul (norm allocationPercent) (Finite 100)) = None))
  \/ exists n,
      1 <= n <= 1000
      /\ calculateProposalAllocation w allocationPercent = print_scaled 4 n
      /\ truthy_opt (DAO_TREASURY_ADDRESS w) = true
      /\ (exists B, getTreasuryBalance w = Ok B)
      /\ exists pct, BigInt (mul (norm allocationPercent) (Finite 100)) = Some pct.
Proof.
  unfold calculateProposalAllocation.
  destruct (truthy_opt (DAO_TREASURY_ADDRESS w)); [|left; auto].
  destruct (getTreasuryBalance w) as [B|m]; [|left; split; [reflexivity|]; eauto].
  destruct (BigInt (mul (norm allocationPercent) (Finite 100))) as [k|];
    [|left; auto].
  right.
  destruct (clamped_print
              (div (fromZ (Z.quot ((B - getTotalActiveProposalValue
                                          (proposalsFetch w)) * k) 10000))
                   ether)) as [n [Hn E]].
  { destruct (allocationEth_cases
                (Z.quot ((B - getTotalActiveProposalValue (proposalsFetch w)) * k)
                        10000)) as [[s ->]|[a ->]]; discriminate. }
  exists n. split; [exact Hn|]. split; [exact E|]. eauto.
Qed.

Lemma all_amounts_read_back :
  forallb reads_within_bounds (map Z.of_nat (seq 1 1000)) = true.
Proof. vm_compute. reflexivity. Qed.

Lemma reads_within_bounds_range n :
  1 <= n <= 1000 -> reads_within_bounds n = true.
Proof.
  intros H. pose proof all_amounts_read_back as Hall.
  rewrite forallb_forall in Hall. apply Hall.
  apply in_map_iff. exists (Z.to_nat n). split; [lia|].
  apply in_seq. lia.
Qed.

(** C6: whatever the balance, the active-proposal total and the percentage,
    and on every fallback path (no treasury address, a failing balance read,
    a percentage that [BigInt] refuses), the amount returned by
    [calculateProposalAllocation] reads as a number between 0.0001 and 0.1. *)
Theorem allocation_within_safety_bounds :
  forall w allocationPercent,
    exists q,
      readDecimal (calculateProposalAllocation w allocationPercent) = Some q
      /\ (1 # 10000 <= q)%Q /\ (q <= 1 # 10)%Q.
Proof.
  intros w pct.
  destruct (allocation_paths w pct) as [[-> _]|[n [Hn [-> _]]]].
  - eexists. split; [vm_compute; reflexivity|].
    split; unfold Qle; simpl; lia.
  - pose proof (reads_within_bounds_range n Hn) as Hr.
    unfold reads_within_bounds in Hr.
    destruct (readDecimal _) as [q|]; [|discriminate].
    apply andb_prop in Hr. destruct Hr as [H1 H2].
    exists q. split; [reflexivity|]. split; now apply Qle_bool_iff.
Qed.

Lemma quot_nonpos a b : a <= 0 -> 0 < b -> Z.quot a b <= 0.
Proof.
  intros Ha Hb.
  assert (H : 0 <= Z.quot (- a) b) by (apply Z.quot_pos; lia).
  rewrite Z.quot_opp_l in H by lia. lia.
Qed.

(** An allocation that is zero or negative in wei is clamped to the lower
    bound. *)
Lemma nonpos_wei_clamps_to_minimum wei :
  wei <= 0 ->
  Math_max minAllocation (Math_min maxAllocation (div (fromZ wei) ether))
  = minAllocation.
Proof.
  intros H.
  assert (Hx : div (fromZ wei) ether = Infinity true
               \/ exists a, div (fromZ wei) ether = Finite a /\ (a <= 0)%Q).
  { unfold fromZ.
    destruct (round_nonpos (inject_Z wei)) as [->|[a [-> Ha]]].
    - unfold Qle. simpl. lia.
    - now left.
    - unfold div, ether. change (is_zero (inject_Z (10 ^ 18))) with false.
      cbv iota.
      destruct (round_nonpos (a / inject_Z (10 ^ 18))) as [->|[b [-> Hb]]].
      + apply Qle_shift_div_r; [reflexivity|]. now rewrite Qmult_0_l.
      + now left.
      + right. now exists b. }
  rewrite minAllocation_value, maxAllocation_value.
  destruct Hx as [->|[a [-> Ha]]]; [reflexivity|].
  unfold Math_min, ltb.
  assert (E1 : Qle_bool highest a = false).
  { destruct (Qle_bool highest a) eqn:E; [|reflexivity].
    apply Qle_bool_iff in E. exfalso.
    assert (Hh : (highest <= 0)%Q) by (eapply Qle_trans; eassumption).
    revert Hh. unfold Qle. simpl. lia. }
  rewrite E1. cbn [negb]. unfold Math_max, ltb.
  assert (E2 : Qle_bool a lowest = true).
  { apply Qle_bool_iff. eapply Qle_trans; [exact Ha|]. unfold Qle. simpl. lia. }
  now rewrite E2.
Qed.

Lemma default_is_no_print :
  forallb (fun n => negb (String.eqb (print_scaled 4 n) DEFAULT_ALLOCATION))
          (map Z.of_nat (seq 1 1000)) = true.
Proof. vm_compute. reflexivity. Qed.

Lemma print_is_not_default n :
  1 <= n <= 1000 -> print_scaled 4 n <> DEFAULT_ALLOCATION.
Proof.
  intros H E. pose proof default_is_no_print as Hall.
  rewrite forallb_forall in Hall.
  assert (Hin : In n (map Z.of_nat (seq 1 1000))).
  { apply in_map_iff. exists (Z.to_nat n). split; [lia|]. apply in_seq. lia. }
  apply Hall in Hin. rewrite E, String.eqb_refl in Hin. discriminate.
Qed.

(** C2 (as the code has it): when the balance minus the active-proposal total
    is negative, and the percentage times 100, computed in binary64, is a
    non-negative integer (the callers pass 1), [calculateProposalAllocation]
    returns the minimum allocation ["0.0001"]: the clamp absorbs the negative
    value.  The default amount is returned exactly when the treasury address
    is missing, the balance read throws, or [BigInt] throws because the
    product is no integer. *)
Theorem negative_available_gives_minimum :
  forall w allocationPercent,
    (forall treasuryBalance pct,
        truthy_opt (DAO_TREASURY_ADDRESS w) = true ->
        getTreasuryBalance w = Ok treasuryBalance ->
        treasuryBalance - getTotalActiveProposalValue (proposalsFetch w) < 0 ->
        BigInt (mul (norm allocationPercent) (Finite 100)) = Some pct ->
        0 <= pct ->
        calculateProposalAllocation w allocationPercent = "0.0001")
    /\ (calculateProposalAllocation w allocationPercent = DEFAULT_ALLOCATION
        <-> truthy_opt (DAO_TREASURY_ADDRESS w) = false
            \/ (exists m, getTreasuryBalance w = Throw m)
            \/ BigInt (mul (norm allocationPercent) (Finite 100)) = None).
Proof.
  intros w ap. split.
  - intros B k Haddr Hbal Hneg Hk Hk0. unfold calculateProposalAllocation.
    rewrite Haddr, Hbal, Hk. cbv beta zeta.
    rewrite nonpos_wei_clamps_to_minimum; [vm_compute; reflexivity|].
    apply quot_nonpos; nia.
  - destruct (allocation_paths w ap) as [[E H]|[n [Hn [E [Ha [[B Hb] [k Hk]]]]]]].
    + split; [intros _; exact H|intros _; exact E].
    + split.
      * intros Ed. rewrite E in Ed. now apply print_is_not_default in Ed.
      * intros [H|[[m H]|H]]; congruence.
Qed.

(** C2, witness: 0.5 ETH in the treasury, 1 ETH committed, 1 percent. *)
Lemma negative_available_gives_minimum_witness :
  500000000000000000 - getTotalActiveProposalValue (proposalsFetch overdrawn) < 0
  /\ BigInt (mul (norm (Finite 1)) (Finite 100)) = Some 100
  /\ calculateProposalAllocation overdrawn (Finite 1) = "0.0001".
Proof.
  split; [reflexivity|]. split; [reflexivity|].
  apply (proj1 (negative_available_gives_minimum overdrawn (Finite 1))
           500000000000000000 100);
    try reflexivity; lia.
Defined.

(** C2, counterexample: with 0.5 ETH in the treasury and 1 ETH committed the
    available value is negative, and the function returns ["0.0001"], not the
    default ["0.01"]. *)
Lemma negative_available_not_default :
  getTreasuryBalance overdrawn = Ok 500000000000000000
  /\ getTotalActiveProposalValue (proposalsFetch overdrawn) = 1000000000000000000
  /\ calculateProposalAllocation overdrawn (Finite 1) = "0.0001"
  /\ calculateProposalAllocation overdrawn (Finite 1) <> DEFAULT_ALLOCATION.
Proof. vm_compute. repeat split. discriminate. Qed.

End AllocationFacts.

(** ** The analysis gate *)

Section GateFacts.

Import AnalyzeCreator.
Import Scenarios.

Local Open Scope run_scope.

Lemma closed_silent : closed (Forall silent).
Proof. split; [constructor|]. intros a b Ha Hb. apply Forall_app. now split. Qed.

Lemma closed_any : closed (fun _ => True).
Proof. split; auto. Qed.

Lemma appends_still {A} (P : list Call -> Prop) (m : M A) :
  closed P -> (forall st, trace (snd (m st)) = trace st) -> appends P m.
Proof.
  intros [H0 _] H st. exists []. rewrite app_nil_r. split; [apply H|exact H0].
Qed.

Lemma appends_ret {A} P (a : A) : closed P -> appends P (ret a).
Proof. intros H. now apply appends_still. Qed.

Lemma appends_throw {A} P e : closed P -> appends P (@throw A e).
Proof. intros H. now apply appends_still. Qed.

Lemma appends_lift {A} P (r : Result A) : closed P -> appends P (lift r).
Proof. intros H. now apply appends_still. Qed.

Lemma appends_ticks P : closed P -> appends P ticks.
Proof. intros H. now apply appends_still. Qed.

Lemma appends_readQueue P : closed P -> appends P readQueue.
Proof. intros H. now apply appends_still. Qed.

Lemma appends_writeQueue P f : closed P -> appends P (writeQueue f).
Proof. intros H. now apply appends_still. Qed.

Lemma appends_call P c : P [c] -> appends P (call c).
Proof. intros H st. exists [c]. now split. Qed.

Lemma appends_bind {A B} P (m : M A) (k : A -> M B) :
  closed P -> appends P m -> (forall a, appends P (k a)) -> appends P (bind m k).
Proof.
  intros [_ Happ] Hm Hk st. unfold bind.
  destruct (Hm st) as [n1 [E1 P1]].
  destruct (m st) as [[a|e] st1]; simpl in E1.
  - destruct (Hk a st1) as [n2 [E2 P2]]. exists (n1 ++ n2)%list.
    rewrite E2, E1, app_assoc. split; [reflexivity|now apply Happ].
  - exists n1. now split.
Qed.

Lemma appends_try_catch {A} P (m : M A) (h : string -> M A) :
  closed P -> appends P m -> (forall e, appends P (h e)) ->
  appends P (try_catch m h).
Proof.
  intros [_ Happ] Hm Hh st. unfold try_catch.
  destruct (Hm st) as [n1 [E1 P1]].
  destruct (m st) as [[a|e] st1]; simpl in E1.
  - exists n1. now split.
  - destruct (Hh e st1) as [n2 [E2 P2]]. exists (n1 ++ n2)%list.
    rewrite E2, E1, app_assoc. split; [reflexivity|now apply Happ].
Qed.

Lemma appends_validateEnvironment P w : closed P -> appends P (validateEnvironment w).
Proof.
  intros H. unfold validateEnvironment.
  destruct (DAO_TREASURY_ADDRESS w) as [d|]; [|now apply appends_throw].
  destruct (truthy d); [|now apply appends_throw].
  destruct (OPENAI_API_KEY w) as [k|]; [|now apply appends_throw].
  destruct (truthy k); [now apply appends_ret|now apply appends_throw].
Qed.

Lemma appends_initializeZoraSDK P w : closed P -> appends P (initializeZoraSDK w).
Proof.
  intros H. unfold initializeZoraSDK.
  destruct (truthy_opt (ZORA_API_KEY w));
    [now apply appends_ret|now apply appends_throw].
Qed.

(** Step 1 never reaches the scoring capability. *)
Lemma resolveCoin_silent w user : appends (Forall silent) (resolveCoin w user).
Proof.
  pose proof closed_silent as C. unfold resolveCoin.
  apply appends_bind; [exact C|now apply appends_validateEnvironment|intros _].
  apply appends_bind; [exact C|now apply appends_initializeZoraSDK|intros _].
  apply appends_bind; [exact C| |intros profile].
  - unfold resolveCreatorProfile. destruct (startsWith user "0x").
    + now apply appends_ret.
    + apply appends_bind; [exact C| |intros n; now apply appends_lift].
      apply appends_call. repeat constructor.
  - apply appends_bind; [exact C| |intros coin; now apply appends_ret].
    unfold getCoinInfo.
    apply appends_bind; [exact C| |intros n; now apply appends_lift].
    apply appends_call. repeat constructor.
Qed.

Lemma keeps_still {A} (m : M A) :
  (forall st, queue (snd (m st)) = queue st) -> keeps_queue m.
Proof. intros H. exact H. Qed.

Lemma keeps_bind {A B} (m : M A) (k : A -> M B) :
  keeps_queue m -> (forall a, keeps_queue (k a)) -> keeps_queue (bind m k).
Proof.
  intros Hm Hk st. unfold bind. specialize (Hm st).
  destruct (m st) as [[a|e] st1]; simpl in Hm.
  - now rewrite Hk.
  - exact Hm.
Qed.

Lemma keeps_validateEnvironment w : keeps_queue (validateEnvironment w).
Proof.
  intros st. unfold validateEnvironment.
  destruct (DAO_TREASURY_ADDRESS w) as [d|]; [|reflexivity].
  destruct (truthy d); [|reflexivity].
  destruct (OPENAI_API_KEY w) as [k|]; [|reflexivity].
  destruct (truthy k); reflexivity.
Qed.

Lemma keeps_initializeZoraSDK w : keeps_queue (initializeZoraSDK w).
Proof.
  intros st. unfold initializeZoraSDK.
  destruct (truthy_opt (ZORA_API_KEY w)); reflexivity.
Qed.

Lemma keeps_external {A} c (f : nat -> Result A) :
  keeps_queue (bind (call c) (fun n => lift (f n))).
Proof. intros st. reflexivity. Qed.

(** Step 1 does not touch the queue. *)
Lemma resolveCoin_keeps_queue w user : keeps_queue (resolveCoin w user).
Proof.
  unfold resolveCoin.
  apply keeps_bind; [apply keeps_validateEnvironment|intros _].
  apply keeps_bind; [apply keeps_initializeZoraSDK|intros _].
  apply keeps_bind; [|intros profile].
  - unfold resolveCreatorProfile. destruct (startsWith user "0x").
    + intros st. reflexivity.
    + apply keeps_external.
  - apply keeps_bind; [apply keeps_external|intros coin st; reflexivity].
Qed.

(** The history check is one call and leaves the queue alone. *)
Lemma wasRecentlyProposed_step w coin st :
  wasRecentlyProposed w coin st
  = (Ok (ProposalHistory.wasRecentlyProposed
           (subgraph w (List.length (trace st)))
           (dateNow w (List.length (trace st))) coin
           ProposalHistory.DUPLICATE_PREVENTION_WINDOW_MS),
     {| trace := trace st ++ [HistoryQuery coin]; queue := queue st |}).
Proof. reflexivity. Qed.

Lemma analyzeCreatorCoinByUsername_appends w user :
  appends (fun _ => True) (analyzeCreatorCoinByUsername w user).
Proof.
  pose proof closed_any as C. unfold analyzeCreatorCoinByUsername.
  destruct (negb (truthy user) || String.eqb (trim user) EmptyString)%bool;
    [now apply appends_throw|].
  apply appends_bind; [exact C|now apply appends_validateEnvironment|intros env].
  apply appends_bind; [exact C|now apply appends_initializeZoraSDK|intros _].
  intros st. destruct (try_catch _ _ st) as [r st'] eqn:E. simpl.
  unfold try_catch in E.
  match type of E with
  | (match ?m st with _ => _ end) = _ =>
      assert (Hm : appends (fun _ => True) m)
  end.
  { apply appends_bind; [exact C| |intros profile].
    { unfold resolveCreatorProfile. destruct (startsWith user "0x").
      - now apply appends_ret.
      - apply appends_bind; [exact C| |intros n; now apply appends_lift].
        now apply appends_call. }
    apply appends_bind; [exact C| |intros coin].
    { unfold getCoinInfo.
      apply appends_bind; [exact C| |intros n; now apply appends_lift].
      now apply appends_call. }
    apply appends_bind; [exact C| |intros held].
    { unfold checkDaoHoldings.
      apply appends_bind; [exact C|now apply appends_call|intros n].
      apply appends_bind; [exact C|now apply appends_lift|intros holdings].
      destruct (find _ holdings); now apply appends_ret. }
    apply appends_bind; [exact C| |intros ai; now apply appends_ret].
    unfold getAIAnalysis.
    apply appends_bind; [exact C|now apply appends_call|intros n].
    destruct (chatCompletion w n _);
      first [now apply appends_ret | now apply appends_throw]. }
  destruct (Hm st) as [n1 [E1 _]].
  match type of E with
  | (match ?m st with _ => _ end) = _ => destruct (m st) as [[a|e] st1]
  end; simpl in E1.
  - injection E as _ <-. now exists n1.
  - unfold throw in E. injection E as _ <-. now exists n1.
Qed.

Lemma scoreAndQueue_appends w user options profile :
  appends (fun _ => True) (scoreAndQueue w user options profile).
Proof.
  pose proof closed_any as C. unfold scoreAndQueue.
  apply appends_bind;
    [exact C|apply analyzeCreatorCoinByUsername_appends|intros a].
  destruct (negb (Qle_bool _ (confidenceScore a))); [now apply appends_ret|].
  apply appends_bind; [exact C|now apply appends_ticks|intros n].
  apply appends_bind; [exact C|now apply appends_readQueue|intros file].
  destruct (SuggestionsQueue.isCoinInQueue _ _ file); [now apply appends_ret|].
  apply appends_bind; [exact C|now apply appends_writeQueue|intros _].
  now apply appends_ret.
Qed.

(** In a trace that is silent up to a history query, a scoring call can only
    come after that query. *)
Lemma query_precedes_scoring n1 h n3 pre c post :
  Forall silent n1 -> silent h ->
  (n1 ++ h :: n3 = pre ++ AIScoring c :: post)%list -> In h pre.
Proof.
  revert pre. induction n1 as [|a n1 IH]; intros [|x pre] Hs Hh E; simpl in E.
  - injection E as -> _. destruct Hh.
  - injection E as -> _. now left.
  - injection E as -> _. inversion Hs as [|? ? Ha _]. destruct Ha.
  - injection E as _ E. right. inversion Hs. now apply (IH pre).
Qed.

(** C9: when the history check of [analyzeAndPropose] finds an entry for the
    resolved coin, the run returns confidence 0, [proposalSubmitted] false,
    a reason that reports the earlier proposal (its age in hours) together
    with the entry itself, makes no call to the scoring capability and leaves
    the queue file as it was.  And in every run, whatever its outcome, a call
    to the scoring capability comes after the history query of that run. *)
Theorem duplicate_check_precedes_scoring :
  forall w user options st,
    (forall profile coin st1 entry,
        resolveCoin w user st = (Ok (profile, coin), st1) ->
        ProposalHistory.wasRecentlyProposed
          (subgraph w (List.length (trace st1)))
          (dateNow w (List.length (trace st1))) (ci_address coin)
          ProposalHistory.DUPLICATE_PREVENTION_WINDOW_MS = Some entry ->
        exists r st' now,
          analyzeAndPropose w user options st = (Ok r, st')
          /\ confidenceScore (analysis r) = 0%Q
          /\ proposalSubmitted r = SubmittedFalse
          /\ recentProposal r = Some entry
          /\ reason (analysis r)
             = "Proposal already submitted "
               ++ toFixed 1 (ProposalHistory.hoursSince now
                               (ProposalHistory.submittedAt entry))
               ++ "h ago. Duplicate prevention active."
          /\ queue st' = queue st
          /\ (forall c, In (AIScoring c) (trace st') -> In (AIScoring c) (trace st)))
    /\ (forall pre c post,
          trace (snd (analyzeAndPropose w user options st))
          = (trace st ++ pre ++ AIScoring c :: post)%list ->
          exists coin, In (HistoryQuery coin) pre).
Proof.
  intros w user options st. split.
  - intros profile coin st1 entry H1 H2.
    pose proof (resolveCoin_keeps_queue w user st) as Hq.
    destruct (resolveCoin_silent w user st) as [n1 [Ht Hs]].
    rewrite H1 in Hq, Ht. simpl in Hq, Ht.
    eexists. eexists. eexists.
    split.
    { unfold analyzeAndPropose, bind at 1. rewrite H1.
      unfold bind at 1. rewrite wasRecentlyProposed_step. simpl.
      rewrite H2. unfold bind, ticks, ret. simpl. reflexivity. }
    simpl. repeat split; try assumption.
    intros c Hin. rewrite Ht in Hin.
    apply in_app_or in Hin. destruct Hin as [Hin|[Hin|[]]]; [|discriminate].
    apply in_app_or in Hin. destruct Hin as [Hin|Hin]; [exact Hin|].
    rewrite Forall_forall in Hs. destruct (Hs _ Hin).
  - intros pre c post E.
    destruct (resolveCoin_silent w user st) as [n1 [Ht Hs]].
    unfold analyzeAndPropose, bind at 1 in E.
    destruct (resolveCoin w user st) as [[[profile coin]|e] st1]; simpl in Ht, E.
    + exists (ci_address coin).
      unfold bind at 1 in E. rewrite wasRecentlyProposed_step in E.
      match type of E with
      | trace (snd (?k ?s2)) = _ =>
          assert (Hk : exists n3, trace (snd (k s2)) = (trace s2 ++ n3)%list)
      end.
      { destruct (ProposalHistory.wasRecentlyProposed _ _ _ _) as [entry|].
        - exists []. unfold bind, ticks, ret. simpl. now rewrite app_nil_r.
        - destruct (scoreAndQueue_appends w user options profile
                      {| trace := trace st1 ++ [HistoryQuery (ci_address coin)];
                         queue := queue st1 |}) as [n3 [E3 _]].
          now exists n3. }
      destruct Hk as [n3 Hk]. rewrite Hk in E. simpl in E.
      rewrite Ht, <- !app_assoc in E. apply app_inv_head in E. simpl in E.
      apply (query_precedes_scoring n1 (HistoryQuery (ci_address coin)) n3 pre c
               post Hs I E).
    + rewrite Ht in E. apply app_inv_head in E. exfalso.
      rewrite E in Hs. apply Forall_app in Hs. destruct Hs as [_ Hs].
      inversion Hs as [|? ? Ha _]. destruct Ha.
Qed.

(** C9, witness: the coin bought two hours ago is submitted again. *)
Lemma duplicate_check_precedes_scoring_witness :
  fst (resolveCoin dup_world coin_jesse fresh_run)
  = Ok ({| address := coin_jesse; displayName := coin_jesse; pfpUrl := None |},
        coin_info_jesse)
  /\ exists r st',
      analyzeAndPropose dup_world coin_jesse no_options fresh_run = (Ok r, st')
      /\ confidenceScore (analysis r) = 0%Q
      /\ reason (analysis r)
         = "Proposal already submitted 2.0h ago. Duplicate prevention active."
      /\ queue st' = one_pending
      /\ trace st'
         = [ZoraCoin coin_jesse;
            HistoryQuery "0x50f88fe97f72cd3e75b9eb4f747f59bceba80d59"].
Proof.
  split; [reflexivity|].
  destruct (proj1 (duplicate_check_precedes_scoring dup_world coin_jesse
                     no_options fresh_run) _ _ _ _ eq_refl eq_refl)
    as [r [st' [now [E _]]]].
  exists r, st'. split; [exact E|].
  vm_compute in E. injection E as <- <-. repeat split.
Defined.

End GateFacts.

(** ** More on the suggestion store *)

Section QueueOperations.

Import SuggestionsQueue.

Lemma filter_all {A} (p : A -> bool) (l : list A) :
  (forall x, In x l -> p x = true) -> filter p l = l.
Proof.
  induction l as [|a r IH]; simpl; intros H; [reflexivity|].
  rewrite (H a) by now left. f_equal. apply IH. intros x Hx. apply H. now right.
Qed.

Lemma filter_shorter_exists {A} (p : A -> bool) (l : list A) :
  (List.length (filter p l) < List.length l)%nat ->
  exists x, In x l /\ p x = false.
Proof.
  induction l as [|a r IH]; simpl; [lia|].
  destruct (p a) eqn:E; simpl; intros H.
  - destruct IH as [x [Hin Hp]]; [lia|]. exists x. auto.
  - exists a. auto.
Qed.

(** What a deletion answers and leaves. *)
Lemma deleteSuggestion_outcome now now' i file :
  (fst (deleteSuggestion now i file) = true
   <-> exists s, In s (getAllSuggestions now file) /\ id s = i)
  /\ getAllSuggestions now' (snd (deleteSuggestion now i file))
     = filter (fun s => negb (has_id i s)) (getAllSuggestions now' file)
  /\ (fst (deleteSuggestion now i file) = false
      <-> snd (deleteSuggestion now i file) = file
          /\ forall s, In s (getAllSuggestions now file) -> id s <> i).
Proof.
  unfold deleteSuggestion, getAllSuggestions.
  assert (Hl : suggestions (loadQueue now' file) = suggestions (loadQueue now file))
    by (destruct file; reflexivity).
  rewrite Hl. set (l := suggestions (loadQueue now file)).
  destruct (Nat.ltb_spec
              (List.length (filter (fun s => negb (has_id i s)) l))
              (List.length l)) as [Hlt|Hge]; simpl.
  - apply filter_shorter_exists in Hlt. destruct Hlt as [x [Hin Hx]].
    apply negb_false_iff, has_id_true in Hx.
    split; [|split]; [split; eauto| reflexivity |].
    split; [discriminate|]. intros [_ H]. exfalso. now apply (H x).
  - pose proof (filter_full_length _ _ Hge) as Hall.
    assert (Hno : forall s, In s l -> id s <> i).
    { intros s Hin Hid. apply Hall in Hin. apply has_id_true in Hid.
      rewrite Hid in Hin. discriminate. }
    split; [|split].
    + split; [discriminate|]. intros [s [Hin Hid]]. exfalso. now apply (Hno s).
    + fold l. rewrite Hl. fold l. symmetry. now apply filter_all.
    + split; auto.
Qed.

(** X1: [deleteSuggestion] answers [true] exactly when some record carried
    the id; the records it leaves are the others, in their order; and when
    it answers [false] the file is not written. *)
Theorem deleteSuggestion_exact :
  forall now now' i file,
    (fst (deleteSuggestion now i file) = true
     <-> exists s, In s (getAllSuggestions now file) /\ id s = i)
    /\ getAllSuggestions now' (snd (deleteSuggestion now i file))
       = filter (fun s => negb (has_id i s)) (getAllSuggestions now' file)
    /\ (fst (deleteSuggestion now i file) = false
        <-> snd (deleteSuggestion now i file) = file
            /\ forall s, In s (getAllSuggestions now file) -> id s <> i).
Proof.
  intros now now' i file. apply deleteSuggestion_outcome.
Qed.

(** X2: deleting the same id again answers [false] and leaves the file as
    the first deletion left it. *)
Theorem deleteSuggestion_twice :
  forall now later i file,
    deleteSuggestion later i (snd (deleteSuggestion now i file))
    = (false, snd (deleteSuggestion now i file)).
Proof.
  intros now later i file.
  destruct (deleteSuggestion_outcome later later i
              (snd (deleteSuggestion now i file))) as [_ [_ H]].
  destruct (deleteSuggestion later i (snd (deleteSuggestion now i file)))
    as [b f] eqn:E. simpl in H.
  assert (Hb : b = false).
  { destruct b; [|reflexivity]. exfalso.
    destruct (deleteSuggestion_outcome later later i
                (snd (deleteSuggestion now i file))) as [[H1 _] _].
    rewrite E in H1. destruct (H1 eq_refl) as [s [Hin Hid]].
    now apply (deleteSuggestion_removes now later i file s). }
  subst b. f_equal. now apply H.
Qed.

Lemma update_found_ids {A B} (p : A -> bool) (f : A -> A) (key : A -> B)
    (l : list A) :
  (forall x, key (f x) = key x) ->
  map key (update_found p f l) = map key l.
Proof.
  intros H. induction l as [|x r IH]; simpl; [reflexivity|].
  destruct (p x); simpl; [now rewrite H|now rewrite IH].
Qed.

Lemma update_found_others {A} (p : A -> bool) (f : A -> A) (l : list A) x :
  p x = false -> (forall y, p (f y) = p y) ->
  (In x (update_found p f l) <-> In x l).
Proof.
  intros Hx Hf. induction l as [|a r IH]; simpl; [tauto|].
  destruct (p a) eqn:E; simpl.
  - split; intros [H|H]; auto; exfalso; subst; [rewrite Hf in Hx|]; congruence.
  - rewrite IH. tauto.
Qed.

(** X3: [updateSuggestionStatus] never adds, drops, reorders or renames a
    record: the list of ids is the same before and after, and every record
    with another id is in the store after the call exactly when it was
    before. *)
Theorem updateSuggestionStatus_keeps_others :
  forall now now' i st md file,
    map id (getAllSuggestions now' (snd (updateSuggestionStatus now i st md file)))
    = map id (getAllSuggestions now' file)
    /\ forall s,
        id s <> i ->
        (In s (getAllSuggestions now'
                 (snd (updateSuggestionStatus now i st md file)))
         <-> In s (getAllSuggestions now' file)).
Proof.
  intros now now' i st md file.
  destruct (find (has_id i) (getAllSuggestions now file)) as [s0|] eqn:E.
  - destruct (updateSuggestionStatus_found now now' i st md file s0 E) as [Hu _].
    rewrite Hu. unfold getAllSuggestions. simpl.
    assert (Hl : suggestions (loadQueue now' file)
                 = suggestions (loadQueue now file))
      by (destruct file; reflexivity).
    rewrite Hl. split.
    + apply update_found_ids. intro x. apply applyUpdate_id.
    + intros s Hs. apply update_found_others.
      * destruct (has_id i s) eqn:Eh; [|reflexivity].
        apply has_id_true in Eh. contradiction.
      * intro y. apply applyUpdate_has_id.
  - rewrite (updateSuggestionStatus_missing _ _ _ _ _ E). simpl.
    split; [reflexivity|tauto].
Qed.

Lemma count_by_status (l : list QueuedSuggestion) :
  List.length l
  = (List.length (filter (has_status pending) l)
     + List.length (filter (has_status processing) l)
     + List.length (filter (has_status completed) l)
     + List.length (filter (has_status failed) l))%nat.
Proof.
  induction l as [|s r IH]; simpl; [reflexivity|].
  unfold has_status in *. destruct (status s); simpl; lia.
Qed.

(** X4: in [getQueueStats] the total is the sum of the four per-status
    counts, and the pending count is the length of [getPendingSuggestions]. *)
Theorem getQueueStats_adds_up :
  forall now file,
    stats_total (getQueueStats now file)
    = (stats_pending (getQueueStats now file)
       + stats_processing (getQueueStats now file)
       + stats_completed (getQueueStats now file)
       + stats_failed (getQueueStats now file))%nat
    /\ stats_pending (getQueueStats now file)
       = List.length (getPendingSuggestions now file).
Proof.
  intros now file. unfold getQueueStats. simpl. split.
  - apply count_by_status.
  - reflexivity.
Qed.

Lemma lower_char_idem c : lower_char (lower_char c) = lower_char c.
Proof. destruct c as [[] [] [] [] [] [] [] []]; reflexivity. Qed.

Lemma toLowerCase_idem s : toLowerCase (toLowerCase s) = toLowerCase s.
Proof.
  induction s as [|c r IH]; simpl; [reflexivity|].
  now rewrite lower_char_idem, IH.
Qed.

(** X5: [isCoinInQueue] answers [true] exactly when some pending record has
    the address as its coin, letter case aside; records that are processing,
    completed or failed do not count, and the case of the argument does not
    matter. *)
Theorem isCoinInQueue_pending_only :
  forall now coin file,
    (isCoinInQueue now coin file = true
     <-> exists s,
          In s (getAllSuggestions now file)
          /\ status s = pending
          /\ toLowerCase (coinId s) = toLowerCase coin)
    /\ isCoinInQueue now (toLowerCase coin) file = isCoinInQueue now coin file.
Proof.
  intros now coin file. unfold isCoinInQueue. split.
  - rewrite existsb_exists. unfold getPendingSuggestions, getAllSuggestions.
    split.
    + intros [s [Hin He]]. apply filter_In in Hin. destruct Hin as [Hin Hp].
      exists s. split; [exact Hin|]. split.
      * unfold is_pending in Hp. now destruct (status s).
      * now apply String.eqb_eq.
    + intros [s [Hin [Hp He]]]. exists s. split.
      * apply filter_In. split; [exact Hin|]. unfold is_pending. now rewrite Hp.
      * now apply String.eqb_eq.
  - now rewrite toLowerCase_idem.
Qed.

(** X6: after [addSuggestionToQueue] the returned record is pending, its
    coin is reported by [isCoinInQueue], one more record is pending, and the
    head of the queue is unchanged: [getNextSuggestion] still returns the
    record it returned before, and returns the new record only when nothing
    was pending. *)
Theorem addSuggestionToQueue_then_queued :
  forall dateNow rnd now later input file,
    status (fst (addSuggestionToQueue dateNow rnd now input file)) = pending
    /\ isCoinInQueue later (in_coinId input)
         (snd (addSuggestionToQueue dateNow rnd now input file)) = true
    /\ List.length (getPendingSuggestions later
                      (snd (addSuggestionToQueue dateNow rnd now input file)))
       = S (List.length (getPendingSuggestions now file))
    /\ getNextSuggestion later
         (snd (addSuggestionToQueue dateNow rnd now input file))
       = match getNextSuggestion now file with
         | Some first => Some first
         | None => Some (fst (addSuggestionToQueue dateNow rnd now input file))
         end.
Proof.
  intros dateNow rnd now later input file.
  unfold addSuggestionToQueue, isCoinInQueue, getNextSuggestion,
    getPendingSuggestions. simpl.
  rewrite filter_app. simpl.
  set (l := filter is_pending (suggestions (loadQueue now file))).
  split; [reflexivity|]. split; [|split].
  - rewrite existsb_app. simpl. rewrite String.eqb_refl.
    now rewrite orb_true_r.
  - rewrite length_app. simpl. lia.
  - destruct l; reflexivity.
Qed.

Lemma filter_subset_length {A} (p : A -> bool) (l : list A) :
  (List.length l - List.length (filter p l) = 0)%nat ->
  filter p l = l.
Proof.
  intros H. apply filter_all. apply filter_full_length. lia.
Qed.

(** X7: [cleanupOldSuggestions] returns how many records it dropped; it
    never drops a pending or processing record, nor a record without a
    [processedAt]; it adds nothing; and when it drops nothing the file is
    not written. *)
Theorem cleanupOldSuggestions_spares_open :
  forall dates clock now now' daysOld file,
    fst (cleanupOldSuggestions dates clock now daysOld file)
    = (List.length (getAllSuggestions now' file)
       - List.length (getAllSuggestions now'
                        (snd (cleanupOldSuggestions dates clock now daysOld file))))%nat
    /\ (forall s,
          In s (getAllSuggestions now' file) ->
          status s = pending \/ status s = processing
          \/ truthy_opt (processedAt s) = false ->
          In s (getAllSuggestions now'
                  (snd (cleanupOldSuggestions dates clock now daysOld file))))
    /\ (forall s,
          In s (getAllSuggestions now'
                  (snd (cleanupOldSuggestions dates clock now daysOld file))) ->
          In s (getAllSuggestions now' file))
    /\ (fst (cleanupOldSuggestions dates clock now daysOld file) = 0%nat ->
        snd (cleanupOldSuggestions dates clock now daysOld file) = file).
Proof.
  intros dates clock now now' daysOld file.
  unfold cleanupOldSuggestions, getAllSuggestions.
  assert (Hl : suggestions (loadQueue now' file) = suggestions (loadQueue now file))
    by (destruct file; reflexivity).
  rewrite Hl. set (l := suggestions (loadQueue now file)).
  set (keep := keepOnCleanup dates (minusDays dates clock daysOld)).
  assert (Hopen : forall s, In s l ->
            status s = pending \/ status s = processing
            \/ truthy_opt (processedAt s) = false ->
            In s (filter keep l)).
  { intros s Hin Hs. apply filter_In. split; [exact Hin|].
    unfold keep, keepOnCleanup. destruct Hs as [->|[->|Hs]]; try reflexivity.
    rewrite Hs. now destruct (status s). }
  destruct (Nat.ltb_spec 0 (List.length l - List.length (filter keep l)))
    as [Hpos|Hzero]; simpl.
  - split; [reflexivity|]. split; [exact Hopen|]. split.
    + intros s Hin. now apply filter_In in Hin.
    + intros H0. exfalso. fold keep in H0. lia.
  - assert (E : filter keep l = l) by (apply filter_subset_length; lia).
    rewrite Hl. fold l. split; [fold keep; lia|].
    split; [intros s Hin _; exact Hin|]. split; auto.
Qed.

End QueueOperations.

(** ** More on the proposal history *)

Section HistoryOperations.

Import ProposalHistory.

Lemma scanProposals_window cutoffTime ps entries :
  scanProposals cutoffTime ps = Some entries ->
  Forall (fun e => cutoffTime <= submittedAt e
                   /\ valid_time (submittedAt e) = true) entries
  /\ (List.length entries <= List.length ps)%nat.
Proof.
  revert entries. induction ps as [|p rest IH]; simpl; intros entries H.
  - injection H as <-. split; [constructor|simpl; lia].
  - destruct (sp_timeCreated p) as [t|]; simpl in H.
    + destruct (t * 1000 <? cutoffTime) eqn:Et;
        [injection H as <-; split; [constructor|simpl; lia]|].
      apply Z.ltb_ge in Et.
      destruct (extractCoinAddressFromDescription (sp_description p)).
      * destruct (valid_time (t * 1000)) eqn:Ev; [|discriminate].
        destruct (sp_snapshotBlockNumber p); [|discriminate].
        destruct (scanProposals cutoffTime rest) as [more|]; [|discriminate].
        injection H as <-. destruct (IH more eq_refl) as [Hw Hl].
        split; [constructor; [split; [exact Et|exact Ev]|exact Hw]|simpl; lia].
      * destruct (IH entries H) as [Hw Hl]. split; [exact Hw|lia].
    + destruct (extractCoinAddressFromDescription (sp_description p));
        [discriminate|].
      destruct (IH entries H) as [Hw Hl]. split; [exact Hw|lia].
Qed.

(** What [getRecentProposals] returns, by what the request received. *)
Lemma getRecentProposals_cases sg now windowMs :
  getRecentProposals sg now windowMs = []
  \/ exists errors ps,
       fetchProposals sg 100 = Payload errors (Some ps)
       /\ scanProposals (now - windowMs) ps
          = Some (getRecentProposals sg now windowMs).
Proof.
  unfold getRecentProposals.
  destruct (fetchProposals sg 100) as [m|st tx|m|errors data]; try now left.
  destruct errors; [now left|].
  destruct data as [ps|]; [|now left].
  destruct (scanProposals (now - windowMs) ps) as [entries|] eqn:E; [|now left].
  right. exists false, ps. split; [reflexivity|exact E].
Qed.

Lemma getRecentProposals_window sg now windowMs :
  Forall (fun e => now - windowMs <= submittedAt e
                   /\ valid_time (submittedAt e) = true)
         (getRecentProposals sg now windowMs).
Proof.
  destruct (getRecentProposals_cases sg now windowMs)
    as [->|[errors [ps [_ E]]]]; [constructor|].
  now apply scanProposals_window in E.
Qed.

(** X8: every entry [getRecentProposals] returns was submitted at or after
    [now - windowMs] and carries a date that [toISOString] accepts; the
    entries are never more than the proposals the answer carries, and there
    are none when the request fails or the answer carries no proposals. *)
Theorem getRecentProposals_within_window :
  forall sg now windowMs,
    Forall (fun e => now - windowMs <= submittedAt e
                     /\ valid_time (submittedAt e) = true)
           (getRecentProposals sg now windowMs)
    /\ match fetchProposals sg 100 with
       | Payload _ (Some ps) =>
           (List.length (getRecentProposals sg now windowMs)
            <= List.length ps)%nat
       | _ => getRecentProposals sg now windowMs = []
       end.
Proof.
  intros sg now windowMs. split; [apply getRecentProposals_window|].
  destruct (getRecentProposals_cases sg now windowMs)
    as [E|[errors [ps [Ef E]]]].
  - rewrite E. destruct (fetchProposals sg 100) as [m|st tx|m|errors [ps|]];
      try reflexivity. simpl. lia.
  - rewrite Ef. now apply scanProposals_window in E.
Qed.

Lemma scanProposals_stops cutoffTime a old rest t :
  sp_timeCreated old = Some t -> t * 1000 < cutoffTime ->
  scanProposals cutoffTime (a ++ old :: rest) = scanProposals cutoffTime a.
Proof.
  intros Ht Hold. induction a as [|p a IH]; simpl.
  - rewrite Ht. simpl. apply Z.ltb_lt in Hold. now rewrite Hold.
  - now rewrite IH.
Qed.

(** X9: the scan stops at the first proposal older than the cutoff: what the
    index lists after such a proposal has no effect on the result, even when
    it lies inside the window. *)
Theorem getRecentProposals_stops_at_first_old :
  forall a old rest now windowMs t,
    sp_timeCreated old = Some t ->
    t * 1000 < now - windowMs ->
    getRecentProposals (Index (a ++ old :: rest)) now windowMs
    = getRecentProposals (Index a) now windowMs.
Proof.
  intros a old rest now windowMs t Ht Hold.
  unfold getRecentProposals, fetchProposals.
  rewrite firstn_app.
  destruct (100 - List.length a)%nat as [|k] eqn:Ek.
  - rewrite firstn_O, app_nil_r. reflexivity.
  - rewrite firstn_cons, (firstn_all2 a) by lia.
    now rewrite (scanProposals_stops _ _ _ _ _ Ht Hold).
Qed.

Lemma scanProposals_throws cutoffTime a bad rest :
  forallb (fresh cutoffTime) a = true ->
  fresh cutoffTime bad = true ->
  unreadable bad = true ->
  scanProposals cutoffTime (a ++ bad :: rest) = None.
Proof.
  intros Ha Hf Hu. induction a as [|p a IH]; simpl in *.
  - unfold fresh in Hf. unfold unreadable in Hu.
    destruct (extractCoinAddressFromDescription (sp_description bad));
      [|discriminate].
    destruct (sp_timeCreated bad) as [t|]; simpl; [|reflexivity].
    apply negb_true_iff in Hf. rewrite Hf.
    destruct (valid_time (t * 1000)); simpl in Hu; [|reflexivity].
    destruct (sp_snapshotBlockNumber bad); [discriminate|reflexivity].
  - apply andb_prop in Ha. destruct Ha as [Hp Ha]. rewrite (IH Ha).
    unfold fresh in Hp.
    destruct (sp_timeCreated p) as [t|]; simpl.
    + apply negb_true_iff in Hp. rewrite Hp.
      destruct (extractCoinAddressFromDescription (sp_description p));
        [|reflexivity].
      destruct (valid_time (t * 1000)); [|reflexivity].
      destruct (sp_snapshotBlockNumber p); reflexivity.
    + destruct (extractCoinAddressFromDescription (sp_description p));
        reflexivity.
Qed.

(** X10: one unreadable proposal blanks the history.  When the scan reaches,
    among the 100 newest, a proposal that names a coin but whose creation
    time is no valid date or whose block number does not convert,
    [getRecentProposals] returns the empty list (the entries collected before
    it are lost), and [wasRecentlyProposed] then finds nothing for any
    coin. *)
Theorem unreadable_proposal_blanks_history :
  forall a bad rest now windowMs coin,
    (List.length a < 100)%nat ->
    forallb (fresh (now - windowMs)) a = true ->
    fresh (now - windowMs) bad = true ->
    unreadable bad = true ->
    getRecentProposals (Index (a ++ bad :: rest)) now windowMs = []
    /\ wasRecentlyProposed (Index (a ++ bad :: rest)) now coin windowMs = None.
Proof.
  intros a bad rest now windowMs coin Hlen Ha Hf Hu.
  assert (E : getRecentProposals (Index (a ++ bad :: rest)) now windowMs = []).
  { unfold getRecentProposals, fetchProposals. rewrite firstn_app.
    destruct (100 - List.length a)%nat as [|k] eqn:Ek; [lia|].
    rewrite firstn_cons, (firstn_all2 a) by lia.
    now rewrite (scanProposals_throws _ _ _ _ Ha Hf Hu). }
  split; [exact E|]. unfold wasRecentlyProposed. now rewrite E.
Qed.

(** X11: an entry returned by [wasRecentlyProposed] is one of the recent
    proposals, names the coin asked for (letter case aside) and lies inside
    the window; when nothing is returned no recent proposal names the coin;
    and the letter case of the argument does not matter. *)
Theorem wasRecentlyProposed_sound :
  forall sg now coin windowMs,
    match wasRecentlyProposed sg now coin windowMs with
    | Some e =>
        In e (getRecentProposals sg now windowMs)
        /\ toLowerCase (coinAddress e) = toLowerCase coin
        /\ now - windowMs <= submittedAt e
    | None =>
        forall e, In e (getRecentProposals sg now windowMs) ->
                  toLowerCase (coinAddress e) <> toLowerCase coin
    end
    /\ wasRecentlyProposed sg now (toLowerCase coin) windowMs
       = wasRecentlyProposed sg now coin windowMs.
Proof.
  intros sg now coin windowMs. unfold wasRecentlyProposed, find. split.
  - destruct (List.find _ _) as [e|] eqn:E.
    + apply find_some in E. destruct E as [Hin Hs].
      unfold same_coin in Hs. apply String.eqb_eq in Hs.
      repeat split; auto.
      pose proof (getRecentProposals_window sg now windowMs) as Hw.
      rewrite Forall_forall in Hw. now apply Hw.
    + intros e Hin He. apply (find_none _ _ E) in Hin.
      unfold same_coin in Hin. apply String.eqb_neq in Hin. contradiction.
  - now rewrite toLowerCase_idem.
Qed.

(** X12: [filterRecentlyProposedCoins] and [wasRecentlyProposed] agree on
    one history: an address is allowed exactly when it is in the input and
    [wasRecentlyProposed] finds nothing for it, and excluded exactly when it
    is in the input and [wasRecentlyProposed] finds an entry. *)
Theorem filter_agrees_with_single_check :
  forall sg fetchNow now coins windowMs c,
    (In c (fst (filterRecentlyProposedCoins sg fetchNow now coins windowMs))
     <-> In c coins /\ wasRecentlyProposed sg fetchNow c windowMs = None)
    /\ (In c (map ex_coinAddress
                (snd (filterRecentlyProposedCoins sg fetchNow now coins windowMs)))
        <-> In c coins /\ wasRecentlyProposed sg fetchNow c windowMs <> None).
Proof.
  intros sg fetchNow now coins windowMs c.
  unfold filterRecentlyProposedCoins, wasRecentlyProposed.
  rewrite partitionCoins_allowed, partitionCoins_excluded.
  rewrite !filter_In. unfold matched.
  destruct (find _ _); simpl; split; split; intros [H1 H2];
    split; auto; try discriminate; congruence.
Qed.

End HistoryOperations.

Section HistoryParsing.

Import ProposalHistory.
Import Scenarios.
Import Examples.

(** X9, witness: a purchase listed behind a proposal from 2020 is not seen. *)
Lemma getRecentProposals_stops_at_first_old_witness :
  sp_timeCreated stale = Some 1600000000
  /\ 1600000000 * 1000 < noon - day
  /\ getRecentProposals (Index ([quiet 1699999000] ++ stale :: [recent_buy]))
       noon day
     = getRecentProposals (Index [quiet 1699999000]) noon day.
Proof.
  split; [reflexivity|]. split; [reflexivity|].
  apply (getRecentProposals_stops_at_first_old [quiet 1699999000] stale
           [recent_buy] noon day 1600000000); reflexivity.
Defined.

(** X10, witness: a readable purchase followed by one without block number. *)
Lemma unreadable_proposal_blanks_history_witness :
  unreadable broken = true
  /\ option_map proposalId
       (wasRecentlyProposed (Index [recent_buy]) noon coin_jesse day)
     = Some "0xbuy"
  /\ wasRecentlyProposed (Index ([recent_buy] ++ broken :: [])) noon coin_jesse day
     = None.
Proof.
  split; [reflexivity|]. split; [vm_compute; reflexivity|].
  apply (unreadable_proposal_blanks_history [recent_buy] broken [] noon day
           coin_jesse); try reflexivity.
  simpl. lia.
Defined.

Lemma take_hex_spec n s h :
  take_hex n s = Some h -> String.length h = n /\ all_hex h = true.
Proof.
  revert s h. induction n as [|n IH]; simpl; intros s h H.
  - injection H as <-. split; reflexivity.
  - destruct s as [|c r]; [discriminate|].
    destruct (is_hex c) eqn:Ec; [|discriminate].
    destruct (take_hex n r) as [h'|] eqn:E; [|discriminate].
    injection H as <-. destruct (IH _ _ E) as [Hl Hh]. simpl.
    rewrite Ec, Hh, Hl. split; reflexivity.
Qed.

Lemma take_hex_app h tail :
  all_hex h = true -> take_hex (String.length h) (h ++ tail) = Some h.
Proof.
  induction h as [|c h IH]; simpl; intros H; [reflexivity|].
  apply andb_prop in H. destruct H as [Hc Hh]. now rewrite Hc, (IH Hh).
Qed.

Lemma address_here_shape ci label s a :
  address_here ci label s = Some a -> is_address a = true.
Proof.
  unfold address_here. destruct (strip_literal ci label s) as [r|]; [|discriminate].
  destruct (skip_spaces r) as [|z [|x r']]; try discriminate.
  destruct (Ascii.eqb z "0") eqn:Ez; cbn [andb]; [|discriminate].
  destruct (if ci then _ else _) eqn:Ex; [|discriminate].
  destruct (take_hex 40 r') as [h|] eqn:Eh; [|discriminate].
  intros H. injection H as <-. apply take_hex_spec in Eh. destruct Eh as [Hl Hh].
  unfold is_address. rewrite Ez, Hl, Hh. cbn [andb Nat.eqb].
  destruct ci; [now rewrite Ex|].
  apply Ascii.eqb_eq in Ex. now subst x.
Qed.

Lemma search_found {A} (m : string -> option A) s a :
  search m s = Some a -> exists s', m s' = Some a.
Proof.
  induction s as [|c r IH]; simpl.
  - destruct (m EmptyString) eqn:E; [|discriminate].
    intros H. injection H as <-. now exists EmptyString.
  - destruct (m (String c r)) eqn:E.
    + intros H. injection H as <-. now exists (String c r).
    + exact IH.
Qed.

(** X13: whatever the description, an address extracted from it has the
    shape [0x] (or [0X], through the third pattern) followed by exactly 40
    hexadecimal digits. *)
Theorem extracted_address_is_well_formed :
  forall description a,
    extractCoinAddressFromDescription description = Some a ->
    is_address a = true.
Proof.
  intros [d|] a; simpl; [|discriminate].
  destruct (truthy d); [|discriminate].
  destruct (search (address_here false "Address:") d) as [a1|] eqn:E1.
  - intros H. injection H as <-. apply search_found in E1.
    destruct E1 as [s' E1]. now apply address_here_shape in E1.
  - destruct (search (address_here false "Coin ID:") d) as [a2|] eqn:E2.
    + intros H. injection H as <-. apply search_found in E2.
      destruct E2 as [s' E2]. now apply address_here_shape in E2.
    + intros H. apply search_found in H.
      destruct H as [s' H]. now apply address_here_shape in H.
Qed.

(** X13, witness: the upper-case form accepted by the third pattern. *)
Lemma extracted_address_is_well_formed_witness :
  extractCoinAddressFromDescription
    (Some "COIN: 0X50F88FE97F72CD3E75B9EB4F747F59BCEBA80D59 bought")
  = Some "0X50F88FE97F72CD3E75B9EB4F747F59BCEBA80D59"
  /\ is_address "0X50F88FE97F72CD3E75B9EB4F747F59BCEBA80D59" = true.
Proof.
  split; [reflexivity|].
  apply (extracted_address_is_well_formed
           (Some "COIN: 0X50F88FE97F72CD3E75B9EB4F747F59BCEBA80D59 bought")).
  reflexivity.
Defined.

Lemma plain_address_parts a :
  is_plain_address a = true ->
  exists h, a = String "0" (String "x" h)
            /\ String.length h = 40%nat /\ all_hex h = true.
Proof.
  unfold is_plain_address. destruct a as [|z [|x h]]; try discriminate.
  intros H. apply andb_prop in H. destruct H as [H Hh].
  apply andb_prop in H. destruct H as [H Hl].
  apply andb_prop in H. destruct H as [Hz Hx].
  apply Ascii.eqb_eq in Hz, Hx. apply Nat.eqb_eq in Hl. subst.
  now exists h.
Qed.

Lemma address_here_at_label h tail :
  String.length h = 40%nat -> all_hex h = true ->
  address_here false "Address:"
    (String "A" (String "d" (String "d" (String "r" (String "e" (String "s"
       (String "s" (String ":" (String " " (String "0" (String "x"
          (h ++ tail))))))))))))
  = Some (String "0" (String "x" h)).
Proof.
  intros Hl Hh. unfold address_here.
  cbn [strip_literal Ascii.eqb Bool.eqb skip_spaces].
  change (is_space " ") with true. change (is_space "0") with false.
  cbv iota. rewrite ?Ascii.eqb_refl. cbn [Ascii.eqb Bool.eqb andb].
  rewrite <- Hl, take_hex_app by exact Hh. reflexivity.
Qed.

Lemma address_after_label a tail :
  is_plain_address a = true ->
  extractCoinAddressFromDescription (Some ("Address: " ++ a ++ tail)) = Some a.
Proof.
  intros H. destruct (plain_address_parts a H) as [h [-> [Hl Hh]]].
  unfold extractCoinAddressFromDescription.
  cbn [append truthy]. unfold search at 1.
  now rewrite (address_here_at_label h tail Hl Hh).
Qed.

(** X14: a description that starts with [Address: ] followed by a
    well-formed address gives that address back, whatever follows it. *)
Theorem extract_reads_back_address :
  forall a tail,
    is_plain_address a = true ->
    extractCoinAddressFromDescription (Some ("Address: " ++ a ++ tail)) = Some a.
Proof. exact address_after_label. Qed.

(** X14, witness. *)
Lemma extract_reads_back_address_witness :
  is_plain_address "0x50f88fe97f72cd3e75b9eb4f747f59bceba80d59" = true
  /\ extractCoinAddressFromDescription
       (Some ("Address: " ++ "0x50f88fe97f72cd3e75b9eb4f747f59bceba80d59"
              ++ " Symbol: jessepollak"))
     = Some "0x50f88fe97f72cd3e75b9eb4f747f59bceba80d59".
Proof.
  split; [reflexivity|].
  apply (extract_reads_back_address "0x50f88fe97f72cd3e75b9eb4f747f59bceba80d59"
           " Symbol: jessepollak").
  reflexivity.
Defined.

End HistoryParsing.

Section HistoryWindow.

Import ProposalHistory.
Import Scenarios.
Import Examples.

Lemma scanProposals_all_old cutoffTime olds :
  Forall (fun q => fresh cutoffTime q = false) olds ->
  scanProposals cutoffTime olds = Some [].
Proof.
  intros H. destruct olds as [|q r]; [reflexivity|].
  inversion H as [|? ? Hq _]. simpl. unfold fresh in Hq.
  destruct (sp_timeCreated q) as [t|]; [|discriminate]. simpl.
  apply negb_false_iff in Hq. now rewrite Hq.
Qed.

Lemma Forall_firstn {A} (P : A -> Prop) n (l : list A) :
  Forall P l -> Forall P (firstn n l).
Proof.
  revert n. induction l as [|x r IH]; intros [|n] H; simpl; try constructor.
  - now inversion H.
  - apply IH. now inversion H.
Qed.

(** X15: a readable proposal that names a coin right after [Address: ] is
    found by [wasRecentlyProposed], in any letter case of the coin, exactly
    when its creation time is not before [now - windowMs] (the other
    proposals of the index being older than the window). *)
Theorem proposal_found_iff_inside_window :
  forall p olds a tail t bn now windowMs coin,
    sp_description p = Some ("Address: " ++ a ++ tail) ->
    is_plain_address a = true ->
    sp_timeCreated p = Some t ->
    valid_time (t * 1000) = true ->
    sp_snapshotBlockNumber p = Some bn ->
    Forall (fun q => fresh (now - windowMs) q = false) olds ->
    toLowerCase coin = toLowerCase a ->
    option_map proposalId
      (wasRecentlyProposed (Index (p :: olds)) now coin windowMs)
    = if t * 1000 <? now - windowMs then None else Some (sp_proposalId p).
Proof.
  intros p olds a tail t bn now windowMs coin Hd Ha Ht Hv Hb Hold Hc.
  unfold wasRecentlyProposed, getRecentProposals, fetchProposals.
  rewrite firstn_cons. cbn [scanProposals]. rewrite Ht. cbn [option_map].
  destruct (t * 1000 <? now - windowMs); [reflexivity|].
  rewrite Hd, (address_after_label a tail Ha), Hv, Hb.
  rewrite (scanProposals_all_old _ _ (Forall_firstn _ 99 _ Hold)).
  unfold find. cbn [List.find]. unfold same_coin at 1. cbn [coinAddress].
  rewrite Hc, String.eqb_refl. reflexivity.
Qed.

(** X15, witness: the purchase of two hours ago, seen through a window of 24
    hours and through one of one hour. *)
Lemma proposal_found_iff_inside_window_witness :
  option_map proposalId
    (wasRecentlyProposed (Index (labelled_buy 1699992800 :: [stale])) noon
       coin_jesse day) = Some "0xbuy"
  /\ wasRecentlyProposed (Index (labelled_buy 1699992800 :: [stale])) noon
       coin_jesse (60 * 60 * 1000) = None.
Proof.
  split.
  - apply (proposal_found_iff_inside_window (labelled_buy 1699992800) [stale]
             "0x50f88fe97f72cd3e75b9eb4f747f59bceba80d59" " Amount: 0.01 ETH"
             1699992800 900 noon day coin_jesse); try reflexivity.
    repeat constructor.
  - reflexivity.
Defined.

End HistoryWindow.

(** ** More on the allocation calculator *)

Section AllocationOperations.

Import Float64.
Import CalculateAllocation.
Import Scenarios.

Lemma read_digits_nonneg s : forall acc,
  0 <= acc -> 0 <= fst (fst (read_digits acc s)).
Proof.
  induction s as [|c r IH]; intros acc Hacc; simpl; [exact Hacc|].
  destruct (is_digit c); [|exact Hacc].
  specialize (IH (acc * 10 + Z.of_nat (nat_of_ascii c - 48))).
  destruct (read_digits _ r) as [[v k] rest]. simpl in *. apply IH. lia.
Qed.

Lemma readDecimal_nonneg s q : readDecimal s = Some q -> (0 <= q)%Q.
Proof.
  unfold readDecimal.
  pose proof (read_digits_nonneg s 0 (Z.le_refl 0)) as Hi.
  destruct (read_digits 0 s) as [[ip ik] rest]. simpl in Hi.
  assert (Hw : forall q', match ik with O => None | _ => Some (inject_Z ip) end
                          = Some q' -> (0 <= q')%Q).
  { intros q' H. destruct ik; [discriminate|]. injection H as <-.
    unfold Qle. simpl. lia. }
  destruct rest as [|c r]; [apply Hw|].
  destruct (Ascii.eqb c "."); [|apply Hw].
  pose proof (read_digits_nonneg r 0 (Z.le_refl 0)) as Hf.
  destruct (read_digits 0 r) as [[fp fk] rest']. simpl in Hf.
  assert (Hq : (0 <= inject_Z ip + inject_Z fp / inject_Z (10 ^ Z.of_nat fk))%Q).
  { assert (H10 : 0 < 10 ^ Z.of_nat fk) by (apply Z.pow_pos_nonneg; lia).
    apply Qle_trans with (inject_Z ip); [unfold Qle; simpl; lia|].
    rewrite <- (Qplus_0_r (inject_Z ip)) at 1. apply Qplus_le_r.
    apply Qle_shift_div_l; [unfold Qlt; simpl; lia|].
    rewrite Qmult_0_l. unfold Qle. simpl. lia. }
  destruct ik, fk; intros H; try discriminate; injection H as <-; exact Hq.
Qed.

(** A number that is not negative: [NaN] apart. *)
Lemma product_nonneg x :
  match x with Finite v => (0 <= v)%Q | Infinity s => s = false | NaN => True end ->
  match mul x ether with
  | Finite v => (0 <= v)%Q
  | Infinity s => s = false
  | NaN => True
  end.
Proof.
  destruct x as [|s|v]; intros H; [exact I|subst; reflexivity|].
  unfold mul, ether.
  destruct (round_nonneg (v * inject_Z (10 ^ 18))) as [->|[u [-> Hu]]].
  - apply Qmult_le_0_compat; [exact H|discriminate].
  - reflexivity.
  - exact Hu.
Qed.

Lemma BigInt_floor_nonneg x z :
  match x with Finite v => (0 <= v)%Q | Infinity s => s = false | NaN => True end ->
  BigInt (floor x) = Some z -> 0 <= z.
Proof.
  destruct x as [|s|v]; intros H E; try discriminate.
  unfold floor, BigInt in E. rewrite Qfloor_Z in E.
  destruct (Qeq_bool _ _); [|discriminate]. injection E as <-.
  change 0 with (Qfloor 0). now apply Qfloor_resp_le.
Qed.

Lemma proposalValue_nonneg p : 0 <= proposalValue p.
Proof.
  unfold proposalValue. destruct (state p) as [st|m]; [|lia].
  destruct (is_active st); [|lia].
  destruct (description p) as [d|]; [|lia].
  destruct (search amount_here d) as [m|]; [|lia].
  destruct (BigInt _) as [z|] eqn:E; [|lia].
  revert E. apply BigInt_floor_nonneg. apply product_nonneg.
  unfold parseFloat. destruct (readDecimal m) as [q|] eqn:Eq; [|exact I].
  apply readDecimal_nonneg in Eq.
  destruct (round_nonneg q Eq) as [->|[v [-> Hv]]]; [reflexivity|exact Hv].
Qed.

Lemma fold_total_shift ps acc :
  fold_left (fun totalValue proposal => totalValue + proposalValue proposal) ps acc
  = acc + fold_left (fun totalValue proposal => totalValue + proposalValue proposal)
            ps 0.
Proof.
  revert acc. induction ps as [|p r IH]; intros acc; simpl; [lia|].
  rewrite IH, (IH (proposalValue p)). lia.
Qed.

Lemma fold_total_nonneg ps :
  0 <= fold_left (fun totalValue proposal => totalValue + proposalValue proposal)
         ps 0.
Proof.
  induction ps as [|p r IH]; simpl; [lia|].
  rewrite fold_total_shift. pose proof (proposalValue_nonneg p). lia.
Qed.

(** X16: the total of active-proposal values is never negative, and a
    proposal whose state read throws, or whose state is not one of pending,
    active, succeeded, queued, adds nothing to it wherever it stands in the
    list. *)
Theorem getTotalActiveProposalValue_nonneg :
  forall fetched,
    0 <= getTotalActiveProposalValue fetched
    /\ forall before p after,
        match state p with Ok st => is_active st | Throw _ => false end = false ->
        getTotalActiveProposalValue (Data (Some (before ++ p :: after)%list))
        = getTotalActiveProposalValue (Data (Some (before ++ after)%list)).
Proof.
  intros fetched. split.
  - destruct fetched as [| | |[ps|]]; simpl; try lia. apply fold_total_nonneg.
  - intros before p after Hp. simpl. rewrite !fold_left_app. simpl.
    assert (E : proposalValue p = 0).
    { unfold proposalValue. destruct (state p) as [st|m]; [|reflexivity].
      now rewrite Hp. }
    rewrite E, Z.add_0_r. reflexivity.
Qed.

(** From 0.1 ETH on, [Number(allocationWei) / 1e18] is infinite or at least
    0.09999. *)
Lemma large_wei_quotient wei :
  10 ^ 17 <= wei ->
  match div (fromZ wei) ether with
  | Finite a => (9999 # 100000 <= a)%Q
  | Infinity s => s = false
  | NaN => False
  end.
Proof.
  intros H. change (10 ^ 17) with 100000000000000000 in H. unfold fromZ.
  destruct (round_large (inject_Z wei)) as [->|[a [-> Ha]]].
  - unfold Qle. simpl. lia.
  - reflexivity.
  - unfold div, ether. change (is_zero (inject_Z (10 ^ 18))) with false.
    cbv iota.
    assert (Hq : (99999 # 1000000 <= a / inject_Z (10 ^ 18))%Q).
    { apply Qle_shift_div_l; [reflexivity|].
      eapply Qle_trans; [|exact Ha].
      unfold Qle, Qmult. cbn [Qnum Qden inject_Z]. 
      change (10 ^ 18) with 1000000000000000000. lia. }
    destruct (Qlt_le_dec (a / inject_Z (10 ^ 18)) 1) as [Hlt|Hge].
    + destruct (round_small (a / inject_Z (10 ^ 18))) as [v [-> [Hl _]]];
        [eapply Qlt_le_trans; [|exact Hq]; reflexivity|exact Hlt|].
      eapply Qle_trans; [|exact Hl].
      apply Qle_trans with ((99999 # 1000000) - (1 # 9007199254740992))%Q;
        [unfold Qle; simpl; lia|].
      apply Qplus_le_l. exact Hq.
    + destruct (round_large (a / inject_Z (10 ^ 18)) Hge) as [->|[v [-> Hv]]];
        [reflexivity|].
      eapply Qle_trans; [|exact Hv].
      apply Qle_trans with (1 * (9007199254740991 # 9007199254740992))%Q;
        [unfold Qle; simpl; lia|].
      apply Qmult_le_compat_r; [exact Hge|discriminate].
Qed.

(** X17: the ceiling.  When the percentage times 100, computed in binary64,
    is an integer, and the available funds times that integer reach
    [10 ^ 21] (for the callers' 1 percent: 10 ETH available or more),
    [calculateProposalAllocation] returns ["0.1000"], however much more the
    treasury holds. *)
Theorem large_treasury_gives_maximum :
  forall w allocationPercent treasuryBalance pct,
    truthy_opt (DAO_TREASURY_ADDRESS w) = true ->
    getTreasuryBalance w = Ok treasuryBalance ->
    BigInt (mul (norm allocationPercent) (Finite 100)) = Some pct ->
    10 ^ 21
    <= (treasuryBalance - getTotalActiveProposalValue (proposalsFetch w)) * pct ->
    calculateProposalAllocation w allocationPercent = "0.1000".
Proof.
  intros w ap B k Haddr Hbal Hk Hbig. unfold calculateProposalAllocation.
  rewrite Haddr, Hbal, Hk. cbv beta zeta.
  set (wei := Z.quot _ 10000).
  assert (Hwei : 10 ^ 17 <= wei).
  { apply Z.quot_le_lower_bound; [lia|].
    change (10 ^ 21) with (10000 * 10 ^ 17) in Hbig. exact Hbig. }
  pose proof (large_wei_quotient wei Hwei) as Hx.
  destruct (clamp_within_bounds (div (fromZ wei) ether)) as [v [-> [_ [Hhi Hlo]]]].
  { intros E. now rewrite E in Hx. }
  assert (Hv : (9999 # 100000 <= v)%Q).
  { apply Hlo; [unfold Qle; simpl; lia|].
    destruct (div (fromZ wei) ether); assumption. }
  destruct (toFixed_four (9999 # 100000) highest v) as [n [-> [H1 H2]]];
    try assumption; try (unfold Qle; simpl; lia).
  replace n with 1000; [reflexivity|].
  assert (L : 1000 <= n) by (eapply Z.le_trans; [|exact H1]; vm_compute; discriminate).
  assert (U : n <= 1000) by (eapply Z.le_trans; [exact H2|]; vm_compute; discriminate).
  lia.
Qed.

Lemma all_amounts_count_back :
  forallb (fun n => counts_back (print_scaled 4 n)) (map Z.of_nat (seq 1 1000))
  = true.
Proof. vm_compute. reflexivity. Qed.

Lemma counts_back_range n :
  1 <= n <= 1000 -> counts_back (print_scaled 4 n) = true.
Proof.
  intros H. pose proof all_amounts_count_back as Hall.
  rewrite forallb_forall in Hall. apply Hall.
  apply in_map_iff. exists (Z.to_nat n). split; [lia|].
  apply in_seq. lia.
Qed.

Lemma commitment_any_active st amount :
  is_active st = true ->
  proposalValue (commitment st amount) = proposalValue (commitment 1 amount).
Proof. intros H. unfold proposalValue, commitment. simpl. now rewrite H. Qed.

(** X18: the amount [calculateProposalAllocation] returns, written into a
    description as [Amount: <amount> ETH], is what
    [getTotalActiveProposalValue] later counts for that proposal while it is
    active: between 10^14 and 10^17 wei, whatever the treasury and the
    percentage were. *)
Theorem allocation_is_counted_back :
  forall w allocationPercent st,
    is_active st = true ->
    10 ^ 14
    <= getTotalActiveProposalValue
         (Data (Some [commitment st
                        (calculateProposalAllocation w allocationPercent)]))
    <= 10 ^ 17.
Proof.
  intros w ap st Hst. simpl getTotalActiveProposalValue.
  rewrite (commitment_any_active st _ Hst).
  assert (Hc : counts_back (calculateProposalAllocation w ap) = true).
  { destruct (allocation_paths w ap) as [[-> _]|[n [Hn [-> _]]]].
    - vm_compute. reflexivity.
    - now apply counts_back_range. }
  unfold counts_back in Hc. apply andb_prop in Hc. destruct Hc as [H1 H2].
  apply Z.leb_le in H1, H2. lia.
Qed.

End AllocationOperations.

(** ** Discovery: [suggestBuys] *)

Section DiscoveryFacts.

Import SuggestBuys.

Lemma member_In a set : member a set = true <-> In a set.
Proof.
  unfold member. rewrite existsb_exists. split.
  - intros [x [Hin He]]. apply String.eqb_eq in He. now subst.
  - intros H. exists a. split; [exact H|apply String.eqb_refl].
Qed.

Lemma member_not_In a set : member a set = false <-> ~ In a set.
Proof.
  rewrite <- member_In. destruct (member a set); split; intros H.
  - discriminate.
  - exfalso. now apply H.
  - discriminate.
  - reflexivity.
Qed.

Lemma coinsOf_sources nodes c :
  In c (coinsOf nodes) ->
  exists node, In node nodes /\ n_address node = Some (address c).
Proof.
  induction nodes as [|n r IH]; simpl; [tauto|].
  destruct (n_address n) as [a|] eqn:Ea.
  - destruct (truthy a).
    + intros [<-|H].
      * exists n. split; [now left|exact Ea].
      * destruct (IH H) as [m [Hm Hc]]. exists m. split; [now right|exact Hc].
    + intros H. destruct (IH H) as [m [Hm Hc]]. exists m. split; [now right|exact Hc].
  - intros H. destruct (IH H) as [m [Hm Hc]]. exists m. split; [now right|exact Hc].
Qed.

Lemma dedupe_spec coins : forall seen,
  NoDup (map (fun c => toLowerCase (address c)) (dedupe seen coins))
  /\ (forall c, In c (dedupe seen coins) ->
                In c coins /\ ~ In (toLowerCase (address c)) seen).
Proof.
  induction coins as [|c rest IH]; intros seen; simpl.
  - split; [constructor|tauto].
  - destruct (member (toLowerCase (address c)) seen) eqn:E.
    + destruct (IH seen) as [Hnd Hin]. split; [exact Hnd|].
      intros x Hx. destruct (Hin x Hx). auto.
    + destruct (IH (toLowerCase (address c) :: seen)) as [Hnd Hin].
      apply member_not_In in E. split.
      * simpl. constructor; [|exact Hnd].
        intros Hc. apply in_map_iff in Hc. destruct Hc as [x [Hx Hxin]].
        destruct (Hin x Hxin) as [_ Hn]. apply Hn. left. now symmetry.
      * intros x [<-|Hx]; [auto|].
        destruct (Hin x Hx) as [H1 H2]. split; [now right|].
        intros H3. apply H2. now right.
Qed.

Lemma filter_keeps_distinct {A B} (key : A -> B) (keep : A -> bool) coins :
  NoDup (map key coins) -> NoDup (map key (filter keep coins)).
Proof.
  induction coins as [|x r IH]; simpl; intros H; [constructor|].
  inversion H as [|? ? Hx Hr]. destruct (keep x); simpl; [|now apply IH].
  constructor; [|now apply IH].
  intros Hc. apply Hx. apply in_map_iff in Hc. destruct Hc as [y [Hy Hin]].
  apply in_map_iff. exists y. split; [exact Hy|]. now apply filter_In in Hin.
Qed.

Lemma In_firstn {A} n (l : list A) x : In x (firstn n l) -> In x l.
Proof.
  revert n. induction l as [|a r IH]; intros [|n]; simpl; try tauto.
  intros [H|H]; [now left|right; now apply (IH n)].
Qed.

Lemma NoDup_map_firstn {A B} (f : A -> B) n (l : list A) :
  NoDup (map f l) -> NoDup (map f (firstn n l)).
Proof.
  revert n. induction l as [|x r IH]; intros [|n]; simpl; intros H;
    try constructor.
  - inversion H as [|? ? Hx Hr]. intros Hc. apply Hx.
    apply in_map_iff in Hc. destruct Hc as [y [Hy Hin]].
    apply in_map_iff. exists y. split; [exact Hy|]. now apply In_firstn in Hin.
  - inversion H. now apply IH.
Qed.

Lemma notProposed_no_entry w c :
  notProposed w c = true ->
  ProposalHistory.wasRecentlyProposed (subgraph w) (dateNow w) (address c)
    ProposalHistory.DUPLICATE_PREVENTION_WINDOW_MS = None.
Proof.
  unfold notProposed, recentlyProposedAddresses, ProposalHistory.wasRecentlyProposed.
  intros H. apply negb_true_iff, member_not_In in H.
  unfold find.
  destruct (List.find _ _) as [e|] eqn:E; [|reflexivity].
  exfalso. apply find_some in E. destruct E as [Hin Hs]. apply H.
  unfold ProposalHistory.same_coin in Hs. apply String.eqb_eq in Hs.
  rewrite <- Hs. apply in_map_iff. now exists e.
Qed.

(** What every coin offered to the model satisfies. *)
Lemma coinsForAI_members w holdings c :
  In c (coinsForAI w holdings) ->
  In c (allCoins w)
  /\ notHeld (heldCoinIds holdings) c = true
  /\ notProposed w c = true.
Proof.
  unfold coinsForAI, filteredCoins, nonHeldCoins, uniqueCoins. intros H.
  apply In_firstn in H. apply filter_In in H. destruct H as [H Hp].
  apply filter_In in H. destruct H as [H Hh].
  destruct (dedupe_spec (allCoins w) []) as [_ Hd].
  destruct (Hd c H) as [Hin _]. auto.
Qed.

Lemma coinsForAI_are_members_aux w holdings c :
  In c (coinsForAI w holdings) ->
  ~ In (toLowerCase (address c)) (heldCoinIds holdings)
  /\ ProposalHistory.wasRecentlyProposed (subgraph w) (dateNow w)
       (address c) ProposalHistory.DUPLICATE_PREVENTION_WINDOW_MS = None.
Proof.
  intros H. destruct (coinsForAI_members w holdings c H) as [_ [Hh Hp]].
  unfold notHeld in Hh. apply andb_prop in Hh. destruct Hh as [H1 _].
  apply negb_true_iff, member_not_In in H1.
  split; [exact H1|now apply notProposed_no_entry].
Qed.

(** X19: the candidates handed to the model are at most 20, carry pairwise
    different addresses (letter case aside), and each of them was delivered
    by an explore endpoint, is not among the holdings (neither the coin nor
    its creator) and has no proposal in the recent history. *)
Theorem coinsForAI_are_new_and_distinct :
  forall w holdings,
    (List.length (coinsForAI w holdings) <= 20)%nat
    /\ NoDup (map (fun c => toLowerCase (address c)) (coinsForAI w holdings))
    /\ forall c,
        In c (coinsForAI w holdings) ->
        In c (allCoins w)
        /\ ~ In (toLowerCase (address c)) (heldCoinIds holdings)
        /\ (forall cr, creator c = Some cr ->
                       ~ In (toLowerCase cr) (heldCoinIds holdings))
        /\ ProposalHistory.wasRecentlyProposed (subgraph w) (dateNow w)
             (address c) ProposalHistory.DUPLICATE_PREVENTION_WINDOW_MS = None.
Proof.
  intros w holdings. split; [apply firstn_le_length|]. split.
  - unfold coinsForAI, filteredCoins, nonHeldCoins, uniqueCoins.
    apply NoDup_map_firstn. apply filter_keeps_distinct. apply filter_keeps_distinct.
    apply (dedupe_spec (allCoins w) []).
  - intros c H. destruct (coinsForAI_members w holdings c H) as [Ha [Hh Hp]].
    unfold notHeld in Hh. apply andb_prop in Hh. destruct Hh as [H1 H2].
    apply negb_true_iff, member_not_In in H1.
    split; [exact Ha|]. split; [exact H1|]. split.
    + intros cr Hc. rewrite Hc in H2. now apply negb_true_iff, member_not_In in H2.
    + now apply notProposed_no_entry.
Qed.

(** X20: a suggestion returned by [suggestBuys] is for one of the candidates:
    the coin the model named (letter case aside), with the model's reason and
    confidence passed on unchanged (the confidence is not clamped); hence it
    is never a coin the DAO holds or one proposed inside the window. *)
Theorem suggestBuys_returns_a_candidate :
  forall w s,
    suggestBuys w = Ok (Some s) ->
    exists daoAddress holdings ai c,
      validateEnvironment w = Ok daoAddress
      /\ getDaoCoinHoldings w daoAddress = Ok holdings
      /\ getAIRecommendation w (coinsForAI w holdings) = Ok ai
      /\ In c (coinsForAI w holdings)
      /\ sc_coinId (coin s) = address c
      /\ toLowerCase (address c) = toLowerCase (r_coinId ai)
      /\ reason s = r_reason ai
      /\ confidenceScore s = r_confidenceScore ai
      /\ ~ In (toLowerCase (sc_coinId (coin s))) (heldCoinIds holdings)
      /\ ProposalHistory.wasRecentlyProposed (subgraph w) (dateNow w)
           (sc_coinId (coin s)) ProposalHistory.DUPLICATE_PREVENTION_WINDOW_MS
         = None.
Proof.
  intros w s. unfold suggestBuys.
  destruct (validateEnvironment w) as [dao|m]; [|discriminate].
  destruct (allCoins w); [discriminate|].
  destruct (getDaoCoinHoldings w dao) as [holdings|m] eqn:Eh; [|discriminate].
  destruct (nonHeldCoins w holdings); [discriminate|].
  destruct (filteredCoins w holdings) eqn:Ef; [discriminate|].
  destruct (getAIRecommendation w (coinsForAI w holdings)) as [ai|m] eqn:Ea;
    [|discriminate].
  destruct (find (same_address (r_coinId ai)) (coinsForAI w holdings))
    as [c|] eqn:Ec; [|discriminate].
  intros H. injection H as <-. apply find_some in Ec. destruct Ec as [Hin Hs].
  unfold same_address in Hs. apply String.eqb_eq in Hs.
  destruct (coinsForAI_are_members_aux w holdings c Hin) as [Hh Hp].
  exists dao, holdings, ai, c. simpl. repeat split; auto.
Qed.

End DiscoveryFacts.

(** ** The run orchestrator *)

Section OrchestratorFacts.

Import SuggestionsQueue.
Import Orchestrator.

Lemma cooldown_arith lastRun now :
  checkCooldown now (RunStamp (Some lastRun)) = true <-> now - lastRun < 720000.
Proof.
  unfold checkCooldown, COOLDOWN_MINUTES. rewrite negb_true_iff.
  destruct (Qle_bool 12 (inject_Z (now - lastRun) / inject_Z (1000 * 60))) eqn:E.
  - apply Qle_bool_iff in E. unfold Qle, Qdiv, Qmult, Qinv in E. simpl in E.
    split; [discriminate|]. intros H. exfalso. lia.
  - split; [intros _|reflexivity].
    destruct (Z_lt_le_dec (now - lastRun) 720000) as [Hlt|Hge]; [exact Hlt|].
    exfalso. assert (Hq : Qle_bool 12 (inject_Z (now - lastRun)
                                     / inject_Z (1000 * 60)) = true).
    { apply Qle_bool_iff. unfold Qle, Qdiv, Qmult, Qinv. simpl. lia. }
    congruence.
Qed.

(** X21: the cooldown is active exactly when fewer than 720000 milliseconds
    (twelve minutes) lie between the stamp and the clock, which includes a
    stamp in the future; a missing or unreadable run file, or one without a
    valid date, never blocks a run. *)
Theorem checkCooldown_exact :
  forall now lastRun,
    (checkCooldown now (RunStamp (Some lastRun)) = true
     <-> now - lastRun < 720000)
    /\ checkCooldown now NoRunFile = false
    /\ checkCooldown now BadRunFile = false
    /\ checkCooldown now (RunStamp None) = false.
Proof.
  intros now lastRun. split; [apply cooldown_arith|]. repeat split.
Qed.



(** X23: the queue is drained first.  When a suggestion is pending and the
    cooldown is over, the run processes the oldest pending suggestion; its
    result and the queue it leaves are those of [processQueuedSuggestion],
    and nothing of the discovery surroundings has any influence. *)
Theorem pending_suggestion_is_processed_first :
  forall r d d' writable now iso later queue marker q,
    checkCooldown now marker = false ->
    getNextSuggestion iso queue = Some q ->
    runAgentOnce r d writable now iso later queue marker
    = runAgentOnce r d' writable now iso later queue marker
    /\ result (runAgentOnce r d writable now iso later queue marker)
       = fst (Agent.processQueuedSuggestion r iso later q queue)
    /\ queueFile (runAgentOnce r d writable now iso later queue marker)
       = snd (Agent.processQueuedSuggestion r iso later q queue).
Proof.
  intros r d d' writable now iso later queue marker q Hc Hq.
  unfold runAgentOnce. rewrite Hc, Hq.
  destruct (Agent.processQueuedSuggestion r iso later q queue). repeat split.
Qed.





End OrchestratorFacts.

(** ** More on the analysis gate *)

Section GateOperations.

Import AnalyzeCreator.

Local Open Scope run_scope.

Lemma returns_ret {A} (P : A -> Prop) a : P a -> returns P (ret a).
Proof. intros H st x st' E. injection E as <- _. exact H. Qed.

Lemma returns_throw {A} (P : A -> Prop) e : returns P (@throw A e).
Proof. intros st x st' E. discriminate. Qed.

Lemma returns_bind {A B} (P : A -> Prop) (Q : B -> Prop) (m : M A) k :
  returns P m -> (forall a, P a -> returns Q (k a)) -> returns Q (bind m k).
Proof.
  intros Hm Hk st b st' E. unfold bind in E.
  destruct (m st) as [[a|e] st1] eqn:Em; [|discriminate].
  exact (Hk a (Hm _ _ _ Em) _ _ _ E).
Qed.

Lemma returns_any {A} (m : M A) : returns (fun _ => True) m.
Proof. intros st a st' _. exact I. Qed.

Lemma returns_try_catch {A} (P : A -> Prop) (m : M A) h :
  returns P m -> (forall e, returns P (h e)) -> returns P (try_catch m h).
Proof.
  intros Hm Hh st a st' E. unfold try_catch in E.
  destruct (m st) as [[x|e] st1] eqn:Em.
  - injection E as <- _. exact (Hm _ _ _ Em).
  - exact (Hh e _ _ _ E).
Qed.

Lemma clamp01_range x : (0 <= clamp01 x)%Q /\ (clamp01 x <= 1)%Q.
Proof.
  unfold clamp01, Math_max, Math_min.
  destruct (Qle_bool 1 x) eqn:E1.
  - change (Qle_bool 0 1) with true. cbv iota. split; discriminate.
  - apply Qle_bool_false in E1.
    destruct (Qle_bool 0 x) eqn:E0.
    + apply Qle_bool_iff in E0. split; assumption.
    + split; [apply Qle_refl|discriminate].
Qed.

Lemma analyzeCreatorCoinByUsername_confidence w user :
  returns (fun a => unit_interval (confidenceScore a))
          (analyzeCreatorCoinByUsername w user).
Proof.
  unfold analyzeCreatorCoinByUsername.
  destruct (negb (truthy user) || String.eqb (trim user) EmptyString)%bool;
    [apply returns_throw|].
  eapply returns_bind; [apply returns_any|intros env _].
  eapply returns_bind; [apply returns_any|intros _ _].
  apply returns_try_catch; [|intros e; apply returns_throw].
  eapply returns_bind; [apply returns_any|intros profile _].
  eapply returns_bind; [apply returns_any|intros coin _].
  eapply returns_bind; [apply returns_any|intros held _].
  eapply returns_bind with (P := fun ai => unit_interval (ai_confidenceScore ai)).
  - unfold getAIAnalysis.
    eapply returns_bind; [apply returns_any|intros n _].
    destruct (chatCompletion w n _); try apply returns_throw.
    apply returns_ret. simpl. apply clamp01_range.
  - intros ai Hai. apply returns_ret. exact Hai.
Qed.

Lemma keeps_try_catch {A} (m : M A) h :
  keeps_queue m -> (forall e, keeps_queue (h e)) -> keeps_queue (try_catch m h).
Proof.
  intros Hm Hh st. unfold try_catch. specialize (Hm st).
  destruct (m st) as [[a|e] st1]; simpl in Hm; [exact Hm|].
  now rewrite Hh.
Qed.

Lemma keeps_plain {A} (r : Result A) : keeps_queue (fun st => (r, st)).
Proof. intros st. reflexivity. Qed.

Lemma analyzeCreatorCoinByUsername_keeps_queue w user :
  keeps_queue (analyzeCreatorCoinByUsername w user).
Proof.
  unfold analyzeCreatorCoinByUsername.
  destruct (negb (truthy user) || String.eqb (trim user) EmptyString)%bool;
    [apply keeps_plain|].
  apply keeps_bind; [apply keeps_validateEnvironment|intros env].
  apply keeps_bind; [apply keeps_initializeZoraSDK|intros _].
  apply keeps_try_catch; [|intros e; apply keeps_plain].
  apply keeps_bind; [|intros profile].
  { unfold resolveCreatorProfile. destruct (startsWith user "0x");
      [apply keeps_plain|apply keeps_external]. }
  apply keeps_bind; [apply keeps_external|intros coin].
  apply keeps_bind; [|intros held].
  { unfold checkDaoHoldings.
    apply keeps_bind; [intros st; reflexivity|intros n].
    apply keeps_bind; [apply keeps_plain|intros holdings].
    destruct (find _ holdings); apply keeps_plain. }
  apply keeps_bind; [|intros ai; apply keeps_plain].
  unfold getAIAnalysis.
  apply keeps_bind; [intros st; reflexivity|intros n].
  destruct (chatCompletion w n _); apply keeps_plain.
Qed.

(** What a run of [analyzeAndPropose] does to the queue: nothing, or one
    [addSuggestionToQueue] for a coin that was not queued. *)
Lemma analyzeAndPropose_queue w user options st res st' :
  analyzeAndPropose w user options st = (res, st') ->
  (queue st' = queue st
   /\ forall r, res = Ok r -> proposalSubmitted r = SubmittedFalse)
  \/ exists r iso dn rnd input,
      res = Ok r
      /\ proposalSubmitted r = SubmittedPending
      /\ SuggestionsQueue.isCoinInQueue iso (coinId (analysis r)) (queue st) = false
      /\ queue st'
         = snd (SuggestionsQueue.addSuggestionToQueue dn rnd iso input (queue st))
      /\ SuggestionsQueue.in_coinId input = coinId (analysis r)
      /\ SuggestionsQueue.in_source input = SuggestionsQueue.manual
      /\ SuggestionsQueue.in_confidenceScore input = confidenceScore (analysis r)
      /\ (thresholdOf options <= confidenceScore (analysis r))%Q.
Proof.
  unfold analyzeAndPropose, bind at 1.
  pose proof (resolveCoin_keeps_queue w user st) as Hq1.
  destruct (resolveCoin w user st) as [[[profile coin]|e] st1]; simpl in Hq1.
  2:{ intros E. apply pair_equal_spec in E. destruct E as [<- <-]. left. split; [exact Hq1|discriminate]. }
  cbn [fst snd]. unfold bind at 1. rewrite wasRecentlyProposed_step.
  destruct (ProposalHistory.wasRecentlyProposed _ _ _ _) as [entry|].
  { unfold bind, ticks, ret. cbv beta iota. intros E. apply pair_equal_spec in E. destruct E as [<- <-].
    left. split; [exact Hq1|]. intros r H. injection H as <-. reflexivity. }
  set (st2 := {| trace := trace st1 ++ [HistoryQuery (ci_address coin)];
                 queue := queue st1 |}).
  unfold scoreAndQueue, bind at 1. fold (thresholdOf options).
  pose proof (analyzeCreatorCoinByUsername_keeps_queue w user st2) as Hq2.
  destruct (analyzeCreatorCoinByUsername w user st2) as [[a|e] st3];
    simpl in Hq2, Hq1.
  2:{ intros E. apply pair_equal_spec in E. destruct E as [<- <-]. left.
      split; [congruence|discriminate]. }
  assert (Eq : queue st3 = queue st) by congruence.
  destruct (Qle_bool (thresholdOf options) (confidenceScore a)) eqn:Et;
    cbn [negb].
  2:{ unfold ret. intros E. apply pair_equal_spec in E. destruct E as [<- <-]. left. split; [exact Eq|].
      intros r H. injection H as <-. reflexivity. }
  unfold bind, ticks, readQueue. cbv beta iota.
  destruct (SuggestionsQueue.isCoinInQueue _ (coinId a) (queue st3)) eqn:Ei.
  { unfold ret. intros E. apply pair_equal_spec in E. destruct E as [<- <-]. left. split; [exact Eq|].
    intros r H. injection H as <-. reflexivity. }
  unfold writeQueue, ret. cbv beta iota. intros E. apply pair_equal_spec in E. destruct E as [<- <-]. right.
  rewrite Eq in *.
  do 5 eexists. split; [reflexivity|]. cbn [proposalSubmitted analysis queue].
  split; [reflexivity|]. split; [exact Ei|]. split; [reflexivity|].
  cbn. repeat split. now apply Qle_bool_iff.
Qed.

(** X25: [analyzeAndPropose] never reports a submitted proposal; it writes
    the queue only when it answers ['pending']; and then it has appended
    exactly one record: pending, from source [manual], for the analysed coin,
    which was not queued before, with the analysed confidence, which is at
    least the threshold. *)
Theorem analyzeAndPropose_queues_or_leaves :
  forall w user options st now,
    (forall r, fst (analyzeAndPropose w user options st) = Ok r ->
               proposalSubmitted r <> SubmittedTrue)
    /\ ((forall r, fst (analyzeAndPropose w user options st) = Ok r ->
                   proposalSubmitted r <> SubmittedPending) ->
        queue (snd (analyzeAndPropose w user options st)) = queue st)
    /\ (forall r,
          fst (analyzeAndPropose w user options st) = Ok r ->
          proposalSubmitted r = SubmittedPending ->
          SuggestionsQueue.isCoinInQueue now (coinId (analysis r)) (queue st)
          = false
          /\ (thresholdOf options <= confidenceScore (analysis r))%Q
          /\ exists s,
              SuggestionsQueue.getAllSuggestions now
                (queue (snd (analyzeAndPropose w user options st)))
              = (SuggestionsQueue.getAllSuggestions now (queue st) ++ [s])%list
              /\ SuggestionsQueue.status s = SuggestionsQueue.pending
              /\ SuggestionsQueue.source s = SuggestionsQueue.manual
              /\ SuggestionsQueue.coinId s = coinId (analysis r)
              /\ SuggestionsQueue.confidenceScore s = confidenceScore (analysis r)).
Proof.
  intros w user options st now.
  destruct (analyzeAndPropose w user options st) as [res st'] eqn:E.
  cbn [fst snd].
  destruct (analyzeAndPropose_queue w user options st res st' E)
    as [[Hq Hf]|[r [iso [dn [rnd [input [Hr [Hp [Hi [Hq [Hc [Hs [Hcf Ht]]]]]]]]]]]]].
  - split; [|split].
    + intros r Hr. rewrite (Hf r Hr). discriminate.
    + intros _. exact Hq.
    + intros r Hr Hp. rewrite (Hf r Hr) in Hp. discriminate.
  - split; [|split].
    + intros r' Hr'. rewrite Hr in Hr'. injection Hr' as <-. rewrite Hp.
      discriminate.
    + intros Hn. exfalso. now apply (Hn r Hr).
    + intros r' Hr' _. rewrite Hr in Hr'. injection Hr' as <-.
      split; [|split; [exact Ht|]].
      * unfold SuggestionsQueue.isCoinInQueue,
          SuggestionsQueue.getPendingSuggestions in *.
        now destruct (queue st).
      * rewrite Hq. eexists. split.
        -- unfold SuggestionsQueue.addSuggestionToQueue,
             SuggestionsQueue.getAllSuggestions. simpl.
           now destruct (queue st).
        -- simpl. repeat split; assumption.
Qed.

Lemma analyzeAndPropose_confidence w user options :
  returns (fun r => unit_interval (confidenceScore (analysis r)))
          (analyzeAndPropose w user options).
Proof.
  unfold analyzeAndPropose.
  eapply returns_bind; [apply returns_any|intros pc _].
  eapply returns_bind; [apply returns_any|intros recent _].
  destruct recent as [entry|].
  - eapply returns_bind; [apply returns_any|intros n _].
    apply returns_ret. simpl. split; discriminate.
  - unfold scoreAndQueue.
    eapply returns_bind;
      [apply analyzeCreatorCoinByUsername_confidence|intros a Ha].
    destruct (negb _); [apply returns_ret; exact Ha|].
    eapply returns_bind; [apply returns_any|intros n _].
    eapply returns_bind; [apply returns_any|intros file _].
    destruct (SuggestionsQueue.isCoinInQueue _ _ file);
      [apply returns_ret; exact Ha|].
    eapply returns_bind; [apply returns_any|intros _ _].
    apply returns_ret. exact Ha.
Qed.

(** X26: every analysis [analyzeAndPropose] returns carries a confidence
    between 0 and 1, whatever number the model answered. *)
Theorem analyzeAndPropose_confidence_in_unit_interval :
  forall w user options st r st',
    analyzeAndPropose w user options st = (Ok r, st') ->
    (0 <= confidenceScore (analysis r))%Q
    /\ (confidenceScore (analysis r) <= 1)%Q.
Proof.
  intros w user options st r st' E.
  exact (analyzeAndPropose_confidence w user options st r st' E).
Qed.

Lemma NoDup_snoc {A} (l : list A) x : NoDup l -> ~ In x l -> NoDup (l ++ [x]).
Proof.
  intros Hl Hx. induction l as [|a r IH]; simpl.
  - constructor; [tauto|constructor].
  - inversion Hl as [|? ? Ha Hr]. constructor.
    + intros Hin. apply in_app_or in Hin. destruct Hin as [Hin|[->|[]]].
      * contradiction.
      * apply Hx. now left.
    + apply IH; [exact Hr|]. intros Hin. apply Hx. now right.
Qed.

(** X27: no coin is queued twice.  If the pending records of the queue name
    pairwise different coins (letter case aside), they still do after any
    run of [analyzeAndPropose], whatever its outcome. *)
Theorem analyzeAndPropose_keeps_pending_coins_distinct :
  forall w user options st now,
    NoDup (map (fun s => toLowerCase (SuggestionsQueue.coinId s))
             (SuggestionsQueue.getPendingSuggestions now (queue st))) ->
    NoDup (map (fun s => toLowerCase (SuggestionsQueue.coinId s))
             (SuggestionsQueue.getPendingSuggestions now
                (queue (snd (analyzeAndPropose w user options st))))).
Proof.
  intros w user options st now Hnd.
  destruct (analyzeAndPropose w user options st) as [res st'] eqn:E.
  cbn [fst snd].
  destruct (analyzeAndPropose_queue w user options st res st' E)
    as [[Hq _]|[r [iso [dn [rnd [input [_ [_ [Hi [Hq [Hc _]]]]]]]]]]].
  - now rewrite Hq.
  - rewrite Hq. unfold SuggestionsQueue.addSuggestionToQueue,
      SuggestionsQueue.getPendingSuggestions in *. simpl.
    assert (El : SuggestionsQueue.suggestions (SuggestionsQueue.loadQueue iso (queue st))
                 = SuggestionsQueue.suggestions
                     (SuggestionsQueue.loadQueue now (queue st)))
      by (destruct (queue st); reflexivity).
    rewrite El, filter_app, map_app. simpl.
    apply NoDup_snoc; [exact Hnd|].
    unfold SuggestionsQueue.isCoinInQueue,
      SuggestionsQueue.getPendingSuggestions in Hi. rewrite El in Hi.
    intros Hin. apply in_map_iff in Hin. destruct Hin as [s [Hs Hin]].
    assert (Hex : existsb
              (fun s0 => String.eqb (toLowerCase (SuggestionsQueue.coinId s0))
                           (toLowerCase (coinId (analysis r))))
              (filter SuggestionsQueue.is_pending
                 (SuggestionsQueue.suggestions
                    (SuggestionsQueue.loadQueue now (queue st)))) = true).
    { apply existsb_exists. exists s. split; [exact Hin|].
      apply String.eqb_eq. now rewrite Hs, Hc. }
    congruence.
Qed.

End GateOperations.

(** ** Witnesses of the further properties *)

Section MoreWitnesses.

Import Scenarios.
Import Examples.

(** X17, witness: 20 ETH available at 1 percent.  At 0.07 percent the
    product [0.07 * 100] is no integer in binary64, [BigInt] throws and the
    default amount is returned. *)
Lemma large_treasury_gives_maximum_witness :
  Float64.BigInt (Float64.mul (Float64.norm (Float64.Finite 1))
                              (Float64.Finite 100)) = Some 100
  /\ 10 ^ 21
     <= (20000000000000000000
         - CalculateAllocation.getTotalActiveProposalValue
             (CalculateAllocation.proposalsFetch rich)) * 100
  /\ CalculateAllocation.calculateProposalAllocation rich (Float64.Finite 1)
     = "0.1000"
  /\ Float64.BigInt (Float64.mul (Float64.norm (Float64.Finite (7 # 100)))
                                 (Float64.Finite 100)) = None
  /\ CalculateAllocation.calculateProposalAllocation rich
       (Float64.Finite (7 # 100)) = "0.01".
Proof.
  split; [reflexivity|]. split; [vm_compute; discriminate|].
  split; [|split; vm_compute; reflexivity].
  apply (large_treasury_gives_maximum rich (Float64.Finite 1)
           20000000000000000000 100);
    try reflexivity.
  vm_compute. discriminate.
Defined.

(** X18, witness: the 0.0050 ETH of the 10 ETH scenario, committed and
    queued for execution. *)
Lemma allocation_is_counted_back_witness :
  CalculateAllocation.is_active 5 = true
  /\ CalculateAllocation.getTotalActiveProposalValue
       (CalculateAllocation.Data
          (Some [CalculateAllocation.commitment 5
                   (CalculateAllocation.calculateProposalAllocation ten_eth
                      (Float64.Finite 1))]))
     = 5000000000000000
  /\ 10 ^ 14
     <= CalculateAllocation.getTotalActiveProposalValue
          (CalculateAllocation.Data
             (Some [CalculateAllocation.commitment 5
                      (CalculateAllocation.calculateProposalAllocation ten_eth
                         (Float64.Finite 1))]))
     <= 10 ^ 17.
Proof.
  split; [reflexivity|]. split; [vm_compute; reflexivity|].
  exact (allocation_is_counted_back ten_eth (Float64.Finite 1) 5 eq_refl).
Defined.

(** X20, witness: the market of [Examples] with a confident model. *)
Lemma suggestBuys_returns_a_candidate_witness :
  option_map (fun s => SuggestBuys.sc_coinId (SuggestBuys.coin s))
    match SuggestBuys.suggestBuys (market (Some (9 # 10))) with
    | Ok o => o
    | Throw _ => None
    end = Some coin_other
  /\ exists s daoAddress holdings,
      SuggestBuys.suggestBuys (market (Some (9 # 10))) = Ok (Some s)
      /\ SuggestBuys.getDaoCoinHoldings (market (Some (9 # 10))) daoAddress
         = Ok holdings
      /\ ~ In (toLowerCase (SuggestBuys.sc_coinId (SuggestBuys.coin s)))
              (SuggestBuys.heldCoinIds holdings).
Proof.
  split; [vm_compute; reflexivity|].
  eexists.
  destruct (suggestBuys_returns_a_candidate (market (Some (9 # 10))) _ eq_refl)
    as [dao [holdings [ai [c [_ [Hh [_ [_ [_ [_ [_ [_ [Hn _]]]]]]]]]]]]].
  exists dao, holdings. split; [reflexivity|]. split; [exact Hh|exact Hn].
Defined.


(** X23, witness: one pending suggestion, all external steps succeed; the
    record is gone afterwards. *)
Lemma pending_suggestion_is_processed_first_witness :
  option_map SuggestionsQueue.id
    (SuggestionsQueue.getNextSuggestion "2023-11-14T22:13:20.000Z" one_pending)
  = Some id_jesse
  /\ Orchestrator.runAgentOnce smooth (market (Some (9 # 10))) true noon
       "2023-11-14T22:13:20.000Z" "2023-11-14T22:13:25.000Z" one_pending
       Orchestrator.NoRunFile
     = Orchestrator.runAgentOnce smooth (market None) true noon
         "2023-11-14T22:13:20.000Z" "2023-11-14T22:13:25.000Z" one_pending
         Orchestrator.NoRunFile
  /\ SuggestionsQueue.getAllSuggestions "2023-11-14T22:13:30.000Z"
       (Orchestrator.queueFile
          (Orchestrator.runAgentOnce smooth (market None) true noon
             "2023-11-14T22:13:20.000Z" "2023-11-14T22:13:25.000Z" one_pending
             Orchestrator.NoRunFile)) = [].
Proof.
  split; [reflexivity|]. split; [|vm_compute; reflexivity].
  exact (proj1 (pending_suggestion_is_processed_first smooth
                  (market (Some (9 # 10))) (market None) true noon
                  "2023-11-14T22:13:20.000Z" "2023-11-14T22:13:25.000Z"
                  one_pending Orchestrator.NoRunFile _ eq_refl eq_refl)).
Defined.


(** X26, witness: the model answers 1.7; the analysis carries 1. *)
Lemma analyzeAndPropose_confidence_in_unit_interval_witness :
  exists r st',
    AnalyzeCreator.analyzeAndPropose keen_world coin_jesse no_options empty_run
    = (Ok r, st')
    /\ Qeq_bool (AnalyzeCreator.confidenceScore (AnalyzeCreator.analysis r)) 1
       = true
    /\ (0 <= AnalyzeCreator.confidenceScore (AnalyzeCreator.analysis r))%Q
    /\ (AnalyzeCreator.confidenceScore (AnalyzeCreator.analysis r) <= 1)%Q.
Proof.
  eexists. eexists. split; [vm_compute; reflexivity|].
  split; [reflexivity|].
  eapply (analyzeAndPropose_confidence_in_unit_interval keen_world coin_jesse
            no_options empty_run).
  vm_compute. reflexivity.
Defined.

(** X27, witness: the coin of the one pending record is analysed again with
    a keen model; the queue still holds it once. *)
Lemma analyzeAndPropose_keeps_pending_coins_distinct_witness :
  NoDup (map (fun s => toLowerCase (SuggestionsQueue.coinId s))
           (SuggestionsQueue.getPendingSuggestions "2023-11-14T22:13:20.000Z"
              (AnalyzeCreator.queue fresh_run)))
  /\ NoDup (map (fun s => toLowerCase (SuggestionsQueue.coinId s))
              (SuggestionsQueue.getPendingSuggestions "2023-11-14T22:13:20.000Z"
                 (AnalyzeCreator.queue
                    (snd (AnalyzeCreator.analyzeAndPropose keen_world coin_jesse
                            no_options fresh_run)))))
  /\ List.length
       (SuggestionsQueue.getPendingSuggestions "2023-11-14T22:13:20.000Z"
          (AnalyzeCreator.queue
             (snd (AnalyzeCreator.analyzeAndPropose keen_world coin_jesse
                     no_options fresh_run)))) = 1%nat.
Proof.
  assert (H : NoDup (map (fun s => toLowerCase (SuggestionsQueue.coinId s))
                       (SuggestionsQueue.getPendingSuggestions
                          "2023-11-14T22:13:20.000Z"
                          (AnalyzeCreator.queue fresh_run)))).
  { vm_compute. constructor; [intros []|constructor]. }
  split; [exact H|]. split; [|vm_compute; reflexivity].
  exact (analyzeAndPropose_keeps_pending_coins_distinct keen_world coin_jesse
           no_options fresh_run "2023-11-14T22:13:20.000Z" H).
Defined.

End MoreWitnesses.

(** ** The API server *)

Section ServerFacts.

Import Server.

Lemma statusName_eqb a b :
  String.eqb (statusName a) (statusName b) = SuggestionsQueue.Status_eqb a b.
Proof. destruct a, b; reflexivity. Qed.

Lemma filter_by_name st l :
  filter (fun s => String.eqb (statusName (SuggestionsQueue.status s))
                     (statusName st)) l
  = filter (SuggestionsQueue.has_status st) l.
Proof. apply filter_ext. intros s. apply statusName_eqb. Qed.

Lemma suggestions_loadQueue now now' file :
  SuggestionsQueue.suggestions (SuggestionsQueue.loadQueue now file)
  = SuggestionsQueue.suggestions (SuggestionsQueue.loadQueue now' file).
Proof. destruct file; reflexivity. Qed.

Lemma listed_by_status statsNow listNow st file :
  q_suggestions (getQueue statsNow listNow (Some (statusName st)) file)
  = filter (SuggestionsQueue.has_status st)
      (SuggestionsQueue.suggestions (SuggestionsQueue.loadQueue statsNow file)).
Proof.
  rewrite (suggestions_loadQueue statsNow listNow).
  unfold getQueue. cbn [q_suggestions].
  destruct st; cbn [statusName];
    [reflexivity
    |exact (filter_by_name SuggestionsQueue.processing _)
    |exact (filter_by_name SuggestionsQueue.completed _)
    |exact (filter_by_name SuggestionsQueue.failed _)].
Qed.

(** X28: [GET /api/queue] agrees with its own statistics.  Asked for one of
    the four statuses it lists records of that status only and their number
    is the statistics' count for it; asked without a filter (or with an empty
    one) it lists as many records as the statistics' total; asked for any
    other word it lists nothing. *)
Theorem queue_endpoint_counts_match_stats :
  forall statsNow listNow file,
    (forall st,
        q_count (getQueue statsNow listNow (Some (statusName st)) file)
        = statOf st (q_stats (getQueue statsNow listNow (Some (statusName st)) file))
        /\ Forall (fun s => SuggestionsQueue.status s = st)
             (q_suggestions
                (getQueue statsNow listNow (Some (statusName st)) file)))
    /\ q_count (getQueue statsNow listNow None file)
       = SuggestionsQueue.stats_total
           (q_stats (getQueue statsNow listNow None file))
    /\ getQueue statsNow listNow (Some "") file
       = getQueue statsNow listNow None file
    /\ forall f,
        truthy f = true ->
        (forall st, f <> statusName st) ->
        q_suggestions (getQueue statsNow listNow (Some f) file) = [].
Proof.
  intros statsNow listNow file. split; [|split; [|split]].
  - intros st. split.
    + change (q_count (getQueue statsNow listNow (Some (statusName st)) file))
        with (List.length
                (q_suggestions
                   (getQueue statsNow listNow (Some (statusName st)) file))).
      rewrite listed_by_status. destruct st; reflexivity.
    + rewrite listed_by_status. apply Forall_forall. intros s Hs.
      apply filter_In in Hs. destruct Hs as [_ Hs].
      unfold SuggestionsQueue.has_status in Hs.
      destruct (SuggestionsQueue.status s), st; (reflexivity || discriminate).
  - unfold getQueue. cbn. unfold SuggestionsQueue.getAllSuggestions.
    now rewrite (suggestions_loadQueue listNow statsNow).
  - reflexivity.
  - intros f Hf Hn. unfold getQueue. cbn [q_suggestions].
    destruct (String.eqb f "pending") eqn:Ep.
    { apply String.eqb_eq in Ep. exfalso.
      exact (Hn SuggestionsQueue.pending Ep). }
    rewrite Hf.
    induction (SuggestionsQueue.getAllSuggestions listNow file) as [|s l IH];
      [reflexivity|].
    cbn [filter].
    destruct (String.eqb (statusName (SuggestionsQueue.status s)) f) eqn:Es;
      [|exact IH].
    apply String.eqb_eq in Es. exfalso. exact (Hn _ (eq_sym Es)).
Qed.


End ServerFacts.

(** ** The proposal executor *)

Section ExecutorFacts.

Import Executor.






End ExecutorFacts.
